(** * Datadog alert documentation service: model and verified properties

    A shallow embedding of the alert pipeline of the repository:
    webhook ingest with deduplication (server/routes/webhook.js, the
    deduplicating revision), the document generator
    (server/services/documentGenerator.js), the template routes
    (server/routes/templates.js) and document search
    (server/routes/documents.js, netlify/functions/documents.js).

    Conventions of the model.
    - A JavaScript string is a [string] whose characters stand for the code
      units U+0000..U+00FF; [toLowerCase] and [trim] follow ECMAScript on that
      range.
    - A JavaScript value is a [value]; numbers are restricted to integers.
    - [uuidv4()] is a collision-free supply of identifiers: the n-th draw is
      identified with its index n.
    - Each request reads the clock once ([now], milliseconds since the epoch);
      ISO timestamps are represented by that number.
    - File-system operations are total operations on finite maps: I/O faults
      are outside the model.
    - Node and npm libraries that are not part of the repository (the md5
      digest, the Handlebars engine, moment's formatting) are parameters,
      collected in the record [Lib].

    The first part of the file is the model, one module per source file; the
    second part states and proves the properties, each group with the
    vocabulary its statements use. *)

From Stdlib Require Import ZArith Ascii.
From stdpp Require Import gmap strings list fin_maps pretty sorting.

Local Open Scope Z_scope.

(* stdpp's [naive_solver] clears hypotheses by name; the note it prints when
   one is already gone carries no information. *)
#[local] Set Warnings "-clear-no-such-hyp".

(** ** JavaScript strings *)

Module JsString.

Definition code (c : ascii) : N := N_of_ascii c.

(** [String.prototype.toLowerCase] on one code unit of the Latin-1 range:
    A..Z, and U+00C0..U+00DE except the multiplication sign U+00D7. *)
Definition lowerChar (c : ascii) : ascii :=
  let n := code c in
  if ((65 <=? n) && (n <=? 90))%N then ascii_of_N (n + 32)
  else if ((192 <=? n) && (n <=? 222) && negb (n =? 215))%N
       then ascii_of_N (n + 32)
  else c.

Fixpoint toLowerCase (s : string) : string :=
  match s with
  | EmptyString => EmptyString
  | String c r => String (lowerChar c) (toLowerCase r)
  end.

(** [s.startsWith(p)] *)
Fixpoint startsWith (p s : string) : bool :=
  match p, s with
  | EmptyString, _ => true
  | String a p', String b s' => if decide (a = b) then startsWith p' s' else false
  | String _ _, EmptyString => false
  end.

(** [s.includes(p)]: some suffix of [s] starts with [p]. *)
Fixpoint includes (p s : string) : bool :=
  if startsWith p s then true
  else match s with
       | EmptyString => false
       | String _ s' => includes p s'
       end.

Fixpoint drop (n : nat) (s : string) : string :=
  match n, s with
  | O, _ => s
  | S n', String _ s' => drop n' s'
  | S _, EmptyString => EmptyString
  end.

(** [s.replace(p, '')] with a string pattern: only the first occurrence of
    [p] is removed. *)
Fixpoint removeFirst (p s : string) : string :=
  if startsWith p s then drop (String.length p) s
  else match s with
       | EmptyString => EmptyString
       | String c s' => String c (removeFirst p s')
       end.

(** [s.split(c)[0]]: the text before the first [c]. *)
Fixpoint untilChar (c : ascii) (s : string) : string :=
  match s with
  | EmptyString => EmptyString
  | String a s' => if decide (a = c) then EmptyString
                   else String a (untilChar c s')
  end.

(** The text after the first [c]; [None] when [c] does not occur. *)
Fixpoint afterChar (c : ascii) (s : string) : option string :=
  match s with
  | EmptyString => None
  | String a s' => if decide (a = c) then Some s' else afterChar c s'
  end.

Definition newline : ascii := ascii_of_N 10.

(** [s.split('\n')[0]] *)
Definition firstLine (s : string) : string := untilChar newline s.

(** [s.split(c)[1]], or [None] for [undefined]. *)
Definition secondPart (c : ascii) (s : string) : option string :=
  untilChar c <$> afterChar c s.

(** White space and line terminators stripped by [trim], below U+0100. *)
Definition isWhite (c : ascii) : bool :=
  let n := code c in
  ((9 <=? n) && (n <=? 13) || (n =? 32) || (n =? 160))%N.

Fixpoint trimStart (s : string) : string :=
  match s with
  | EmptyString => EmptyString
  | String c s' => if isWhite c then trimStart s' else s
  end.

Fixpoint trimEnd (s : string) : string :=
  match s with
  | EmptyString => EmptyString
  | String c s' =>
      match trimEnd s' with
      | EmptyString => if isWhite c then EmptyString else String c EmptyString
      | r => String c r
      end
  end.

Definition trim (s : string) : string := trimEnd (trimStart s).

(** [s.substring(0, n)] *)
Fixpoint take (n : nat) (s : string) : string :=
  match n, s with
  | S n', String c s' => String c (take n' s')
  | _, _ => EmptyString
  end.

(** [parts.join(sep)] *)
Fixpoint join (sep : string) (parts : list string) : string :=
  match parts with
  | [] => ""
  | [x] => x
  | x :: rest => x +:+ sep +:+ join sep rest
  end.

(** The declarative reading of [includes]: [p] occurs in [s]. *)
Definition Contains (p s : string) : Prop :=
  ∃ pre post, s = pre +:+ p +:+ post.

(** Vocabulary for the specification of [trim]. *)
Fixpoint allWhite (s : string) : bool :=
  match s with
  | EmptyString => true
  | String c s' => isWhite c && allWhite s'
  end.

Definition firstChar (s : string) : option ascii :=
  match s with
  | EmptyString => None
  | String c _ => Some c
  end.

Fixpoint lastChar (s : string) : option ascii :=
  match s with
  | EmptyString => None
  | String c EmptyString => Some c
  | String _ s' => lastChar s'
  end.

(** Neither end of [s] is white space. *)
Definition Trimmed (s : string) : Prop :=
  (∀ c, firstChar s = Some c → isWhite c = false)
  ∧ (∀ c, lastChar s = Some c → isWhite c = false).

End JsString.

(** ** JavaScript values, exceptions and JSON *)

Module Js.
Import JsString.

(** A value as [JSON.parse] or an object literal builds it.  The property
    list of an object is in enumeration order and has distinct keys. *)
#[warnings="-register-all"]
Inductive value : Type :=
| VUndef
| VNull
| VBool (b : bool)
| VNum (n : Z)
| VStr (s : string)
| VArr (items : list value)
| VObj (props : list (string * value)).

(** A thrown [Error] object, identified with its [message]. *)
Inductive exn : Type := Exn (message : string).

Definition message (e : exn) : string := let 'Exn m := e in m.

Inductive result (A : Type) : Type :=
| Ok (a : A)
| Throw (e : exn).
Arguments Ok {A} a.
Arguments Throw {A} e.

(** Sequencing of computations that may throw: [x ← r; k] runs [k] on the
    result of [r] unless [r] threw. *)
#[global] Instance result_ret : MRet result := λ A a, Ok a.
#[global] Instance result_bind : MBind result := λ A B k r,
  match r with
  | Ok a => k a
  | Throw e => Throw e
  end.

(** ToBoolean *)
Definition truthy (v : value) : bool :=
  match v with
  | VUndef | VNull => false
  | VBool b => b
  | VNum n => negb (n =? 0)
  | VStr s => negb (String.eqb s "")
  | VArr _ | VObj _ => true
  end.

(** [a || b] *)
Definition or (a b : value) : value := if truthy a then a else b.

Fixpoint assoc {A} (k : string) (l : list (string * A)) : option A :=
  match l with
  | [] => None
  | (k', x) :: r => if decide (k = k') then Some x else assoc k r
  end.

(** [v.k] for a value that is neither [undefined] nor [null].  Only own
    properties of objects are modelled: every other read gives [undefined]. *)
Definition get (k : string) (v : value) : value :=
  match v with
  | VObj props => default VUndef (assoc k props)
  | _ => VUndef
  end.

(** [v.k = x] on an object: an existing property keeps its place. *)
Fixpoint assocSet {A} (k : string) (x : A) (l : list (string * A)) : list (string * A) :=
  match l with
  | [] => [(k, x)]
  | (k', y) :: r => if decide (k = k') then (k, x) :: r else (k', y) :: assocSet k x r
  end.

Definition set (k : string) (x : value) (v : value) : value :=
  match v with
  | VObj props => VObj (assocSet k x props)
  | _ => v
  end.

Definition isNullish (v : value) : bool :=
  match v with
  | VUndef | VNull => true
  | _ => false
  end.

Definition typeError (m : string) : exn := Exn m.

Definition hexDigit (n : N) : ascii :=
  ascii_of_N (if (n <? 10)%N then 48 + n else 87 + n).

(** QuoteJSONString on one code unit. *)
Definition dquote : string := String (ascii_of_N 34) "".

Definition escapeChar (c : ascii) : string :=
  let n := code c in
  if (n =? 34)%N then "\" +:+ dquote
  else if (n =? 92)%N then "\\"
  else if (n =? 8)%N then "\b"
  else if (n =? 9)%N then "\t"
  else if (n =? 10)%N then "\n"
  else if (n =? 12)%N then "\f"
  else if (n =? 13)%N then "\r"
  else if (n <? 32)%N then
    "\u00" +:+ String (hexDigit (n / 16)) (String (hexDigit (n mod 16)) "")
  else String c "".

Fixpoint escape (s : string) : string :=
  match s with
  | EmptyString => EmptyString
  | String c r => escapeChar c +:+ escape r
  end.

Definition quote (s : string) : string := dquote +:+ escape s +:+ dquote.

(** [JSON.stringify(v, keys)]: [None] stands for [undefined] (the property
    is left out of an object, and printed [null] in an array).  With an array
    replacer [Some ks], every object prints the listed properties only, in the
    order of [ks]. *)
Fixpoint stringify (keys : option (list string)) (v : value) : option string :=
  match v with
  | VUndef => None
  | VNull => Some "null"
  | VBool b => Some (if b then "true" else "false")
  | VNum n => Some (pretty n)
  | VStr s => Some (quote s)
  | VArr items =>
      let rendered :=
        (fix go (l : list value) : list string :=
           match l with
           | [] => []
           | x :: r => default "null" (stringify keys x) :: go r
           end) items in
      Some ("[" +:+ join "," rendered +:+ "]")
  | VObj props =>
      let rendered :=
        (fix go (l : list (string * value)) : list (string * option string) :=
           match l with
           | [] => []
           | (k, x) :: r => (k, stringify keys x) :: go r
           end) props in
      let member (k : string) (o : option string) : option string :=
        (λ s, quote k +:+ ":" +:+ s) <$> o in
      let members :=
        match keys with
        | None => omap (λ kx, member kx.1 kx.2) rendered
        | Some ks => omap (λ k, member k (mjoin (assoc k rendered))) ks
        end in
      Some ("{" +:+ join "," members +:+ "}")
  end.

(** ToString, as a template literal applies it. *)
Fixpoint toString (v : value) : string :=
  match v with
  | VUndef => "undefined"
  | VNull => "null"
  | VBool b => if b then "true" else "false"
  | VNum n => pretty n
  | VStr s => s
  | VArr items =>
      join "," ((fix go (l : list value) : list string :=
                   match l with
                   | [] => []
                   | x :: r => (if isNullish x then "" else toString x) :: go r
                   end) items)
  | VObj _ => "[object Object]"
  end.

End Js.

(** ** Libraries outside the repository *)

Module External.
Import Js.

(** A moment instant: milliseconds since the epoch, [None] for an invalid
    date. *)
Definition instant : Type := option Z.

Record Lib : Type := {
  (** [crypto.createHash('md5').update(s).digest('hex')] *)
  md5 : string → string;
  (** [Handlebars.compile(source)(context)] with the helpers that
      [setupHandlebarsHelpers] registers. *)
  hbsRender : string → value → result string;
  (** [moment.unix(v)] *)
  momentUnix : value → instant;
  (** A moment object as a template sees it. *)
  momentValue : instant → value;
  (** [m.format(pattern)] *)
  momentFormat : string → instant → string;
  (** [m.toISOString()] *)
  momentIso : instant → value;
  (** [m.fromNow()], at the given current time. *)
  momentFromNow : Z → instant → string;
}.

End External.

(** ** The document generator (server/services/documentGenerator.js) *)

Module Store.
Import Js.

(** The n-th identifier drawn from [uuidv4()]. *)
Definition uuidv4 (n : nat) : string := pretty n.
Arguments uuidv4 : simpl never.

(** data/templates/<id>.json *)
Record template : Type := {
  t_id : string;
  t_name : string;
  t_description : string;
  t_category : string;
  t_content : string;
  t_originalFilename : option string;
  t_fileSize : option Z;
  t_createdAt : Z;
  t_updatedAt : Z;
  t_usageCount : option nat;
  t_lastUsed : option Z;
}.

(** data/documents/<id>.json *)
Record document : Type := {
  d_id : string;
  d_title : string;
  d_content : string;
  d_alertType : value;
  d_priority : string;
  d_status : string;
  d_templateId : value;
  d_templateName : string;
  d_originalAlert : value;
  d_createdAt : Z;
  d_updatedAt : Z;
}.

(** An entry of [pendingAlerts], also written to data/alerts/<id>.json *)
Record alertData : Type := {
  a_id : string;
  a_timestamp : Z;
  a_alertHash : string;
  a_originalPayload : value;
  a_status : string;
  a_processedAt : option Z;
  a_documentId : option string;
  a_templateId : value;
}.

(** The state of the server process: the in-memory [Map] of pending
    alerts, in insertion order, the three data directories, and the number of
    identifiers drawn so far. *)
Record state : Type := {
  pendingAlerts : list (string * alertData);
  alertFiles : gmap string alertData;
  templateFiles : gmap string template;
  documentFiles : gmap string document;
  uuidDrawn : nat;
}.

Definition withPending (p : list (string * alertData)) (s : state) : state :=
  {| pendingAlerts := p; alertFiles := alertFiles s;
     templateFiles := templateFiles s; documentFiles := documentFiles s;
     uuidDrawn := uuidDrawn s |}.

Definition withAlertFiles (f : gmap string alertData) (s : state) : state :=
  {| pendingAlerts := pendingAlerts s; alertFiles := f;
     templateFiles := templateFiles s; documentFiles := documentFiles s;
     uuidDrawn := uuidDrawn s |}.

Definition withTemplateFiles (f : gmap string template) (s : state) : state :=
  {| pendingAlerts := pendingAlerts s; alertFiles := alertFiles s;
     templateFiles := f; documentFiles := documentFiles s;
     uuidDrawn := uuidDrawn s |}.

Definition withDocumentFiles (f : gmap string document) (s : state) : state :=
  {| pendingAlerts := pendingAlerts s; alertFiles := alertFiles s;
     templateFiles := templateFiles s; documentFiles := f;
     uuidDrawn := uuidDrawn s |}.

(** One draw of [uuidv4()]. *)
Definition drawUuid (s : state) : string * state :=
  (uuidv4 (uuidDrawn s),
   {| pendingAlerts := pendingAlerts s; alertFiles := alertFiles s;
      templateFiles := templateFiles s; documentFiles := documentFiles s;
      uuidDrawn := S (uuidDrawn s) |}).

End Store.

Module DocumentGenerator.
Import JsString Js External Store.

(** [determinePriority(alertData)] *)
Definition determinePriority (alertData : value) : result string :=
  if isNullish alertData
  then Throw (typeError "Cannot read properties of undefined (reading 'priority')")
  else
    let priority := or (get "priority" alertData) (get "alert_type" alertData) in
    let fromPriority : option string :=
      match priority with
      | VStr priority =>
          let p := toLowerCase priority in
          if includes "critical" p || includes "high" p || includes "error" p
          then Some "high"
          else if includes "warning" p || includes "medium" p || includes "warn" p
          then Some "medium"
          else if includes "info" p || includes "low" p
          then Some "low"
          else None
      | _ => None
      end in
    match fromPriority with
    | Some r => Ok r
    | None =>
        (* Default based on alert type *)
        match or (get "alert_type" alertData) (VStr "") with
        | VStr t =>
            let alertType := toLowerCase t in
            if includes "error" alertType || includes "critical" alertType
            then Ok "high"
            else if includes "warning" alertType || includes "anomaly" alertType
            then Ok "medium"
            else Ok "medium"
        | _ => Throw (typeError "(alertData.alert_type || '').toLowerCase is not a function")
        end
    end.

(** [extractTag(tags, key)] *)
Definition extractTag (tags : value) (key : string) : value :=
  match tags with
  | VArr items =>
      let tag := List.find (λ tag, match tag with
                                   | VStr t => startsWith (key +:+ ":") t
                                   | _ => false
                                   end) items in
      match tag with
      | Some (VStr t) =>
          if truthy (VStr t)
          then match secondPart ":"%char t with
               | Some v => VStr v
               | None => VUndef
               end
          else VStr ""
      | _ => VStr ""
      end
  | _ => VStr ""
  end.

Definition longFormat : string := "MMMM Do YYYY, h:mm:ss a".

Section WithLib.
Context (L : Lib).

(** [prepareTemplateContext(alertData)] at the current time [now]. *)
Definition prepareTemplateContext (now : Z) (alertData : value) : result value :=
  if isNullish alertData
  then Throw (typeError "Cannot read properties of undefined (reading 'id')")
  else
    priority ← determinePriority alertData;
    let date := get "date" alertData in
    let tags := get "tags" alertData in
    let m : instant := if truthy date then momentUnix L date else Some now in
    Ok (VObj [
      ("alert", VObj [
         ("id", or (get "id" alertData) (VStr "unknown"));
         ("type", or (get "alert_type" alertData) (VStr "unknown"));
         ("title", or (get "title" alertData) (VStr "Untitled Alert"));
         ("message", or (get "body" alertData) (or (get "message" alertData) (VStr "")));
         ("priority", VStr priority);
         ("status", or (get "alert_transition" alertData)
                       (or (get "status" alertData) (VStr "unknown")));
         ("url", or (get "link" alertData) (VStr ""));
         ("tags", or tags (VArr []))]);
      ("time", VObj [
         ("triggered", momentValue L m);
         ("formatted", VStr (momentFormat L longFormat m));
         ("iso", momentIso L m);
         ("unix", or date (VNum (now / 1000)));
         ("relative", if truthy date then VStr (momentFromNow L now m) else VStr "now")]);
      ("metric", VObj [
         ("name", or (get "metric_name" alertData) (or (get "metric" alertData) (VStr "")));
         ("value", or (get "metric_value" alertData) (or (get "value" alertData) (VStr "")));
         ("unit", or (get "unit" alertData) (VStr ""));
         ("threshold", or (get "threshold" alertData) (VStr ""));
         ("condition", or (get "condition" alertData) (VStr ""))]);
      ("host", VObj [
         ("name", or (get "hostname" alertData) (or (get "host" alertData) (VStr "")));
         ("ip", or (get "host_ip" alertData) (VStr ""));
         ("environment", or (extractTag tags "env")
                            (or (extractTag tags "environment") (VStr "")));
         ("service", or (extractTag tags "service") (VStr ""));
         ("team", or (extractTag tags "team") (VStr ""));
         ("region", or (extractTag tags "region") (VStr ""))]);
      ("org", VObj [
         ("name", or (get "org_name" alertData) (VStr ""));
         ("id", or (get "org_id" alertData) (VStr ""))]);
      ("raw", alertData);
      ("generated", VObj [
         ("at", momentIso L (Some now));
         ("formatted", VStr (momentFormat L longFormat (Some now)));
         ("by", VStr "Datadog Alert Documentation Generator")])]).

(** [generateDocumentTitle(alertData, context)] *)
Definition generateDocumentTitle (now : Z) (alertData : value) : string :=
  let alertTitle := or (get "title" alertData)
                       (or (get "message" alertData) (VStr "Alert Documentation")) in
  let timestamp := momentFormat L "YYYY-MM-DD HH:mm" (Some now) in
  toString alertTitle +:+ " - " +:+ timestamp.

(** [loadTemplate(templateId)]: the file <templateId>.json, if it exists. *)
Definition loadTemplate (templateId : value) (s : state) : option template :=
  templateFiles s !! toString templateId.

(** [saveDocument(document)] *)
Definition saveDocument (document : document) (s : state) : state :=
  withDocumentFiles (<[d_id document := document]> (documentFiles s)) s.

(** [updateTemplateUsage(templateId)] *)
Definition updateTemplateUsage (now : Z) (templateId : value) (s : state) : state :=
  match templateFiles s !! toString templateId with
  | Some template =>
      let template' :=
        {| t_id := t_id template; t_name := t_name template;
           t_description := t_description template;
           t_category := t_category template; t_content := t_content template;
           t_originalFilename := t_originalFilename template;
           t_fileSize := t_fileSize template;
           t_createdAt := t_createdAt template; t_updatedAt := t_updatedAt template;
           t_usageCount := Some (default 0%nat (t_usageCount template) + 1)%nat;
           t_lastUsed := Some now |} in
      withTemplateFiles (<[toString templateId := template']> (templateFiles s)) s
  | None => s
  end.

(** [generateDocument(alertData, templateId)]: the document or the exception
    thrown, and the state it leaves. *)
Definition generateDocument (now : Z) (alertData templateId : value) (s : state)
  : result document * state :=
  match loadTemplate templateId s with
  | None =>
      (Throw (Exn ("Template with ID " +:+ toString templateId +:+ " not found")), s)
  | Some template =>
      match context ← prepareTemplateContext now alertData;
            hbsRender L (t_content template) context with
      | Throw e => (Throw e, s)
      | Ok renderedContent =>
          let '(documentId, s) := drawUuid s in
          match determinePriority alertData with
          | Throw e => (Throw e, s)
          | Ok priority =>
              let document :=
                {| d_id := documentId;
                   d_title := generateDocumentTitle now alertData;
                   d_content := renderedContent;
                   d_alertType := or (get "alert_type" alertData) (VStr "unknown");
                   d_priority := priority;
                   d_status := "generated";
                   d_templateId := templateId;
                   d_templateName := t_name template;
                   d_originalAlert := alertData;
                   d_createdAt := now;
                   d_updatedAt := now |} in
              let s := saveDocument document s in
              let s := updateTemplateUsage now templateId s in
              (Ok document, s)
          end
      end
  end.

(** The two shapes of the object that [previewTemplate] resolves to. *)
Inductive preview : Type :=
| PreviewOk (content : string) (context : value)
| PreviewFailed (error : string).

(** [previewTemplate(templateContent, alertData)]: the whole body runs inside
    [try], the handler turns the exception into a failure object. *)
Definition previewTemplate (now : Z) (templateContent : string) (alertData : value)
    (s : state) : result preview * state :=
  match context ← prepareTemplateContext now alertData;
        renderedContent ← hbsRender L templateContent context;
        Ok (renderedContent, context) with
  | Ok (renderedContent, context) => (Ok (PreviewOk renderedContent context), s)
  | Throw error => (Ok (PreviewFailed (message error)), s)
  end.

End WithLib.
End DocumentGenerator.

(** ** HTTP replies *)

Module Http.

Inductive reply (A : Type) : Type :=
| Http200 (body : A)
| Http201 (body : A)
| Http400 (error message : string)
| Http404 (error message : string)
| Http500 (error message : string).
Arguments Http200 {A} body.
Arguments Http201 {A} body.
Arguments Http400 {A} error message.
Arguments Http404 {A} error message.
Arguments Http500 {A} error message.

End Http.

(** ** The webhook routes, deduplicating revision (server/routes/webhook.js) *)

Module Webhook.
Import JsString Js External Store DocumentGenerator Http.

(** The [Map] of pending alerts: [get], [set], [delete] and [values()]. *)
Definition mapGet (k : string) (m : list (string * alertData)) : option alertData :=
  assoc k m.

Definition mapSet (k : string) (x : alertData) (m : list (string * alertData))
  : list (string * alertData) := assocSet k x m.

Definition mapDelete (k : string) (m : list (string * alertData))
  : list (string * alertData) :=
  List.filter (λ kx, if decide (kx.1 = k) then false else true) m.

Definition mapValues (m : list (string * alertData)) : list alertData := m.*2.

(** 5-minute windows: [Math.floor(Date.now() / (1000 * 60 * 5))] *)
Definition timeWindow (now : Z) : Z := now / (1000 * 60 * 5).

(** The object [hashData] of [generateAlertHash]. *)
Definition hashData (now : Z) (alert : value) : list (string * value) :=
  [("alert_type", get "alert_type" alert);
   ("title", or (get "title" alert) (or (get "event_title" alert) (VStr "untitled")));
   ("timeWindow", VNum (timeWindow now))]
  ++ (if truthy (get "org" alert) then [("org", get "org" alert)] else [])
  ++ (if truthy (get "id" alert) then [("id", get "id" alert)] else []).

(** [Object.keys(hashData).sort()]: by code units. *)
Definition sortedKeys (props : list (string * value)) : list string :=
  merge_sort String.le props.*1.

(** [JSON.stringify(hashData, Object.keys(hashData).sort())]; an object
    always serialises to a string. *)
Definition hashString (now : Z) (alert : value) : string :=
  let data := hashData now alert in
  default "" (stringify (Some (sortedKeys data)) (VObj data)).

(** A text payload: the Datadog message format. *)
Definition normalizeText (now : Z) (textPayload : string) : value :=
  let isAlert := includes "[Triggered]" textPayload
                 || includes "Anomaly Detected" textPayload in
  let isRecovery := includes "Normalized" textPayload
                    || includes "Recovery" textPayload in
  let titleLine :=
    if truthy (VStr (firstLine textPayload)) then firstLine textPayload
    else "Datadog Alert" in
  VObj [
    ("alert_type", VStr (if isAlert then "error"
                         else if isRecovery then "recovery" else "info"));
    ("title", VStr (trim (removeFirst "[Recovery]"
                            (removeFirst "[Triggered]" titleLine))));
    ("message", VStr textPayload);
    ("priority", VStr (if includes "anomaly" (toLowerCase textPayload)
                       then "high" else "medium"));
    ("timestamp", VNum now);
    ("source", VStr "datadog_text")].

(** A JSON payload: the Datadog webhook format. *)
Definition normalizeJson (now : Z) (payload : value) : value :=
  VObj [
    ("alert_type", or (get "event_type" payload)
                      (or (get "alert_type" payload) (VStr "info")));
    ("title", or (get "title" payload)
                 (or (get "event_title" payload) (VStr "Datadog Alert")));
    ("message", or (get "body" payload)
                   (or (get "message" payload)
                       (from_option VStr VUndef (stringify None payload))));
    ("id", get "id" payload);
    ("date", get "date" payload);
    ("last_updated", get "last_updated" payload);
    ("org", get "org" payload);
    ("priority", VStr "medium");
    ("timestamp", VNum now);
    ("source", VStr "datadog_json");
    ("originalPayload", payload)].

(** The alert built from [req.body]; [None] when the body is neither a
    string nor an object. *)
Definition normalize (now : Z) (body : value) : option value :=
  match body with
  | VStr textPayload => Some (normalizeText now textPayload)
  | VObj _ | VArr _ => Some (normalizeJson now body)
  | VUndef | VNull | VBool _ | VNum _ => None
  end.

(** Ensure we have at least a basic alert structure *)
Definition ensureTitle (alert : value) : value :=
  if negb (truthy (get "title" alert)) && negb (truthy (get "message" alert))
  then set "title" (VStr "Datadog Alert") alert
  else alert.

Record ingestReply : Type := {
  r_alertId : string;
  r_message : string;
  (** [None]: the reply has no [duplicate] property. *)
  r_duplicate : option bool;
}.

Record processReply : Type := {
  p_alertId : string;
  p_documentId : string;
  p_document : document;
}.

Section WithLib.
Context (L : Lib).

(** [generateAlertHash(alert)] at the current time [now]. *)
Definition generateAlertHash (now : Z) (alert : value) : string :=
  md5 L (hashString now alert).

(** POST /datadog *)
Definition ingest (now : Z) (body : value) (s : state) : reply ingestReply * state :=
  match normalize now body with
  | None =>
      (Http400 "Invalid webhook payload" "Payload must be JSON object or text string", s)
  | Some alert =>
      let alert := ensureTitle alert in
      let alertHash := generateAlertHash now alert in
      let existingAlert :=
        List.find (λ a, bool_decide (a_alertHash a = alertHash))
                  (mapValues (pendingAlerts s)) in
      match existingAlert with
      | Some existingAlert =>
          (Http200 {| r_alertId := a_id existingAlert;
                      r_message := "Alert already received (duplicate detected)";
                      r_duplicate := Some true |}, s)
      | None =>
          let '(alertId, s) := drawUuid s in
          let alertData :=
            {| a_id := alertId; a_timestamp := now; a_alertHash := alertHash;
               a_originalPayload := alert;
               a_status := "pending_template_selection";
               a_processedAt := None; a_documentId := None;
               a_templateId := VUndef |} in
          let s := withAlertFiles (<[alertId := alertData]> (alertFiles s)) s in
          let s := withPending (mapSet alertId alertData (pendingAlerts s)) s in
          (Http200 {| r_alertId := alertId;
                      r_message := "Alert received and queued for processing";
                      r_duplicate := None |}, s)
      end
  end.

(** POST /process/:alertId with [templateId] from the request body *)
Definition process (now : Z) (alertId : string) (templateId : value) (s : state)
  : reply processReply * state :=
  if negb (truthy templateId)
  then (Http400 "Template ID is required"
                "Please provide a templateId in the request body", s)
  else
    match mapGet alertId (pendingAlerts s) with
    | None =>
        (Http404 "Alert not found"
           ("Alert with ID " +:+ alertId +:+ " not found or already processed"), s)
    | Some alertData =>
        match generateDocument L now (a_originalPayload alertData) templateId s with
        | (Throw error, s) => (Http500 "Failed to process alert" (message error), s)
        | (Ok document, s) =>
            let alertData :=
              {| a_id := a_id alertData; a_timestamp := a_timestamp alertData;
                 a_alertHash := a_alertHash alertData;
                 a_originalPayload := a_originalPayload alertData;
                 a_status := "processed";
                 a_processedAt := Some now;
                 a_documentId := Some (d_id document);
                 a_templateId := templateId |} in
            let s := withAlertFiles (<[alertId := alertData]> (alertFiles s)) s in
            let s := withPending (mapDelete alertId (pendingAlerts s)) s in
            (Http200 {| p_alertId := alertId; p_documentId := d_id document;
                        p_document := document |}, s)
        end
    end.

End WithLib.

(** The validation of the revision without deduplication: the body itself
    is the alert and must carry a truthy [alert_type]. *)
Definition legacyRejects (body : value) : bool :=
  negb (truthy body) || negb (truthy (get "alert_type" body)).

End Webhook.

(** ** The template routes (server/routes/templates.js) *)

Module Templates.
Import JsString Js Store Http.

(** [v.trim()] *)
Definition trimOf (v : value) : result string :=
  match v with
  | VStr x => Ok (trim x)
  | VUndef | VNull => Throw (typeError "Cannot read properties of undefined (reading 'trim')")
  | _ => Throw (typeError "trim is not a function")
  end.

(** [v?.trim() || old] *)
Definition trimOr (v : value) (old : string) : result string :=
  match v with
  | VUndef | VNull => Ok old
  | VStr x => Ok (if truthy (VStr (trim x)) then trim x else old)
  | _ => Throw (typeError "trim is not a function")
  end.

Record templateSummary : Type := {
  ts_id : string;
  ts_name : string;
  ts_description : string;
  ts_category : string;
  ts_stamp : Z;
}.

(** POST /: create a template from text content. *)
Definition create (now : Z) (body : value) (s : state)
  : reply templateSummary * state :=
  if isNullish body
  then (Http500 "Failed to create template" "Cannot destructure the request body", s)
  else
    let name := get "name" body in
    let description := get "description" body in
    let category := match get "category" body with
                    | VUndef => VStr "general"
                    | c => c
                    end in
    let content := get "content" body in
    if negb (truthy name) || negb (truthy content)
    then (Http400 "Missing required fields" "Template name and content are required", s)
    else
      let '(templateId, s) := drawUuid s in
      match name ← trimOf name;
            description ← trimOr description "";
            category ← trimOf category;
            content ← trimOf content;
            Ok {| t_id := templateId; t_name := name;
                  t_description := description; t_category := category;
                  t_content := content;
                  t_originalFilename := None; t_fileSize := None;
                  t_createdAt := now; t_updatedAt := now;
                  t_usageCount := Some 0%nat; t_lastUsed := None |} with
      | Throw error => (Http500 "Failed to create template" (message error), s)
      | Ok template =>
          let s := withTemplateFiles (<[templateId := template]> (templateFiles s)) s in
          (Http201 {| ts_id := t_id template; ts_name := t_name template;
                      ts_description := t_description template;
                      ts_category := t_category template;
                      ts_stamp := t_createdAt template |}, s)
      end.

(** PUT /:templateId *)
Definition update (now : Z) (templateId : string) (body : value) (s : state)
  : reply templateSummary * state :=
  if isNullish body
  then (Http500 "Failed to update template" "Cannot destructure the request body", s)
  else
    match templateFiles s !! templateId with
    | None =>
        (Http404 "Template not found"
           ("Template with ID " +:+ templateId +:+ " does not exist"), s)
    | Some existingTemplate =>
        match name ← trimOr (get "name" body) (t_name existingTemplate);
              description ← trimOr (get "description" body)
                                   (t_description existingTemplate);
              category ← trimOr (get "category" body) (t_category existingTemplate);
              content ← trimOr (get "content" body) (t_content existingTemplate);
              Ok {| t_id := t_id existingTemplate; t_name := name;
                    t_description := description; t_category := category;
                    t_content := content;
                    t_originalFilename := t_originalFilename existingTemplate;
                    t_fileSize := t_fileSize existingTemplate;
                    t_createdAt := t_createdAt existingTemplate;
                    t_updatedAt := now;
                    t_usageCount := t_usageCount existingTemplate;
                    t_lastUsed := t_lastUsed existingTemplate |} with
        | Throw error => (Http500 "Failed to update template" (message error), s)
        | Ok updatedTemplate =>
            let s := withTemplateFiles
                       (<[templateId := updatedTemplate]> (templateFiles s)) s in
            (Http200 {| ts_id := t_id updatedTemplate;
                        ts_name := t_name updatedTemplate;
                        ts_description := t_description updatedTemplate;
                        ts_category := t_category updatedTemplate;
                        ts_stamp := t_updatedAt updatedTemplate |}, s)
        end
    end.

(** DELETE /:templateId *)
Definition delete (templateId : string) (s : state) : reply unit * state :=
  match templateFiles s !! templateId with
  | None =>
      (Http404 "Template not found"
         ("Template with ID " +:+ templateId +:+ " does not exist"), s)
  | Some _ =>
      (Http200 (), withTemplateFiles (base.delete templateId (templateFiles s)) s)
  end.

End Templates.

(** ** Document search (server/routes/documents.js) *)

Module Documents.
Import JsString Js Store.

Record match_ : Type := {
  m_id : string;
  m_title : string;
  m_alertType : value;
  m_templateName : string;
  m_createdAt : Z;
  m_priority : string;
  m_status : string;
  m_snippet : string;
}.

(** Search in title, content, and alert type *)
Definition searchableText (document : document) : string :=
  toLowerCase (d_title document +:+ " " +:+ d_content document +:+ " "
               +:+ toString (d_alertType document)).

Definition toMatch (document : document) : match_ :=
  {| m_id := d_id document; m_title := d_title document;
     m_alertType := d_alertType document;
     m_templateName := d_templateName document;
     m_createdAt := d_createdAt document; m_priority := d_priority document;
     m_status := d_status document;
     m_snippet := take 200 (d_content document) +:+ "..." |}.

(** Newest first. *)
Definition newerFirst (a b : match_) : Prop := m_createdAt b ≤ m_createdAt a.

#[global] Instance newerFirst_dec : RelDecision newerFirst.
Proof. intros a b. unfold newerFirst. apply _. Defined.

(** GET /search/:query over the files of data/documents, in directory
    order. *)
Definition search (query : string) (s : state) : list match_ :=
  let searchTerm := toLowerCase query in
  let matchingDocuments :=
    omap (λ entry : string * document,
            if includes searchTerm (searchableText entry.2)
            then Some (toMatch entry.2) else None)
         (map_to_list (documentFiles s)) in
  merge_sort newerFirst matchingDocuments.

End Documents.

(** ** Document search of the serverless variant
       (netlify/functions/documents.js) *)

Module NetlifyDocuments.
Import JsString Js.

(** An element of documents.json *)
Record document : Type := {
  id : string;
  title : string;
  content : string;
  template_id : value;
  alert_data : value;
  created_at : Z;
  updated_at : Z;
}.

(** GET with the query parameter [search] *)
Definition search (search : string) (documents : list document) : list document :=
  let searchTerm := toLowerCase search in
  List.filter (λ doc,
      includes searchTerm (toLowerCase (title doc))
      || includes searchTerm (toLowerCase (content doc))
      || (truthy (alert_data doc)
          && from_option (λ json, includes searchTerm (toLowerCase json)) false
                         (stringify None (alert_data doc))))
    documents.

End NetlifyDocuments.

(** ** The server as a transition system *)

Module Server.
Import Js External Store Http Webhook.

(** The requests that change the state of the server. *)
Inductive request : Type :=
| Ingest (body : value)
| Process (alertId : string) (templateId : value)
| CreateTemplate (body : value)
| UpdateTemplate (templateId : string) (body : value)
| DeleteTemplate (templateId : string).

Section WithLib.
Context (L : Lib).

(** The state after one request, handled at time [now]. *)
Definition handle (now : Z) (r : request) (s : state) : state :=
  match r with
  | Ingest body => (ingest L now body s).2
  | Process alertId templateId => (process L now alertId templateId s).2
  | CreateTemplate body => (Templates.create now body s).2
  | UpdateTemplate templateId body => (Templates.update now templateId body s).2
  | DeleteTemplate templateId => (Templates.delete templateId s).2
  end.

(** Requests are handled one at a time, each at its own time. *)
Fixpoint run (trace : list (Z * request)) (s : state) : state :=
  match trace with
  | [] => s
  | (now, r) :: trace => run trace (handle now r s)
  end.

(** When the process starts the [Map] of pending alerts is empty; the data
    directories hold whatever earlier runs left. *)
Inductive reachable : state → Prop :=
| reachable_start (s : state) : pendingAlerts s = [] → reachable s
| reachable_handle (now : Z) (r : request) (s : state) :
    reachable s → reachable (handle now r s).

End WithLib.

(** The pending alert stored under [k]. *)
Definition pendingAt (k : string) (s : state) : option alertData :=
  mapGet k (pendingAlerts s).

(** The fingerprints of the pending alerts, in insertion order. *)
Definition fingerprints (s : state) : list string :=
  a_alertHash <$> mapValues (pendingAlerts s).

(** Well-formedness of the pending [Map]: keys are distinct, every entry is
    stored under its own id, and every id has been drawn. *)
Definition WellKeyed (s : state) : Prop :=
  NoDup (pendingAlerts s).*1
  ∧ ∀ k a, (k, a) ∈ pendingAlerts s →
      a_id a = k ∧ ∃ n, (n < uuidDrawn s)%nat ∧ k = uuidv4 n.

End Server.

(** ** Concrete runs *)

Module Examples.
Import JsString Js External Store Http Webhook Server.

(** Stand-ins for the libraries, to run the model: the digest is the
    identity, a template renders to its own source, and dates print as
    nothing. *)
Definition exampleLib : Lib :=
  {| md5 := λ s, s;
     hbsRender := λ source _, Ok source;
     momentUnix := λ v, match v with VNum n => Some (n * 1000) | _ => None end;
     momentValue := λ m, from_option VNum VNull m;
     momentFormat := λ _ _, "";
     momentIso := λ m, from_option VNum VNull m;
     momentFromNow := λ _ _, "" |}.

(** The server just started, on empty data directories. *)
Definition emptyState : state :=
  {| pendingAlerts := []; alertFiles := ∅; templateFiles := ∅;
     documentFiles := ∅; uuidDrawn := 0 |}.

Definition exampleNow : Z := 1700000000000.

Definition cpuAlert : value := VStr "[Triggered] CPU high".
Definition diskAlert : value := VStr "[Triggered] Disk full".

Definition reportTemplate : value :=
  VObj [("name", VStr "Incident report"); ("content", VStr "Alert: {{alert.title}}")].

(** One template stored, under the first identifier drawn. *)
Definition oneTemplate : state :=
  handle exampleLib exampleNow (CreateTemplate reportTemplate) emptyState.

(** The state after one alert, whose message names the host zebra-01, has
    been ingested and processed with the stored template. *)
Definition zebraProcessed : state :=
  run exampleLib
    [(exampleNow, Ingest (VStr "[Triggered] CPU high
host zebra-01"));
     (exampleNow, Process (uuidv4 1) (VStr (uuidv4 0)))]
    oneTemplate.

End Examples.

(** ** The read-only webhook routes (server/routes/webhook.js) *)

Module WebhookQueries.
Import JsString Js External Store Http Webhook.

(** An element of the [alerts] array of GET /pending *)
Record pendingSummary : Type := {
  ps_id : string;
  ps_timestamp : Z;
  ps_alertType : value;
  ps_title : value;
  ps_priority : value;
  ps_status : string;
}.

(** [alert.originalPayload.k] *)
Definition payloadField (k : string) (alert : alertData) : result value :=
  if isNullish (a_originalPayload alert)
  then Throw (typeError "Cannot read properties of undefined")
  else Ok (get k (a_originalPayload alert)).

Definition toSummary (alert : alertData) : result pendingSummary :=
  alertType ← payloadField "alert_type" alert;
  title ← payloadField "title" alert;
  priority ← payloadField "priority" alert;
  Ok {| ps_id := a_id alert; ps_timestamp := a_timestamp alert;
        ps_alertType := alertType;
        ps_title := or title (VStr "Untitled Alert");
        ps_priority := or priority (VStr "normal");
        ps_status := a_status alert |}.

(** [alerts.map(toSummary)] *)
Fixpoint toSummaries (alerts : list alertData) : result (list pendingSummary) :=
  match alerts with
  | [] => Ok []
  | alert :: alerts =>
      summary ← toSummary alert; summaries ← toSummaries alerts;
      Ok (summary :: summaries)
  end.

(** Newest first, by time of receipt. *)
Definition newerAlert (a b : alertData) : Prop := a_timestamp b ≤ a_timestamp a.

#[global] Instance newerAlert_dec : RelDecision newerAlert.
Proof. intros a b. unfold newerAlert. apply _. Defined.

(** The alerts that GET /pending lists, before they are summarised. *)
Definition listedAlerts (s : state) : list alertData :=
  merge_sort newerAlert
    (List.filter (λ alert, bool_decide (a_status alert = "pending_template_selection"))
                 (mapValues (pendingAlerts s))).

(** GET /pending: the count and the summaries. *)
Definition pending (s : state) : reply (nat * list pendingSummary) :=
  let alerts := listedAlerts s in
  match toSummaries alerts with
  | Ok summaries => Http200 (length alerts, summaries)
  | Throw error => Http500 "Failed to fetch pending alerts" (message error)
  end.

(** GET /alert/:alertId: memory first, then the file system. *)
Definition alert (alertId : string) (s : state) : reply alertData :=
  match mapGet alertId (pendingAlerts s) with
  | Some alertData => Http200 alertData
  | None =>
      match alertFiles s !! alertId with
      | Some alertData => Http200 alertData
      | None =>
          Http404 "Alert not found" ("Alert with ID " +:+ alertId +:+ " not found")
      end
  end.

End WebhookQueries.

(** ** The read-only and upload template routes (server/routes/templates.js) *)

Module TemplateRoutes.
Import JsString Js Store Http Templates.

(** Newest first, by creation date. *)
Definition newerTemplate (a b : template) : Prop := t_createdAt b ≤ t_createdAt a.

#[global] Instance newerTemplate_dec : RelDecision newerTemplate.
Proof. intros a b. unfold newerTemplate. apply _. Defined.

(** The directory entry of the template stored under [templateId]. *)
Definition fileName (templateId : string) : string := templateId +:+ ".json".

(** GET /: the templates read from the files of data/templates whose name
    does not start with uploads, newest first, and their number. *)
Definition listTemplates (s : state) : nat * list template :=
  let templates :=
    omap (λ entry : string * template,
            if negb (startsWith "uploads" (fileName entry.1))
            then Some entry.2 else None)
         (map_to_list (templateFiles s)) in
  let templates := merge_sort newerTemplate templates in
  (length templates, templates).

(** GET /:templateId *)
Definition getTemplate (templateId : string) (s : state) : reply template :=
  match templateFiles s !! templateId with
  | None =>
      Http404 "Template not found"
        ("Template with ID " +:+ templateId +:+ " does not exist")
  | Some template => Http200 template
  end.

(** [req.file], as multer hands it over, with the text of the stored file. *)
Record uploadedFile : Type := {
  originalname : string;
  size : Z;
  fileText : string;
}.

(** POST /upload: create a template from an uploaded file. *)
Definition upload (now : Z) (file : option uploadedFile) (body : value) (s : state)
  : reply templateSummary * state :=
  match file with
  | None =>
      (Http400 "No file uploaded" "Please select a template file to upload", s)
  | Some file =>
      if isNullish body
      then (Http500 "Failed to upload template" "Cannot destructure the request body", s)
      else
        let name := get "name" body in
        let description := get "description" body in
        let category := match get "category" body with
                        | VUndef => VStr "general"
                        | c => c
                        end in
        if negb (truthy name)
        then (Http400 "Template name is required"
                      "Please provide a name for the template", s)
        else
          let templateContent := fileText file in
          let '(templateId, s) := drawUuid s in
          match name ← trimOf name;
                description ← trimOr description "";
                category ← trimOf category;
                Ok {| t_id := templateId; t_name := name;
                      t_description := description; t_category := category;
                      t_content := templateContent;
                      t_originalFilename := Some (originalname file);
                      t_fileSize := Some (size file);
                      t_createdAt := now; t_updatedAt := now;
                      t_usageCount := Some 0%nat; t_lastUsed := None |} with
          | Throw error => (Http500 "Failed to upload template" (message error), s)
          | Ok template =>
              let s := withTemplateFiles (<[templateId := template]> (templateFiles s)) s in
              (Http201 {| ts_id := t_id template; ts_name := t_name template;
                          ts_description := t_description template;
                          ts_category := t_category template;
                          ts_stamp := t_createdAt template |}, s)
          end
  end.

End TemplateRoutes.

(** ** The document routes other than search (server/routes/documents.js) *)

Module DocumentRoutes.
Import JsString Js External Store Http DocumentGenerator.

(** The metadata of the list view *)
Record documentSummary : Type := {
  ds_id : string;
  ds_title : string;
  ds_alertType : value;
  ds_templateName : string;
  ds_createdAt : Z;
  ds_priority : string;
  ds_status : string;
}.

Definition toSummary (document : document) : documentSummary :=
  {| ds_id := d_id document; ds_title := d_title document;
     ds_alertType := d_alertType document;
     ds_templateName := d_templateName document;
     ds_createdAt := d_createdAt document;
     ds_priority := d_priority document; ds_status := d_status document |}.

(** Newest first, by creation date. *)
Definition newerSummary (a b : documentSummary) : Prop := ds_createdAt b ≤ ds_createdAt a.

#[global] Instance newerSummary_dec : RelDecision newerSummary.
Proof. intros a b. unfold newerSummary. apply _. Defined.

(** GET / *)
Definition listDocuments (s : state) : nat * list documentSummary :=
  let documents := (λ entry : string * document, toSummary entry.2)
                     <$> map_to_list (documentFiles s) in
  let documents := merge_sort newerSummary documents in
  (length documents, documents).

Definition notFound {A} (documentId : string) : reply A :=
  Http404 "Document not found"
    ("Document with ID " +:+ documentId +:+ " does not exist").

(** GET /:documentId *)
Definition getDocument (documentId : string) (s : state) : reply document :=
  match documentFiles s !! documentId with
  | None => notFound documentId
  | Some document => Http200 document
  end.

(** The characters that [/[^a-z0-9]/gi] leaves alone: the ASCII letters and
    digits (no other code unit below U+0100 folds to one of them). *)
Definition isAlnum (c : ascii) : bool :=
  let n := code c in
  ((48 <=? n) && (n <=? 57) || (65 <=? n) && (n <=? 90)
   || (97 <=? n) && (n <=? 122))%N.

(** [title.replace(/[^a-z0-9]/gi, '_')] *)
Fixpoint replaceNonAlnum (s : string) : string :=
  match s with
  | EmptyString => EmptyString
  | String c r => String (if isAlnum c then c else "_"%char) (replaceNonAlnum r)
  end.

(** The file name offered for the download of a document. *)
Definition downloadName (title : string) : string :=
  toLowerCase (replaceNonAlnum title) +:+ ".txt".

(** A plain-text or HTML response: the headers set by the route, and the
    body. *)
Record page : Type := {
  contentType : string;
  contentDisposition : option string;
  body : string;
}.

(** GET /:documentId/content *)
Definition content (documentId : string) (s : state) : reply page :=
  match documentFiles s !! documentId with
  | None => notFound documentId
  | Some document =>
      Http200 {| contentType := "text/plain";
                 contentDisposition :=
                   Some ("attachment; filename=" +:+ dquote
                         +:+ downloadName (d_title document) +:+ dquote);
                 body := d_content document |}
  end.

Section WithLib.
Context (L : Lib).

(** Convert plain text to HTML with basic formatting *)
Definition htmlContent (document : document) : string :=
  "
<!DOCTYPE html>
<html lang="
    +:+ dquote
    +:+ "en"
    +:+ dquote
    +:+ ">
<head>
    <meta charset="
    +:+ dquote
    +:+ "UTF-8"
    +:+ dquote
    +:+ ">
    <meta name="
    +:+ dquote
    +:+ "viewport"
    +:+ dquote
    +:+ " content="
    +:+ dquote
    +:+ "width=device-width, initial-scale=1.0"
    +:+ dquote
    +:+ ">
    <title>"
    +:+ (d_title document)
    +:+ "</title>
    <style>
        body {
            font-family: -apple-system, BlinkMacSystemFont, 'Segoe UI', Roboto, sans-serif;
            line-height: 1.6;
            max-width: 800px;
            margin: 0 auto;
            padding: 20px;
            color: #333;
        }
        .header {
            border-bottom: 2px solid #e1e5e9;
            padding-bottom: 20px;
            margin-bottom: 30px;
        }
        .title {
            font-size: 2em;
            margin: 0 0 10px 0;
            color: #1a1a1a;
        }
        .meta {
            color: #666;
            font-size: 0.9em;
        }
        .content {
            white-space: pre-wrap;
            font-family: 'SF Mono', Monaco, 'Cascadia Code', 'Roboto Mono', Consolas, 'Courier New', monospace;
            background: #f8f9fa;
            padding: 20px;
            border-radius: 6px;
            border-left: 4px solid #0366d6;
        }
        .priority-high { border-left-color: #d73a49; }
        .priority-medium { border-left-color: #f66a0a; }
        .priority-low { border-left-color: #28a745; }
    </style>
</head>
<body>
    <div class="
    +:+ dquote
    +:+ "header"
    +:+ dquote
    +:+ ">
        <h1 class="
    +:+ dquote
    +:+ "title"
    +:+ dquote
    +:+ ">"
    +:+ (d_title document)
    +:+ "</h1>
        <div class="
    +:+ dquote
    +:+ "meta"
    +:+ dquote
    +:+ ">
            <strong>Alert Type:</strong> "
    +:+ (toString (d_alertType document))
    +:+ " | 
            <strong>Priority:</strong> "
    +:+ (d_priority document)
    +:+ " | 
            <strong>Generated:</strong> "
    +:+ (momentFormat L longFormat (Some (d_createdAt document)))
    +:+ " |
            <strong>Template:</strong> "
    +:+ (d_templateName document)
    +:+ "
        </div>
    </div>
    <div class="
    +:+ dquote
    +:+ "content priority-"
    +:+ (d_priority document)
    +:+ dquote
    +:+ ">"
    +:+ (d_content document)
    +:+ "</div>
</body>
</html>".

(** GET /:documentId/html *)
Definition html (documentId : string) (s : state) : reply page :=
  match documentFiles s !! documentId with
  | None => notFound documentId
  | Some document =>
      Http200 {| contentType := "text/html"; contentDisposition := None;
                 body := htmlContent document |}
  end.

End WithLib.

(** DELETE /:documentId *)
Definition deleteDocument (documentId : string) (s : state) : reply unit * state :=
  match documentFiles s !! documentId with
  | None => (notFound documentId, s)
  | Some _ =>
      (Http200 (), withDocumentFiles (base.delete documentId (documentFiles s)) s)
  end.

(** The GET routes of the router, in the order in which they are
    registered; the first whose path matches the segments of the request
    path handles it.  A parameter matches one segment, a literal segment
    matches without regard to case (the router's default). *)
Inductive getRoute : Type :=
| ListAll
| GetOne (documentId : string)
| Content (documentId : string)
| Html (documentId : string)
| Search (query : string)
| NoRoute.

Definition segmentIs (literal segment : string) : bool :=
  bool_decide (toLowerCase segment = literal).

Definition dispatch (segments : list string) : getRoute :=
  match segments with
  | [] => ListAll
  | [documentId] => GetOne documentId
  | [first; second] =>
      if segmentIs "content" second then Content first
      else if segmentIs "html" second then Html first
      else if segmentIs "search" first then Search second
      else NoRoute
  | _ => NoRoute
  end.

(** What a GET request under /api/documents is answered with. *)
Inductive getReply : Type :=
| Listed (documents : nat * list documentSummary)
| Served (document : reply document)
| Paged (page : reply page)
| Found (matches : list Documents.match_)
| Unrouted.

Definition handleGet (L : Lib) (segments : list string) (s : state) : getReply :=
  match dispatch segments with
  | ListAll => Listed (listDocuments s)
  | GetOne documentId => Served (getDocument documentId s)
  | Content documentId => Paged (content documentId s)
  | Html documentId => Paged (html L documentId s)
  | Search query => Found (Documents.search query s)
  | NoRoute => Unrouted
  end.

End DocumentRoutes.

(** * Properties

    Statements about strings are phrased with [Contains], the declarative
    reading of [includes]; statements about the server quantify over the
    states that a sequence of requests reaches from a fresh process. *)

(** ** Facts about strings *)

Module JsStringFacts.
Import JsString.

Lemma app_nil_l (s : string) : "" +:+ s = s.
Proof. reflexivity. Qed.

Lemma app_cons (c : ascii) (s t : string) : String c s +:+ t = String c (s +:+ t).
Proof. reflexivity. Qed.

Lemma app_nil_r (s : string) : s +:+ "" = s.
Proof. induction s as [|c s IH]; [done|]. by rewrite app_cons, IH. Qed.

Lemma app_assoc (s t u : string) : (s +:+ t) +:+ u = s +:+ (t +:+ u).
Proof. induction s as [|c s IH]; [done|]. by rewrite !app_cons, IH. Qed.

Lemma app_length (s t : string) :
  String.length (s +:+ t) = (String.length s + String.length t)%nat.
Proof. induction s as [|c s IH]; [done|]. rewrite app_cons. simpl. by rewrite IH. Qed.

Lemma app_inv_tail (s t u : string) : s +:+ u = t +:+ u → s = t.
Proof.
  revert t. induction s as [|c s IH]; intros [|d t] H.
  - done.
  - exfalso. apply (f_equal String.length) in H.
    rewrite app_nil_l, app_cons in H. simpl in H. rewrite app_length in H. lia.
  - exfalso. apply (f_equal String.length) in H.
    rewrite app_nil_l, app_cons in H. simpl in H. rewrite app_length in H. lia.
  - rewrite !app_cons in H. injection H as -> H. f_equal. by apply IH.
Qed.

(** [startsWith p s] holds exactly when [p] is a prefix of [s]. *)
Lemma startsWith_spec (p s : string) :
  startsWith p s = true ↔ ∃ post, s = p +:+ post.
Proof.
  revert s. induction p as [|a p IH]; intros s; simpl.
  - split; [intros _; by exists s | done].
  - destruct s as [|b s].
    + split; [done | intros [post H]; by rewrite app_cons in H].
    + case_decide as Hab.
      * subst b. rewrite IH. split; intros [post H]; exists post.
        -- by rewrite app_cons, <-H.
        -- rewrite app_cons in H. by injection H.
      * split; [done|]. intros [post H]. rewrite app_cons in H.
        injection H as ? _. by destruct Hab.
Qed.

Lemma startsWith_app (p post : string) : startsWith p (p +:+ post) = true.
Proof. apply startsWith_spec. by exists post. Qed.

(** [includes] decides [Contains]. *)
Lemma includes_spec (p s : string) : includes p s = true ↔ Contains p s.
Proof.
  induction s as [|c s IH]; simpl.
  - destruct (startsWith p "") eqn:Hp.
    + split; [intros _|done]. apply startsWith_spec in Hp as [post Hp].
      by exists "", post.
    + split; [done|]. intros (pre & post & H).
      destruct pre; [|by rewrite app_cons in H].
      rewrite app_nil_l in H. rewrite H, startsWith_app in Hp. done.
  - destruct (startsWith p (String c s)) eqn:Hp.
    + split; [intros _|done]. apply startsWith_spec in Hp as [post Hp].
      by exists "", post.
    + rewrite IH. split.
      * intros (pre & post & ->). by exists (String c pre), post.
      * intros (pre & post & H). destruct pre as [|d pre].
        -- rewrite app_nil_l in H. rewrite H, startsWith_app in Hp. done.
        -- rewrite app_cons in H. injection H as -> ->. by exists pre, post.
Qed.

Lemma includes_false (p s : string) : includes p s = false ↔ ¬ Contains p s.
Proof. rewrite <-includes_spec. by destruct (includes p s). Qed.

#[global] Instance Contains_dec (p s : string) : Decision (Contains p s).
Proof.
  destruct (includes p s) eqn:H; [left | right].
  - by apply includes_spec.
  - by apply includes_false.
Defined.

(** [toLowerCase] keeps the length and is idempotent. *)
Lemma toLowerCase_length (s : string) :
  String.length (toLowerCase s) = String.length s.
Proof. induction s as [|c s IH]; simpl; [done | by rewrite IH]. Qed.

Lemma lowerChar_idem (c : ascii) : lowerChar (lowerChar c) = lowerChar c.
Proof. by destruct c as [[] [] [] [] [] [] [] []]. Qed.

Lemma toLowerCase_idem (s : string) : toLowerCase (toLowerCase s) = toLowerCase s.
Proof. induction s as [|c s IH]; simpl; [done|]. by rewrite lowerChar_idem, IH. Qed.

Lemma toLowerCase_app (s t : string) :
  toLowerCase (s +:+ t) = toLowerCase s +:+ toLowerCase t.
Proof. induction s as [|c s IH]; [done|]. rewrite app_cons. simpl. by rewrite IH. Qed.

(** [untilChar c s] is the longest prefix of [s] without [c], and what
    follows it is empty or starts with [c]. *)
Lemma untilChar_spec (c : ascii) (s : string) :
  ¬ Contains (String c "") (untilChar c s)
  ∧ ∃ rest, s = untilChar c s +:+ rest
            ∧ (rest = "" ∨ ∃ r, rest = String c r).
Proof.
  induction s as [|a s [IHn (rest & IHs & IHr)]]; simpl.
  - split; [|exists ""; auto].
    intros ([|??] & post & H); by rewrite ?app_cons in H.
  - case_decide as Ha.
    + subst a. split; [|exists (String c s); eauto].
      intros ([|??] & post & H); by rewrite ?app_cons in H.
    + split.
      * intros ([|d pre] & post & H); rewrite ?app_nil_l, !app_cons in H.
        -- injection H as ? _. by destruct Ha.
        -- injection H as _ H. apply IHn. by exists pre, post.
      * exists rest. split; [|done]. by rewrite app_cons, <-IHs.
Qed.

Lemma drop_app (p post : string) : drop (String.length p) (p +:+ post) = post.
Proof. induction p as [|c p IH]; [done|]. by rewrite app_cons. Qed.

(** [removeFirst p s] is [s] when [p] does not occur in it. *)
Lemma removeFirst_absent (p s : string) : ¬ Contains p s → removeFirst p s = s.
Proof.
  induction s as [|c s IH]; intros Hn; simpl.
  - destruct (startsWith p "") eqn:Hp; [|done].
    apply startsWith_spec in Hp as [post Hp]. destruct Hn. by exists "", post.
  - destruct (startsWith p (String c s)) eqn:Hp.
    + apply startsWith_spec in Hp as [post Hp]. destruct Hn. by exists "", post.
    + f_equal. apply IH. intros (pre & post & ->). apply Hn.
      by exists (String c pre), post.
Qed.

Lemma removeFirst_prefix (p post : string) : removeFirst p (p +:+ post) = post.
Proof.
  assert (∀ s, removeFirst p s =
               if startsWith p s then drop (String.length p) s
               else match s with
                    | EmptyString => EmptyString
                    | String c s' => String c (removeFirst p s')
                    end) as Hunfold by (by intros []).
  by rewrite Hunfold, startsWith_app, drop_app.
Qed.

(** Otherwise it removes the leftmost occurrence of [p], and only that one. *)
Lemma removeFirst_leftmost (p s : string) :
  Contains p s →
  ∃ pre post, s = pre +:+ p +:+ post ∧ removeFirst p s = pre +:+ post
    ∧ ∀ pre' post', s = pre' +:+ p +:+ post' →
        (String.length pre ≤ String.length pre')%nat.
Proof.
  induction s as [|c s IH]; intros Hc.
  - apply includes_spec in Hc. simpl in Hc.
    destruct (startsWith p "") eqn:Hp; [|done].
    apply startsWith_spec in Hp as [post Hp]. exists "", post.
    split; [done|]. split; [|simpl; lia].
    destruct p; [|by rewrite app_cons in Hp].
    rewrite app_nil_l in Hp. by subst post.
  - destruct (startsWith p (String c s)) eqn:Hp.
    + apply startsWith_spec in Hp as [post Hp]. exists "", post.
      split; [done|]. split; [|simpl; lia].
      by rewrite Hp, removeFirst_prefix.
    + assert (Contains p s) as Hs.
      { destruct Hc as ([|d pre] & post & H).
        - rewrite app_nil_l in H. rewrite H, startsWith_app in Hp. done.
        - rewrite app_cons in H. injection H as _ ->. by exists pre, post. }
      destruct (IH Hs) as (pre & post & Hpre & Hr & Hmin).
      exists (String c pre), post. split; [by rewrite Hpre|]. split.
      * simpl. by rewrite Hp, Hr.
      * intros [|d pre'] post' H.
        -- rewrite app_nil_l in H. rewrite H, startsWith_app in Hp. done.
        -- rewrite !app_cons in H. injection H as _ H.
           specialize (Hmin _ _ H). simpl. lia.
Qed.

Lemma trimStart_spec (s : string) :
  ∃ l, s = l +:+ trimStart s ∧ allWhite l = true
       ∧ ∀ c, firstChar (trimStart s) = Some c → isWhite c = false.
Proof.
  induction s as [|c s (l & IHs & IHl & IHf)]; simpl.
  - exists "". split_and!; done.
  - destruct (isWhite c) eqn:Hc.
    + exists (String c l). split_and!; [|simpl; by rewrite Hc|done].
      by rewrite app_cons, <-IHs.
    + exists "". split_and!; [done..|]. simpl. by intros ? [= <-].
Qed.

Lemma allWhite_app (s t : string) :
  allWhite (s +:+ t) = allWhite s && allWhite t.
Proof.
  induction s as [|c s IH]; [done|]. rewrite app_cons. simpl.
  by rewrite IH, andb_assoc.
Qed.

Lemma trimEnd_empty (s : string) : trimEnd s = "" ↔ allWhite s = true.
Proof.
  induction s as [|c s IH]; simpl; [done|].
  destruct (trimEnd s) eqn:Ht.
  - destruct (isWhite c); simpl; [|done]. split; [|done]. intros _. by apply IH.
  - split; [done|]. intros [_ H]%andb_true_iff. by apply IH in H.
Qed.

Lemma trimEnd_spec (s : string) :
  ∃ r, s = trimEnd s +:+ r ∧ allWhite r = true
       ∧ ∀ c, lastChar (trimEnd s) = Some c → isWhite c = false.
Proof.
  induction s as [|c s (r & IHs & IHr & IHl)]; simpl.
  - exists "". split_and!; done.
  - destruct (trimEnd s) as [|d t] eqn:Ht.
    + destruct (isWhite c) eqn:Hc.
      * exists (String c s). split_and!; [done| |done]. simpl. rewrite Hc.
        by apply trimEnd_empty.
      * exists s. split_and!; [done| |].
        -- by apply trimEnd_empty.
        -- simpl. by intros ? [= <-].
    + exists r. split_and!; [|done|].
      * by rewrite app_cons, <-IHs.
      * done.
Qed.

Lemma trimEnd_firstChar (s : string) (c : ascii) :
  firstChar (trimEnd s) = Some c → firstChar s = Some c.
Proof.
  destruct s as [|a s]; simpl; [done|].
  destruct (trimEnd s); [destruct (isWhite a)|]; naive_solver.
Qed.

(** [trim s] is [s] without a white prefix and a white suffix, and neither
    end of it is white. *)
Lemma trim_spec (s : string) :
  ∃ l r, s = l +:+ trim s +:+ r ∧ allWhite l = true ∧ allWhite r = true
         ∧ Trimmed (trim s).
Proof.
  destruct (trimStart_spec s) as (l & Hs & Hl & Hf).
  destruct (trimEnd_spec (trimStart s)) as (r & Ht & Hr & Hlast).
  exists l, r. unfold trim, Trimmed. split_and!; [|done..| |done].
  - by rewrite <-Ht.
  - intros c Hc. apply Hf. by apply trimEnd_firstChar.
Qed.

Lemma trimStart_allWhite (s : string) : allWhite (trimStart s) = allWhite s.
Proof.
  induction s as [|c s IH]; simpl; [done|].
  destruct (isWhite c) eqn:Hc; simpl; [done|]. by rewrite Hc.
Qed.

(** [trim s] is empty exactly when [s] is empty or white space only. *)
Lemma trim_empty (s : string) : trim s = "" ↔ allWhite s = true.
Proof. unfold trim. by rewrite trimEnd_empty, trimStart_allWhite. Qed.

Lemma take_length (n : nat) (s : string) :
  String.length (take n s) = (n `min` String.length s)%nat.
Proof.
  revert s. induction n as [|n IH]; intros [|c s]; simpl; [done..|].
  by rewrite IH.
Qed.

(** [take n s] is the prefix of [s] of that length. *)
Lemma take_drop (n : nat) (s : string) : take n s +:+ drop n s = s.
Proof.
  revert s. induction n as [|n IH]; intros [|c s]; simpl; [done..|].
  by rewrite app_cons, IH.
Qed.

End JsStringFacts.

(** ** Priority derivation *)

Module PriorityFacts.
Import JsString Js DocumentGenerator JsStringFacts.

(** The keyword classes of the two cascades, on the lowercased text. *)
Definition High (p : string) : Prop :=
  Contains "critical" (toLowerCase p) ∨ Contains "high" (toLowerCase p)
  ∨ Contains "error" (toLowerCase p).

Definition Medium (p : string) : Prop :=
  Contains "warning" (toLowerCase p) ∨ Contains "medium" (toLowerCase p)
  ∨ Contains "warn" (toLowerCase p).

Definition Low (p : string) : Prop :=
  Contains "info" (toLowerCase p) ∨ Contains "low" (toLowerCase p).

Definition TypeHigh (t : string) : Prop :=
  Contains "error" (toLowerCase t) ∨ Contains "critical" (toLowerCase t).

Definition TypeMedium (t : string) : Prop :=
  Contains "warning" (toLowerCase t) ∨ Contains "anomaly" (toLowerCase t).

(** The derivation as the specification words it: the explicit priority
    field decides when it is present and matches, the alert type is consulted
    only through its own keywords, and the default is medium. *)
Definition claimedPriority (alertData : value) : string :=
  let byType :=
    match get "alert_type" alertData with
    | VStr t => if decide (TypeHigh t) then "high"
                else if decide (TypeMedium t) then "medium" else "medium"
    | _ => "medium"
    end in
  match get "priority" alertData with
  | VStr p => if decide (High p) then "high"
              else if decide (Medium p) then "medium"
              else if decide (Low p) then "low" else byType
  | _ => byType
  end.

(** The value the first cascade looks at: [alertData.priority ||
    alertData.alert_type]. *)
Definition signal (alertData : value) : value :=
  or (get "priority" alertData) (get "alert_type" alertData).

Lemma orb3_true (a b c : bool) :
  a || b || c = true ↔ a = true ∨ b = true ∨ c = true.
Proof. destruct a, b, c; simpl; intuition congruence. Qed.

Lemma High_includes (p : string) :
  includes "critical" (toLowerCase p) || includes "high" (toLowerCase p)
  || includes "error" (toLowerCase p) = true ↔ High p.
Proof. unfold High. by rewrite orb3_true, !includes_spec. Qed.

Lemma Medium_includes (p : string) :
  includes "warning" (toLowerCase p) || includes "medium" (toLowerCase p)
  || includes "warn" (toLowerCase p) = true ↔ Medium p.
Proof. unfold Medium. by rewrite orb3_true, !includes_spec. Qed.

Lemma Low_includes (p : string) :
  includes "info" (toLowerCase p) || includes "low" (toLowerCase p) = true ↔ Low p.
Proof. unfold Low. by rewrite orb_true_iff, !includes_spec. Qed.

Lemma TypeHigh_includes (t : string) :
  includes "error" (toLowerCase t) || includes "critical" (toLowerCase t) = true
  ↔ TypeHigh t.
Proof. unfold TypeHigh. by rewrite orb_true_iff, !includes_spec. Qed.

(** The first cascade, on a string signal. *)
Lemma determinePriority_signal (props : list (string * value)) (p : string) :
  signal (VObj props) = VStr p →
  (High p → determinePriority (VObj props) = Ok "high")
  ∧ (¬ High p → Medium p → determinePriority (VObj props) = Ok "medium")
  ∧ (¬ High p → ¬ Medium p → Low p → determinePriority (VObj props) = Ok "low").
Proof.
  intros Hs. unfold determinePriority, signal in *. cbn [isNullish].
  rewrite Hs.
  destruct (includes "critical" _ || includes "high" _ || includes "error" _)
    eqn:Hh.
  { apply High_includes in Hh. naive_solver. }
  assert (¬ High p) as Hnh by (rewrite <-High_includes, Hh; done).
  destruct (includes "warning" _ || includes "medium" _ || includes "warn" _)
    eqn:Hm.
  { apply Medium_includes in Hm. naive_solver. }
  assert (¬ Medium p) as Hnm by (rewrite <-Medium_includes, Hm; done).
  destruct (includes "info" _ || includes "low" _) eqn:Hl.
  { apply Low_includes in Hl. naive_solver. }
  assert (¬ Low p) as Hnl by (rewrite <-Low_includes, Hl; done).
  naive_solver.
Qed.

(** The second cascade, reached when the first one decides nothing. *)
Lemma determinePriority_fallback (props : list (string * value)) (t : string) :
  (∀ p, signal (VObj props) = VStr p → ¬ High p ∧ ¬ Medium p ∧ ¬ Low p) →
  or (get "alert_type" (VObj props)) (VStr "") = VStr t →
  (TypeHigh t → determinePriority (VObj props) = Ok "high")
  ∧ (¬ TypeHigh t → determinePriority (VObj props) = Ok "medium").
Proof.
  intros Hsig Ht. unfold determinePriority. cbn [isNullish].
  fold (signal (VObj props)). rewrite Ht.
  assert (match signal (VObj props) with
          | VStr priority =>
              if includes "critical" (toLowerCase priority)
                 || includes "high" (toLowerCase priority)
                 || includes "error" (toLowerCase priority)
              then Some "high"
              else if includes "warning" (toLowerCase priority)
                      || includes "medium" (toLowerCase priority)
                      || includes "warn" (toLowerCase priority)
              then Some "medium"
              else if includes "info" (toLowerCase priority)
                      || includes "low" (toLowerCase priority)
              then Some "low" else None
          | _ => None
          end = None) as ->.
  { destruct (signal (VObj props)) as [| | | |p| |] eqn:Hs; try done.
    destruct (Hsig p eq_refl) as (Hh & Hm & Hl).
    rewrite <-High_includes in Hh. rewrite <-Medium_includes in Hm.
    rewrite <-Low_includes in Hl.
    destruct (_ || _ || _); [done|]. destruct (_ || _ || _); [done|].
    by destruct (_ || _). }
  destruct (includes "error" _ || includes "critical" _) eqn:Hh.
  - apply TypeHigh_includes in Hh. split; [done|]. intros Hn. by destruct Hn.
  - split.
    + intros Hth%TypeHigh_includes. by rewrite Hh in Hth.
    + intros _. by destruct (includes "warning" _ || includes "anomaly" _).
Qed.

End PriorityFacts.

Module PriorityClaims.
Import JsString Js DocumentGenerator JsStringFacts PriorityFacts.

(** C2, as amended: the priority of an alert object is derived from the
    signal [priority || alert_type].  When the signal is a string, the result
    is high if its lowercase contains critical, high or error, otherwise
    medium if it contains warning, medium or warn, otherwise low if it
    contains info or low.  When the signal decides nothing, the alert type
    (or the empty string) is consulted: high if its lowercase contains error
    or critical, medium otherwise.  In particular an alert of type error and
    no priority field is high, one of type warning is medium, and one with
    neither field is medium. *)
Theorem determinePriority_spec (props : list (string * value)) :
  let alertData := VObj props in
  (∀ p, signal alertData = VStr p →
     (High p → determinePriority alertData = Ok "high")
     ∧ (¬ High p → Medium p → determinePriority alertData = Ok "medium")
     ∧ (¬ High p → ¬ Medium p → Low p → determinePriority alertData = Ok "low"))
  ∧ ((∀ p, signal alertData = VStr p → ¬ High p ∧ ¬ Medium p ∧ ¬ Low p) →
     ∀ t, or (get "alert_type" alertData) (VStr "") = VStr t →
       (TypeHigh t → determinePriority alertData = Ok "high")
       ∧ (¬ TypeHigh t → determinePriority alertData = Ok "medium"))
  ∧ determinePriority (VObj [("alert_type", VStr "error")]) = Ok "high"
  ∧ determinePriority (VObj [("alert_type", VStr "warning")]) = Ok "medium"
  ∧ determinePriority (VObj []) = Ok "medium".
Proof.
  intros alertData. split; [|split].
  - intros p Hp. by apply determinePriority_signal.
  - intros Hsig t Ht. by apply determinePriority_fallback.
  - by vm_compute.
Qed.

(** C2, as stated, fails: an alert of type info with no priority field has
    no keyword of the alert-type rule, so the stated derivation gives medium,
    but the code reads the alert type as the priority signal and answers
    low. *)
Lemma determinePriority_info_is_low :
  let alertData := VObj [("alert_type", VStr "info")] in
  get "priority" alertData = VUndef
  ∧ ¬ TypeHigh "info" ∧ ¬ TypeMedium "info"
  ∧ claimedPriority alertData = "medium"
  ∧ determinePriority alertData = Ok "low"
  ∧ determinePriority alertData ≠ Ok (claimedPriority alertData).
Proof.
  cbv zeta. split_and!; try by vm_compute.
  - intros [H|H]; apply includes_spec in H; by vm_compute in H.
  - intros [H|H]; apply includes_spec in H; by vm_compute in H.
Qed.

End PriorityClaims.

(** ** Normalisation of payloads *)

Module NormalizeFacts.
Import JsString Js Webhook JsStringFacts.

(** The markers that classify a text payload. *)
Definition Triggered (text : string) : Prop :=
  Contains "[Triggered]" text ∨ Contains "Anomaly Detected" text.

Definition Recovered (text : string) : Prop :=
  Contains "Normalized" text ∨ Contains "Recovery" text.

(** The title as the specification words it: the first line, without the
    two markers, trimmed. *)
Definition claimedTitle (text : string) : string :=
  trim (removeFirst "[Recovery]" (removeFirst "[Triggered]" (firstLine text))).

(** The title line of the code: [lines[0] || 'Datadog Alert']. *)
Definition titleLine (text : string) : string :=
  if decide (firstLine text = "") then "Datadog Alert" else firstLine text.

Lemma truthy_VStr (x : string) : truthy (VStr x) = bool_decide (x ≠ "").
Proof. by destruct x. Qed.

Lemma Triggered_includes (text : string) :
  includes "[Triggered]" text || includes "Anomaly Detected" text = true
  ↔ Triggered text.
Proof. unfold Triggered. by rewrite orb_true_iff, !includes_spec. Qed.

Lemma Recovered_includes (text : string) :
  includes "Normalized" text || includes "Recovery" text = true ↔ Recovered text.
Proof. unfold Recovered. by rewrite orb_true_iff, !includes_spec. Qed.

Lemma normalizeText_alert_type (now : Z) (text : string) :
  get "alert_type" (normalizeText now text) =
  VStr (if decide (Triggered text) then "error"
        else if decide (Recovered text) then "recovery" else "info").
Proof.
  trans (VStr (if includes "[Triggered]" text || includes "Anomaly Detected" text
               then "error"
               else if includes "Normalized" text || includes "Recovery" text
               then "recovery" else "info")); [reflexivity|]. f_equal.
  destruct (includes "[Triggered]" text || includes "Anomaly Detected" text) eqn:Ht.
  - apply Triggered_includes in Ht. by rewrite decide_True.
  - assert (¬ Triggered text) by (rewrite <-Triggered_includes, Ht; done).
    rewrite decide_False by done.
    destruct (includes "Normalized" text || includes "Recovery" text) eqn:Hr.
    + apply Recovered_includes in Hr. by rewrite decide_True.
    + assert (¬ Recovered text) by (rewrite <-Recovered_includes, Hr; done).
      by rewrite decide_False.
Qed.

Lemma normalizeText_title (now : Z) (text : string) :
  get "title" (normalizeText now text) =
  VStr (trim (removeFirst "[Recovery]" (removeFirst "[Triggered]" (titleLine text)))).
Proof.
  trans (VStr (trim (removeFirst "[Recovery]" (removeFirst "[Triggered]"
                 (if truthy (VStr (firstLine text)) then firstLine text
                  else "Datadog Alert"))))); [reflexivity|].
  unfold titleLine. rewrite truthy_VStr.
  destruct (decide (firstLine text = "")) as [->|]; [done|].
  by rewrite bool_decide_true.
Qed.

Lemma normalizeText_priority (now : Z) (text : string) :
  get "priority" (normalizeText now text) =
  VStr (if decide (Contains "anomaly" (toLowerCase text)) then "high" else "medium").
Proof.
  trans (VStr (if includes "anomaly" (toLowerCase text) then "high" else "medium"));
    [reflexivity|]. f_equal.
  destruct (includes "anomaly" (toLowerCase text)) eqn:Ha.
  - apply includes_spec in Ha. by rewrite decide_True.
  - apply includes_false in Ha. by rewrite decide_False.
Qed.

(** The guard after normalisation never fires: a normalised alert has a
    title or a message. *)
Lemma ensureTitle_normalize (now : Z) (body alert : value) :
  normalize now body = Some alert → ensureTitle alert = alert.
Proof.
  unfold ensureTitle.
  destruct body as [| | | |text|items|props]; intros [= <-]; try done.
  - destruct text as [|c text]; [done|].
    assert (truthy (get "message" (normalizeText now (String c text))) = true)
      as -> by done.
    by rewrite andb_false_r.
  - unfold normalizeJson. cbn [get]. simpl.
    unfold or. destruct (truthy (default VUndef (assoc "title" props))) eqn:Ht.
    + by rewrite Ht.
    + destruct (truthy (default VUndef (assoc "event_title" props))) eqn:He.
      * by rewrite He.
      * done.
Qed.

End NormalizeFacts.

Module NormalizeClaims.
Import JsString Js Webhook JsStringFacts NormalizeFacts.

(** C3, as amended: for every text payload the alert type is error exactly
    when the text contains [Triggered] or Anomaly Detected, else recovery when
    it contains Normalized or Recovery, else info; the title is the first
    line, or Datadog Alert when the first line is empty, with the first
    occurrence of [Triggered] and then the first occurrence of [Recovery]
    removed, trimmed; the priority hint is high exactly when the lowercased
    text contains anomaly, else medium. *)
Theorem normalizeText_spec (now : Z) (text : string) :
  let alert := normalizeText now text in
  (get "alert_type" alert = VStr "error" ↔ Triggered text)
  ∧ (get "alert_type" alert = VStr "recovery" ↔ ¬ Triggered text ∧ Recovered text)
  ∧ (get "alert_type" alert = VStr "info" ↔ ¬ Triggered text ∧ ¬ Recovered text)
  ∧ get "title" alert =
      VStr (trim (removeFirst "[Recovery]"
                    (removeFirst "[Triggered]" (titleLine text))))
  ∧ (get "priority" alert = VStr "high" ↔ Contains "anomaly" (toLowerCase text))
  ∧ (get "priority" alert = VStr "medium"
     ↔ ¬ Contains "anomaly" (toLowerCase text))
  ∧ normalize now (VStr text) = Some alert
  ∧ ensureTitle alert = alert.
Proof.
  intros alert. subst alert.
  rewrite normalizeText_alert_type, normalizeText_priority.
  split_and!.
  - repeat case_decide; intuition congruence.
  - repeat case_decide; intuition congruence.
  - repeat case_decide; intuition congruence.
  - apply normalizeText_title.
  - case_decide; intuition congruence.
  - case_decide; intuition congruence.
  - done.
  - by apply (ensureTitle_normalize now (VStr text)).
Qed.

(** C3, as stated, fails on the title: the first line of the empty text is
    empty, and so is its trimmed form, but the code falls back to the title
    Datadog Alert. *)
Lemma normalizeText_empty_title :
  firstLine "" = ""
  ∧ claimedTitle "" = ""
  ∧ get "title" (normalizeText 0 "") = VStr "Datadog Alert"
  ∧ get "title" (normalizeText 0 "") ≠ VStr (claimedTitle "").
Proof. split_and!; by vm_compute. Qed.

End NormalizeClaims.

(** ** Validation of payloads *)

Module ValidationFacts.
Import JsString Js External Store Http Webhook NormalizeFacts.

(** [typeof body === 'object'] for a non-null body: what the JSON body
    parser hands over for a valid JSON document. *)
Definition Structured (body : value) : Prop :=
  match body with
  | VObj _ | VArr _ => True
  | _ => False
  end.

Definition IsText (body : value) : Prop := ∃ text, body = VStr text.

(** The payload names an alert type, as [event_type] or as [alert_type]. *)
Definition NamesAlertType (body : value) : Prop :=
  truthy (get "event_type" body) = true ∨ truthy (get "alert_type" body) = true.

Definition Rejected {A} (r : reply A) : Prop := ∃ error message, r = Http400 error message.

Lemma normalize_None (now : Z) (body : value) :
  normalize now body = None ↔ ¬ IsText body ∧ ¬ Structured body.
Proof.
  unfold IsText. destruct body; simpl; split; try done; try naive_solver.
Qed.

Lemma normalizeJson_alert_type (now : Z) (body : value) :
  truthy (get "alert_type" (normalizeJson now body)) = true.
Proof.
  trans (truthy (or (get "event_type" body)
                    (or (get "alert_type" body) (VStr "info")))); [reflexivity|].
  unfold or. destruct (truthy (get "event_type" body)) eqn:He; [done|].
  by destruct (truthy (get "alert_type" body)) eqn:Ha.
Qed.

Lemma normalizeJson_default_type (now : Z) (body : value) :
  truthy (get "event_type" body) = false →
  truthy (get "alert_type" body) = false →
  get "alert_type" (normalizeJson now body) = VStr "info".
Proof.
  intros He Ha.
  trans (or (get "event_type" body) (or (get "alert_type" body) (VStr "info")));
    [reflexivity|].
  unfold or. by rewrite He, Ha.
Qed.

Section WithLib.
Context (L : Lib).

Lemma ingest_rejected (now : Z) (body : value) (s : state) :
  Rejected (ingest L now body s).1 ↔ normalize now body = None.
Proof.
  unfold ingest, Rejected. destruct (normalize now body) as [alert|].
  - split; [|done]. intros (e & m & H).
    destruct (List.find _ _); [done|]. by destruct (drawUuid s).
  - split; [done|]. intros _. eauto.
Qed.

End WithLib.
End ValidationFacts.

Module ValidationClaims.
Import JsString Js External Store Http Webhook NormalizeFacts ValidationFacts.
Import Examples.

(** C4, as amended: ingest answers with the invalid-payload failure exactly
    when the body is neither a string nor a parsed JSON document, and then
    leaves the state as it was.  A structured payload is never rejected: its
    alert type is its event_type, else its alert_type, and defaults to info
    when it names neither.  The revision without deduplication has no default
    and rejects exactly the bodies that carry no alert_type. *)
Theorem ingest_invalid_payload (L : Lib) (now : Z) (body : value) (s : state) :
  (Rejected (ingest L now body s).1 ↔ ¬ IsText body ∧ ¬ Structured body)
  ∧ (Rejected (ingest L now body s).1 → (ingest L now body s).2 = s)
  ∧ (Structured body →
     ∃ alert, normalize now body = Some alert
       ∧ truthy (get "alert_type" alert) = true
       ∧ (¬ NamesAlertType body → get "alert_type" alert = VStr "info")
       ∧ (truthy (get "event_type" body) = true →
          get "alert_type" alert = get "event_type" body)
       ∧ (truthy (get "event_type" body) = false →
          truthy (get "alert_type" body) = true →
          get "alert_type" alert = get "alert_type" body))
  ∧ (legacyRejects body = true
     ↔ truthy body = false ∨ truthy (get "alert_type" body) = false).
Proof.
  split_and!.
  - by rewrite ingest_rejected, normalize_None.
  - intros Hr%ingest_rejected. unfold ingest. by rewrite Hr.
  - intros Hs. exists (normalizeJson now body). split_and!.
    + by destruct body.
    + apply normalizeJson_alert_type.
    + intros Hn. apply normalizeJson_default_type.
      * destruct (truthy (get "event_type" body)) eqn:He; [|done].
        destruct Hn. by left.
      * destruct (truthy (get "alert_type" body)) eqn:Ha; [|done].
        destruct Hn. by right.
    + intros He.
      trans (or (get "event_type" body) (or (get "alert_type" body) (VStr "info")));
        [reflexivity|]. unfold or. by rewrite He.
    + intros He Ha.
      trans (or (get "event_type" body) (or (get "alert_type" body) (VStr "info")));
        [reflexivity|]. unfold or. by rewrite He, Ha.
  - unfold legacyRejects. by rewrite orb_true_iff, !negb_true_iff.
Qed.

(** C4, as stated, fails: the empty JSON object is a structured payload that
    names no alert type, and ingest does not reject it but queues it with the
    alert type info. *)
Lemma ingest_accepts_untyped_payload :
  Structured (VObj [])
  ∧ ¬ NamesAlertType (VObj [])
  ∧ (ingest exampleLib exampleNow (VObj []) emptyState).1
    = Http200 {| r_alertId := uuidv4 0;
                 r_message := "Alert received and queued for processing";
                 r_duplicate := None |}
  ∧ get "alert_type" (normalizeJson exampleNow (VObj [])) = VStr "info".
Proof.
  split_and!; [done| |by vm_compute|done].
  by intros [H|H]; vm_compute in H.
Qed.

End ValidationClaims.

Module ServerFacts.
Import Js External Store Http DocumentGenerator Webhook Server.

(** *** The [Map] operations *)

Section MapFacts.
Context {A : Type}.
Implicit Types (l : list (string * A)) (k : string) (x : A).

Lemma assoc_Some_elem l k x : assoc k l = Some x → (k, x) ∈ l.
Proof.
  induction l as [|[k' y] l IH]; simpl; [done|].
  case_decide as Hk.
  - intros [= ->]. subst k'. apply list_elem_of_here.
  - intros H. apply list_elem_of_further. by apply IH.
Qed.

Lemma assoc_None l k : assoc k l = None ↔ k ∉ l.*1.
Proof.
  induction l as [|[k' y] l IH]; simpl.
  - split; [intros _; apply not_elem_of_nil | done].
  - rewrite not_elem_of_cons. case_decide as Hk; [naive_solver|].
    rewrite IH. naive_solver.
Qed.

Lemma assoc_NoDup l k x : NoDup l.*1 → (k, x) ∈ l → assoc k l = Some x.
Proof.
  induction l as [|[k' y] l IH]; simpl; intros Hnd Hin.
  - by apply elem_of_nil in Hin.
  - apply NoDup_cons in Hnd as [Hk' Hnd].
    apply elem_of_cons in Hin as [[= <- <-]|Hin].
    + by rewrite decide_True.
    + rewrite decide_False; [by apply IH|].
      intros ->. apply Hk'. apply list_elem_of_fmap. by exists (k', x).
Qed.

Lemma assocSet_fresh l k x : k ∉ l.*1 → assocSet k x l = l ++ [(k, x)].
Proof.
  induction l as [|[k' y] l IH]; simpl; [done|].
  rewrite not_elem_of_cons. intros [Hk Hl].
  rewrite decide_False by done. by rewrite IH.
Qed.

End MapFacts.

Lemma elem_of_mapDelete (m : list (string * alertData)) k k' a :
  (k', a) ∈ mapDelete k m ↔ (k', a) ∈ m ∧ k' ≠ k.
Proof.
  unfold mapDelete. rewrite !list_elem_of_In, filter_In. simpl.
  case_decide; naive_solver.
Qed.

Lemma NoDup_fmap_filter {A B} (g : A → B) (f : A → bool) (l : list A) :
  NoDup (g <$> l) → NoDup (g <$> List.filter f l).
Proof.
  induction l as [|x l IH]; simpl; [done|].
  rewrite NoDup_cons. intros [Hx Hl]. destruct (f x); [|by apply IH].
  rewrite fmap_cons, NoDup_cons. split; [|by apply IH].
  intros (y & Hy & Hin)%list_elem_of_fmap. apply Hx. apply list_elem_of_fmap.
  exists y. split; [done|]. apply list_elem_of_In.
  apply list_elem_of_In in Hin. by apply filter_In in Hin as [? _].
Qed.

Lemma NoDup_fmap_eq {A B} (g : A → B) (l : list A) (x y : A) :
  NoDup (g <$> l) → x ∈ l → y ∈ l → g x = g y → x = y.
Proof.
  induction l as [|z l IH]; simpl; intros Hnd Hx Hy Hg.
  - by apply elem_of_nil in Hx.
  - apply NoDup_cons in Hnd as [Hz Hnd].
    apply elem_of_cons in Hx as [->|Hx]; apply elem_of_cons in Hy as [->|Hy].
    + done.
    + destruct Hz. rewrite Hg. by apply list_elem_of_fmap_2.
    + destruct Hz. rewrite <-Hg. by apply list_elem_of_fmap_2.
    + by apply IH.
Qed.

#[global] Instance uuidv4_inj : Inj (=) (=) uuidv4.
Proof. unfold uuidv4. apply _. Qed.

(** *** The effect of each request on the pending [Map] *)

(** What a request may do to the pending alerts: nothing, remove the entry
    under one key, or append an entry under the identifier just drawn, whose
    fingerprint no pending alert carries. *)
Inductive PendingEffect (s s' : state) : Prop :=
| pending_kept :
    pendingAlerts s' = pendingAlerts s →
    (uuidDrawn s ≤ uuidDrawn s')%nat →
    PendingEffect s s'
| pending_removed (k : string) :
    pendingAlerts s' = mapDelete k (pendingAlerts s) →
    (uuidDrawn s ≤ uuidDrawn s')%nat →
    PendingEffect s s'
| pending_added (a : alertData) :
    pendingAlerts s' = pendingAlerts s ++ [(uuidv4 (uuidDrawn s), a)] →
    a_id a = uuidv4 (uuidDrawn s) →
    uuidDrawn s' = S (uuidDrawn s) →
    a_alertHash a ∉ fingerprints s →
    PendingEffect s s'.

Section WithLib.
Context (L : Lib).

Lemma updateTemplateUsage_frame now templateId s :
  pendingAlerts (updateTemplateUsage now templateId s) = pendingAlerts s
  ∧ uuidDrawn (updateTemplateUsage now templateId s) = uuidDrawn s
  ∧ documentFiles (updateTemplateUsage now templateId s) = documentFiles s
  ∧ alertFiles (updateTemplateUsage now templateId s) = alertFiles s.
Proof. unfold updateTemplateUsage. by destruct (templateFiles s !! _). Qed.

Lemma generateDocument_frame now alertData templateId s :
  pendingAlerts (generateDocument L now alertData templateId s).2 = pendingAlerts s
  ∧ alertFiles (generateDocument L now alertData templateId s).2 = alertFiles s
  ∧ (uuidDrawn s ≤ uuidDrawn (generateDocument L now alertData templateId s).2)%nat.
Proof.
  unfold generateDocument. destruct (loadTemplate templateId s); [|done].
  destruct (_ ≫= _) as [content|e]; [|done].
  cbn [drawUuid]. destruct (determinePriority alertData) as [priority|e];
    [|cbn; split_and!; [done..|lia]].
  cbn -[updateTemplateUsage saveDocument].
  match goal with
  | |- context [updateTemplateUsage ?n ?t ?s0] =>
      destruct (updateTemplateUsage_frame n t s0) as (-> & -> & _ & ->)
  end.
  simpl. split_and!; [done..|lia].
Qed.

Lemma find_hash_None (h : string) (m : list (string * alertData)) :
  List.find (λ a, bool_decide (a_alertHash a = h)) (mapValues m) = None →
  h ∉ a_alertHash <$> mapValues m.
Proof.
  intros Hf (a & -> & Ha)%list_elem_of_fmap.
  apply list_elem_of_In in Ha.
  pose proof (find_none _ _ Hf a Ha) as Hb. simpl in Hb.
  by rewrite bool_decide_eq_false in Hb.
Qed.

Lemma ingest_effect now body s :
  WellKeyed s → PendingEffect s (ingest L now body s).2.
Proof.
  intros [Hnd Hkeys]. unfold ingest.
  destruct (normalize now body) as [alert|]; [|by apply pending_kept].
  destruct (List.find _ _) eqn:Hf; [by apply pending_kept|].
  simpl. eapply pending_added; simpl.
  - unfold mapSet. apply assocSet_fresh.
    intros ([k a] & Hk & Hin)%list_elem_of_fmap. simpl in Hk.
    destruct (Hkeys _ _ Hin) as (_ & n & Hn & ->).
    apply (inj uuidv4) in Hk. lia.
  - done.
  - done.
  - simpl. by apply find_hash_None.
Qed.

Lemma process_effect now alertId templateId s :
  PendingEffect s (process L now alertId templateId s).2.
Proof.
  unfold process. destruct (negb (truthy templateId)); [by apply pending_kept|].
  destruct (mapGet alertId (pendingAlerts s)) as [a|]; [|by apply pending_kept].
  destruct (generateDocument_frame now (a_originalPayload a) templateId s)
    as (Hp & _ & Hu).
  destruct (generateDocument L now (a_originalPayload a) templateId s)
    as [[document|e] s']; simpl in *.
  - apply (pending_removed _ _ alertId); simpl; [by rewrite Hp | done].
  - by apply pending_kept.
Qed.

Lemma create_effect now body s :
  PendingEffect s (Templates.create now body s).2.
Proof.
  unfold Templates.create. destruct (isNullish body); [by apply pending_kept|].
  destruct (_ || _); [by apply pending_kept|].
  simpl. destruct (_ ≫= _); apply pending_kept; simpl; (done || lia).
Qed.

Lemma update_effect now templateId body s :
  PendingEffect s (Templates.update now templateId body s).2.
Proof.
  unfold Templates.update. destruct (isNullish body); [by apply pending_kept|].
  destruct (templateFiles s !! templateId); [|by apply pending_kept].
  destruct (_ ≫= _); by apply pending_kept.
Qed.

Lemma delete_effect templateId s :
  PendingEffect s (Templates.delete templateId s).2.
Proof.
  unfold Templates.delete.
  destruct (templateFiles s !! templateId); by apply pending_kept.
Qed.

Lemma handle_effect now r s :
  WellKeyed s → PendingEffect s (handle L now r s).
Proof.
  intros Hwk. destruct r; simpl.
  - by apply ingest_effect.
  - apply process_effect.
  - apply create_effect.
  - apply update_effect.
  - apply delete_effect.
Qed.

End WithLib.

(** *** Invariants *)

(** [k] is one of the identifiers drawn so far. *)
Definition Drawn (k : string) (s : state) : Prop :=
  ∃ n, (n < uuidDrawn s)%nat ∧ k = uuidv4 n.

Lemma effect_drawn s s' : PendingEffect s s' → (uuidDrawn s ≤ uuidDrawn s')%nat.
Proof. intros [| |]; lia. Qed.

Lemma effect_WellKeyed s s' : WellKeyed s → PendingEffect s s' → WellKeyed s'.
Proof.
  intros [Hnd Hkeys] [Hp Hu|k Hp Hu|a Hp Ha Hu Hh]; unfold WellKeyed; rewrite Hp.
  - split; [done|]. intros k a Hin.
    destruct (Hkeys k a Hin) as (? & n & ? & ?). split; [done|].
    exists n. split; [lia|done].
  - split; [by apply NoDup_fmap_filter|]. intros k' a [Hin _]%elem_of_mapDelete.
    destruct (Hkeys k' a Hin) as (? & n & ? & ?). split; [done|].
    exists n. split; [lia|done].
  - split.
    + rewrite fmap_app. apply NoDup_app. split_and!; [done| |apply NoDup_singleton].
      intros k ([k' a'] & Hk' & Hin)%list_elem_of_fmap Hnew. simpl in *.
      apply list_elem_of_singleton in Hnew. subst k k'.
      destruct (Hkeys _ _ Hin) as (_ & n & Hn & Hk).
      apply (inj uuidv4) in Hk. lia.
    + intros k a' [Hin|[= -> ->]%list_elem_of_singleton]%elem_of_app.
      * destruct (Hkeys k a' Hin) as (? & n & ? & ?). split; [done|].
        exists n. split; [lia|done].
      * split; [done|]. exists (uuidDrawn s). split; [lia|done].
Qed.

Lemma effect_fingerprints s s' :
  PendingEffect s s' → NoDup (fingerprints s) → NoDup (fingerprints s').
Proof.
  unfold fingerprints, mapValues.
  intros [Hp Hu|k Hp Hu|a Hp Ha Hu Hh] Hnd; rewrite Hp.
  - done.
  - rewrite <-list_fmap_compose in *. by apply NoDup_fmap_filter.
  - rewrite !fmap_app. apply NoDup_app. split_and!; [done| |apply NoDup_singleton].
    by intros h Hin ->%list_elem_of_singleton.
Qed.

Lemma effect_persist s s' k a :
  WellKeyed s → PendingEffect s s' → Drawn k s →
  pendingAt k s' = Some a → pendingAt k s = Some a.
Proof.
  intros [Hnd Hkeys] Heff (n & Hn & ->) Hat. unfold pendingAt, mapGet in *.
  apply assoc_Some_elem in Hat. apply assoc_NoDup; [done|].
  destruct Heff as [Hp Hu|k Hp Hu|a' Hp Ha Hu Hh]; rewrite Hp in Hat.
  - done.
  - by apply elem_of_mapDelete in Hat as [? _].
  - apply elem_of_app in Hat as [Hin|[= Hk ->]%list_elem_of_singleton]; [done|].
    apply (inj uuidv4) in Hk. lia.
Qed.

Section Reachability.
Context (L : Lib).

(** In every reachable state the pending [Map] is well keyed and no two
    pending alerts carry the same fingerprint. *)
Lemma reachable_invariant s :
  reachable L s → WellKeyed s ∧ NoDup (fingerprints s).
Proof.
  induction 1 as [s Hs|now r s Hr [Hwk Hfp]].
  - unfold WellKeyed, fingerprints, mapValues. rewrite Hs. split_and!.
    + apply NoDup_nil_2.
    + by intros k a ?%elem_of_nil.
    + apply NoDup_nil_2.
  - pose proof (handle_effect L now r s Hwk) as Heff. split.
    + by apply (effect_WellKeyed s).
    + by apply (effect_fingerprints s).
Qed.

Lemma reachable_run trace s : reachable L s → reachable L (run L trace s).
Proof.
  revert s. induction trace as [|[now r] trace IH]; intros s Hs; simpl; [done|].
  apply IH. by apply reachable_handle.
Qed.

(** A pending alert is never modified: while it stays pending it is the
    entry that was stored. *)
Lemma run_persist trace s k a :
  reachable L s → Drawn k s →
  pendingAt k (run L trace s) = Some a → pendingAt k s = Some a.
Proof.
  revert s. induction trace as [|[now r] trace IH]; intros s Hs Hk; simpl; [done|].
  intros Hat. destruct (reachable_invariant s Hs) as [Hwk _].
  pose proof (handle_effect L now r s Hwk) as Heff.
  apply (effect_persist s (handle L now r s)); [done..|].
  apply IH; [by apply reachable_handle| |done].
  destruct Hk as (n & Hn & ->). exists n. split; [|done].
  apply effect_drawn in Heff. lia.
Qed.

End Reachability.
End ServerFacts.

(** ** Deduplication *)

Module DedupFacts.
Import JsString Js External Store Http DocumentGenerator Webhook Server.
Import JsStringFacts NormalizeFacts ServerFacts.

(** The fingerprint reads five properties of the alert and the time
    window. *)
Lemma hashString_ext (now1 now2 : Z) (alert1 alert2 : value) :
  timeWindow now1 = timeWindow now2 →
  get "alert_type" alert1 = get "alert_type" alert2 →
  get "title" alert1 = get "title" alert2 →
  get "event_title" alert1 = get "event_title" alert2 →
  get "org" alert1 = get "org" alert2 →
  get "id" alert1 = get "id" alert2 →
  hashString now1 alert1 = hashString now2 alert2.
Proof.
  intros Hw Ht Hti He Ho Hi. unfold hashString, hashData.
  by rewrite Hw, Ht, Hti, He, Ho, Hi.
Qed.

(** Normalisation never copies [event_title]. *)
Lemma normalize_event_title (now : Z) (body alert : value) :
  normalize now body = Some alert → get "event_title" alert = VUndef.
Proof. destruct body; intros [= <-]; reflexivity. Qed.

Lemma assoc_assocSet {A} (k : string) (x : A) (l : list (string * A)) :
  assoc k (assocSet k x l) = Some x.
Proof.
  induction l as [|[k' y] l IH]; simpl.
  - by rewrite decide_True.
  - case_decide; simpl; [by rewrite decide_True|]. by rewrite decide_False.
Qed.

Lemma elem_of_mapValues (m : list (string * alertData)) (a : alertData) :
  a ∈ mapValues m ↔ ∃ k, (k, a) ∈ m.
Proof.
  unfold mapValues. rewrite list_elem_of_fmap. split.
  - intros ([k a'] & -> & Hin). by exists k.
  - intros [k Hin]. by exists (k, a).
Qed.

Lemma find_hash_Some (h : string) (m : list (string * alertData)) (a : alertData) :
  List.find (λ a, bool_decide (a_alertHash a = h)) (mapValues m) = Some a →
  a ∈ mapValues m ∧ a_alertHash a = h.
Proof.
  intros [Hin Hb]%find_some. apply list_elem_of_In in Hin.
  by apply bool_decide_eq_true in Hb.
Qed.

Section WithLib.
Context (L : Lib).

(** An accepted ingest names a pending alert that carries the fingerprint
    of the payload. *)
Lemma ingest_accepted now body alert s r :
  reachable L s →
  normalize now body = Some alert →
  (ingest L now body s).1 = Http200 r →
  ∃ a, pendingAt (r_alertId r) (ingest L now body s).2 = Some a
       ∧ a_alertHash a = generateAlertHash L now alert
       ∧ Drawn (r_alertId r) (ingest L now body s).2.
Proof.
  intros [[Hnd Hkeys] Hfp]%reachable_invariant Hn. unfold ingest. rewrite Hn.
  rewrite (ensureTitle_normalize now body alert Hn).
  destruct (List.find _ _) as [existing|] eqn:Hf; simpl.
  - intros [= <-]. simpl. apply find_hash_Some in Hf as [Hin Hh].
    apply elem_of_mapValues in Hin as [k Hin].
    destruct (Hkeys k existing Hin) as (-> & Hdrawn).
    exists existing. split_and!; [|done..]. by apply assoc_NoDup.
  - intros [= <-]. simpl. eexists. split_and!.
    + unfold pendingAt, mapGet, mapSet. simpl. apply assoc_assocSet.
    + done.
    + exists (uuidDrawn s). simpl. split; [lia|done].
Qed.

(** A payload whose fingerprint a pending alert carries is answered with
    that alert's id and the duplicate flag, and changes nothing. *)
Lemma ingest_duplicate now body alert s k a :
  reachable L s →
  normalize now body = Some alert →
  pendingAt k s = Some a →
  a_alertHash a = generateAlertHash L now alert →
  ingest L now body s =
    (Http200 {| r_alertId := k;
                r_message := "Alert already received (duplicate detected)";
                r_duplicate := Some true |}, s).
Proof.
  intros [[Hnd Hkeys] Hfp]%reachable_invariant Hn Hat Hh.
  unfold ingest. rewrite Hn, (ensureTitle_normalize now body alert Hn).
  apply assoc_Some_elem in Hat.
  assert (a ∈ mapValues (pendingAlerts s)) as Ha
    by (apply elem_of_mapValues; by exists k).
  destruct (List.find _ _) as [existing|] eqn:Hf.
  - apply find_hash_Some in Hf as [Hin Hhe].
    assert (existing = a) as ->.
    { apply (NoDup_fmap_eq a_alertHash (mapValues (pendingAlerts s)));
        [done..|congruence]. }
    by destruct (Hkeys k a Hat) as (-> & _).
  - apply find_hash_None in Hf. destruct Hf. rewrite <-Hh.
    by apply list_elem_of_fmap_2.
Qed.

(** A payload whose fingerprint no pending alert carries is queued under
    the identifier drawn next, and answered without the duplicate flag. *)
Lemma ingest_fresh now body alert s :
  reachable L s →
  normalize now body = Some alert →
  generateAlertHash L now alert ∉ fingerprints s →
  ∃ a s',
    ingest L now body s =
      (Http200 {| r_alertId := uuidv4 (uuidDrawn s);
                  r_message := "Alert received and queued for processing";
                  r_duplicate := None |}, s')
    ∧ pendingAt (uuidv4 (uuidDrawn s)) s = None
    ∧ pendingAt (uuidv4 (uuidDrawn s)) s' = Some a
    ∧ a_alertHash a = generateAlertHash L now alert
    ∧ a_originalPayload a = alert
    ∧ pendingAlerts s' = pendingAlerts s ++ [(uuidv4 (uuidDrawn s), a)].
Proof.
  intros [[Hnd Hkeys] Hfp]%reachable_invariant Hn Hh.
  assert (uuidv4 (uuidDrawn s) ∉ (pendingAlerts s).*1) as Hfresh.
  { intros ([k a] & Hk & Hin)%list_elem_of_fmap. simpl in Hk.
    destruct (Hkeys _ _ Hin) as (_ & n & Hlt & ->).
    apply (inj uuidv4) in Hk. lia. }
  unfold ingest. rewrite Hn, (ensureTitle_normalize now body alert Hn).
  destruct (List.find _ _) as [existing|] eqn:Hf.
  - apply find_hash_Some in Hf as [Hin Hhe]. destruct Hh. rewrite <-Hhe.
    by apply list_elem_of_fmap_2.
  - simpl. eexists _, _. split; [reflexivity|]. simpl. split_and!.
    + by apply assoc_None.
    + unfold pendingAt, mapGet, mapSet. apply assoc_assocSet.
    + done.
    + done.
    + unfold mapSet. by apply assocSet_fresh.
Qed.

(** A successful [process] removes the alert from the pending [Map], and
    with it its fingerprint. *)
Lemma process_ok now k templateId s p s' :
  reachable L s →
  process L now k templateId s = (Http200 p, s') →
  ∃ a, pendingAt k s = Some a
       ∧ pendingAlerts s' = mapDelete k (pendingAlerts s)
       ∧ (a_alertHash a ∉ fingerprints s')
       ∧ (uuidDrawn s ≤ uuidDrawn s')%nat.
Proof.
  intros [[Hnd Hkeys] Hfp]%reachable_invariant. unfold process.
  destruct (negb (truthy templateId)); [done|].
  destruct (mapGet k (pendingAlerts s)) as [a|] eqn:Hat; [|done].
  destruct (generateDocument_frame L now (a_originalPayload a) templateId s)
    as (Hp & _ & Hu).
  destruct (generateDocument L now (a_originalPayload a) templateId s)
    as [[document|e] s1]; [|done].
  cbn in Hp, Hu. intros [= <- <-]. exists a.
  unfold fingerprints. cbn. rewrite Hp.
  split_and!; [done..| |done].
  intros (a' & Hh & Hin)%list_elem_of_fmap.
  apply elem_of_mapValues in Hin as [k' Hin].
  apply elem_of_mapDelete in Hin as [Hin Hne].
  apply assoc_Some_elem in Hat.
  assert (a' = a) as ->.
  { apply (NoDup_fmap_eq a_alertHash (mapValues (pendingAlerts s)));
      [done| | |done]; apply elem_of_mapValues; eauto. }
  destruct (Hkeys k a Hat) as (Hid & _). destruct (Hkeys k' a Hin) as (Hid' & _).
  congruence.
Qed.

End WithLib.
End DedupFacts.

(** ** JSON quoting is injective *)

Module QuoteFacts.
Import JsString Js JsStringFacts.

Definition hexValue (c : ascii) : N :=
  let n := code c in
  if (n <? 58)%N then (n - 48)%N else (n - 87)%N.

(** Reads back one escaped code unit from the front of a string. *)
Definition unescapeChar (s : string) : option (ascii * string) :=
  match s with
  | EmptyString => None
  | String c r =>
      if (code c =? 92)%N then
        match r with
        | EmptyString => None
        | String d r' =>
            let n := code d in
            if (n =? 34)%N then Some (ascii_of_N 34, r')
            else if (n =? 92)%N then Some (ascii_of_N 92, r')
            else if (n =? 98)%N then Some (ascii_of_N 8, r')
            else if (n =? 116)%N then Some (ascii_of_N 9, r')
            else if (n =? 110)%N then Some (ascii_of_N 10, r')
            else if (n =? 102)%N then Some (ascii_of_N 12, r')
            else if (n =? 114)%N then Some (ascii_of_N 13, r')
            else
              match r' with
              | String _ (String _ (String h (String l r''))) =>
                  Some (ascii_of_N (16 * hexValue h + hexValue l), r'')
              | _ => None
              end
        end
      else Some (c, r)
  end.

Lemma unescapeChar_escapeChar (c : ascii) (r : string) :
  unescapeChar (escapeChar c +:+ r) = Some (c, r).
Proof. by destruct c as [[] [] [] [] [] [] [] []]. Qed.

Lemma escape_inj (s t : string) : escape s = escape t → s = t.
Proof.
  revert t. induction s as [|c s IH]; intros [|d t] H; simpl in H.
  - done.
  - apply (f_equal unescapeChar) in H.
    by rewrite unescapeChar_escapeChar in H.
  - apply (f_equal unescapeChar) in H.
    by rewrite unescapeChar_escapeChar in H.
  - apply (f_equal unescapeChar) in H.
    rewrite !unescapeChar_escapeChar in H. injection H as -> H.
    f_equal. by apply IH.
Qed.

Lemma quote_inj (s t : string) : quote s = quote t → s = t.
Proof.
  unfold quote. intros H. apply (inj (String.app dquote)) in H.
  apply app_inv_tail in H. by apply escape_inj.
Qed.

Lemma join_last_inj (sep : string) (front : list string) (x y : string) :
  join sep (front ++ [x]) = join sep (front ++ [y]) → x = y.
Proof.
  induction front as [|a front IH]; simpl; [done|].
  destruct front as [|b front]; simpl in *.
  - intros H. apply (inj (String.app a)) in H. by apply (inj (String.app sep)) in H.
  - intros H. apply (inj (String.app a)) in H. apply (inj (String.app sep)) in H.
    by apply IH.
Qed.

End QuoteFacts.

(** ** The shape of the fingerprint input *)

Module FingerprintFacts.
Import JsString Js External Webhook JsStringFacts QuoteFacts.

(** The title that enters the fingerprint: [title || 'untitled']. *)
Definition fingerprintTitle (t : string) : string :=
  if decide (t = "") then "untitled" else t.

Definition member (k : string) (o : option string) : option string :=
  (λ s, quote k +:+ ":" +:+ s) <$> o.

Definition titleMember (t : string) : string :=
  quote "title" +:+ ":" +:+ quote (fingerprintTitle t).

(** The sorted keys of [hashData], by the presence of [org] and [id]. *)
Definition hashKeys (hasOrg hasId : bool) : list string :=
  ["alert_type"] ++ (if hasId then ["id"] else [])
  ++ (if hasOrg then ["org"] else []) ++ ["timeWindow"; "title"].

(** The members printed before the title. *)
Definition frontMembers (window : Z) (alertType org id : value) : list string :=
  let keys := Some (hashKeys (truthy org) (truthy id)) in
  omap (λ o, o)
    [member "alert_type" (stringify keys alertType);
     if truthy id then member "id" (stringify keys id) else None;
     if truthy org then member "org" (stringify keys org) else None;
     member "timeWindow" (Some (pretty window))].

Lemma sortedKeys_hashData (now : Z) (alert : value) :
  sortedKeys (hashData now alert) =
  hashKeys (truthy (get "org" alert)) (truthy (get "id" alert)).
Proof.
  unfold hashData.
  destruct (truthy (get "org" alert)), (truthy (get "id" alert)); reflexivity.
Qed.

Lemma or_title (t : string) :
  or (VStr t) (or VUndef (VStr "untitled")) = VStr (fingerprintTitle t).
Proof. by destruct t. Qed.

Lemma hashString_shape (now : Z) (alert : value) (t : string) :
  get "title" alert = VStr t →
  get "event_title" alert = VUndef →
  hashString now alert =
    "{" +:+ join "," (frontMembers (timeWindow now) (get "alert_type" alert)
                        (get "org" alert) (get "id" alert) ++ [titleMember t])
    +:+ "}".
Proof.
  intros Ht He. unfold hashString. rewrite sortedKeys_hashData.
  unfold hashData, frontMembers. rewrite Ht, He, or_title.
  generalize (get "alert_type" alert) (get "org" alert) (get "id" alert).
  intros va vo vi.
  destruct (truthy vo) eqn:Ho, (truthy vi) eqn:Hi; simpl;
    destruct (stringify _ va); simpl;
    try (destruct (stringify _ vi); simpl);
    try (destruct (stringify _ vo); simpl);
    reflexivity.
Qed.

(** With everything but the title equal, two fingerprint inputs differ as
    soon as the titles that enter them differ. *)
Lemma hashString_title_inj (now1 now2 : Z) (alert1 alert2 : value) (t1 t2 : string) :
  timeWindow now1 = timeWindow now2 →
  get "alert_type" alert1 = get "alert_type" alert2 →
  get "org" alert1 = get "org" alert2 →
  get "id" alert1 = get "id" alert2 →
  get "event_title" alert1 = VUndef → get "event_title" alert2 = VUndef →
  get "title" alert1 = VStr t1 → get "title" alert2 = VStr t2 →
  hashString now1 alert1 = hashString now2 alert2 →
  fingerprintTitle t1 = fingerprintTitle t2.
Proof.
  intros Hw Ha Ho Hi He1 He2 Ht1 Ht2.
  rewrite (hashString_shape now1 alert1 t1), (hashString_shape now2 alert2 t2)
    by done.
  rewrite Hw, Ha, Ho, Hi. intros H.
  apply (inj (String.app "{")) in H. apply app_inv_tail in H.
  apply join_last_inj in H. unfold titleMember in H.
  apply (inj (String.app (quote "title"))) in H.
  apply (inj (String.app ":")) in H. by apply quote_inj.
Qed.

End FingerprintFacts.

(** ** Deduplication: the claims *)

Module DedupClaims.
Import JsString Js External Store Http DocumentGenerator Webhook Server.
Import JsStringFacts NormalizeFacts ServerFacts DedupFacts FingerprintFacts Examples.

Lemma Drawn_pendingAt (L : Lib) (s : state) (k : string) (a : alertData) :
  reachable L s → pendingAt k s = Some a → Drawn k s.
Proof.
  intros [[_ Hkeys] _]%reachable_invariant Hat%assoc_Some_elem.
  by destruct (Hkeys k a Hat) as [_ ?].
Qed.

(** An ingest that is answered with an id other than that of a pending alert
    has a fingerprint other than that alert's. *)
Lemma ingest_other_fingerprint (L : Lib) now body alert s k a :
  reachable L s →
  normalize now body = Some alert →
  pendingAt k s = Some a →
  a_alertHash a ≠ generateAlertHash L now alert →
  ∃ r, (ingest L now body s).1 = Http200 r ∧ r_alertId r ≠ k.
Proof.
  intros Hs Hn Hat Hne.
  destruct (decide (generateAlertHash L now alert ∈ fingerprints s)) as [Hin|Hnin].
  - apply list_elem_of_fmap in Hin as (a' & Hh & [k' Hin]%elem_of_mapValues).
    destruct (reachable_invariant L s Hs) as [[Hnd Hkeys] _].
    assert (pendingAt k' s = Some a') as Hat' by (by apply assoc_NoDup).
    rewrite (ingest_duplicate L now body alert s k' a') by done.
    eexists. split; [reflexivity|]. simpl. intros ->. congruence.
  - destruct (ingest_fresh L now body alert s Hs Hn Hnin) as (a' & s' & -> & _).
    eexists. split; [reflexivity|]. simpl. intros <-.
    destruct (Drawn_pendingAt L s _ a Hs Hat) as (n & Hlt & Heq).
    apply (inj uuidv4) in Heq. lia.
Qed.

(** C1, as amended: take two ingest calls whose normalised alerts agree on
    alertType, org and source id and fall in the same 5-minute window, the
    alert named by the first reply being still pending at the second call.
    If the titles are identical, the second call returns the same alertId
    with duplicate=true and changes nothing.  If the titles are strings that
    differ after the fingerprint's fallback to untitled for an empty title,
    and the digests of the two fingerprint inputs do not collide, the second
    call returns a different alertId. *)
Theorem ingest_twice (L : Lib) (s : state) (now1 now2 : Z)
    (body1 body2 alert1 alert2 : value) (trace : list (Z * request))
    (r1 : ingestReply) :
  reachable L s →
  normalize now1 body1 = Some alert1 →
  normalize now2 body2 = Some alert2 →
  timeWindow now1 = timeWindow now2 →
  get "alert_type" alert1 = get "alert_type" alert2 →
  get "org" alert1 = get "org" alert2 →
  get "id" alert1 = get "id" alert2 →
  (ingest L now1 body1 s).1 = Http200 r1 →
  let s2 := run L trace (ingest L now1 body1 s).2 in
  is_Some (pendingAt (r_alertId r1) s2) →
  (get "title" alert1 = get "title" alert2 →
   ingest L now2 body2 s2 =
     (Http200 {| r_alertId := r_alertId r1;
                 r_message := "Alert already received (duplicate detected)";
                 r_duplicate := Some true |}, s2))
  ∧ (∀ t1 t2,
       get "title" alert1 = VStr t1 → get "title" alert2 = VStr t2 →
       fingerprintTitle t1 ≠ fingerprintTitle t2 →
       (md5 L (hashString now1 alert1) = md5 L (hashString now2 alert2) →
        hashString now1 alert1 = hashString now2 alert2) →
       ∃ r2, (ingest L now2 body2 s2).1 = Http200 r2
             ∧ r_alertId r2 ≠ r_alertId r1).
Proof.
  intros Hs Hn1 Hn2 Hw Ha Ho Hi Hr1 s2 [a Hat].
  pose proof (normalize_event_title now1 body1 alert1 Hn1) as He1.
  pose proof (normalize_event_title now2 body2 alert2 Hn2) as He2.
  destruct (ingest_accepted L now1 body1 alert1 s r1 Hs Hn1 Hr1)
    as (a1 & Hat1 & Hh1 & Hd1).
  assert (reachable L (ingest L now1 body1 s).2) as Hs1
    by apply (reachable_handle L now1 (Ingest body1) s Hs).
  assert (reachable L s2) as Hs2 by by apply reachable_run.
  assert (a = a1) as ->.
  { apply (run_persist L trace _ _ a Hs1 Hd1) in Hat. congruence. }
  split.
  - intros Ht. apply (ingest_duplicate L now2 body2 alert2 s2 _ a1); [done..|].
    rewrite Hh1. unfold generateAlertHash. f_equal.
    apply hashString_ext; congruence.
  - intros t1 t2 Ht1 Ht2 Hne Hmd5.
    apply (ingest_other_fingerprint L now2 body2 alert2 s2 _ a1); [done..|].
    rewrite Hh1. unfold generateAlertHash. intros Heq%Hmd5. apply Hne.
    by apply (hashString_title_inj now1 now2 alert1 alert2).
Qed.

Lemma ingest_twice_witness :
  ingest exampleLib exampleNow cpuAlert
    (run exampleLib [(exampleNow, Ingest diskAlert)]
       (ingest exampleLib exampleNow cpuAlert emptyState).2)
  = (Http200 {| r_alertId := uuidv4 0;
                r_message := "Alert already received (duplicate detected)";
                r_duplicate := Some true |},
     run exampleLib [(exampleNow, Ingest diskAlert)]
       (ingest exampleLib exampleNow cpuAlert emptyState).2).
Proof.
  refine (proj1 (ingest_twice exampleLib emptyState exampleNow exampleNow
            cpuAlert cpuAlert (normalizeText exampleNow "[Triggered] CPU high")
            (normalizeText exampleNow "[Triggered] CPU high")
            [(exampleNow, Ingest diskAlert)]
            {| r_alertId := uuidv4 0;
               r_message := "Alert received and queued for processing";
               r_duplicate := None |}
            _ _ _ _ _ _ _ _ _) _); try reflexivity.
  - by apply reachable_start.
  - by vm_compute; eexists.
Defined.

(** With different titles the second call queues a new alert. *)
Example ingest_other_title :
  (ingest exampleLib exampleNow diskAlert
     (ingest exampleLib exampleNow cpuAlert emptyState).2).1
  = Http200 {| r_alertId := uuidv4 1;
               r_message := "Alert received and queued for processing";
               r_duplicate := None |}.
Proof. by vm_compute. Qed.

(** C1, as stated, fails on the titles: the texts [Triggered] and
    [Triggered] untitled normalise to the same alert type and to the different
    titles empty and untitled, yet their fingerprint inputs are the same
    string, so the second call is answered as a duplicate of the first, with
    the same alertId. *)
Lemma ingest_untitled_collision :
  let first := VStr "[Triggered]" in
  let second := VStr "[Triggered] untitled" in
  let alert1 := normalizeText exampleNow "[Triggered]" in
  let alert2 := normalizeText exampleNow "[Triggered] untitled" in
  let s1 := (ingest exampleLib exampleNow first emptyState).2 in
  get "alert_type" alert1 = get "alert_type" alert2
  ∧ get "title" alert1 = VStr ""
  ∧ get "title" alert2 = VStr "untitled"
  ∧ hashString exampleNow alert1 = hashString exampleNow alert2
  ∧ (ingest exampleLib exampleNow first emptyState).1
    = Http200 {| r_alertId := uuidv4 0;
                 r_message := "Alert received and queued for processing";
                 r_duplicate := None |}
  ∧ ingest exampleLib exampleNow second s1
    = (Http200 {| r_alertId := uuidv4 0;
                  r_message := "Alert already received (duplicate detected)";
                  r_duplicate := Some true |}, s1).
Proof. cbv zeta. split_and!; by vm_compute. Qed.

(** The collision does not depend on the digest: whatever [md5] is, the
    second text is answered as a duplicate of the first. *)
Remark untitled_collision_any_digest (L : Lib) :
  let s1 := (ingest L exampleNow (VStr "[Triggered]") emptyState).2 in
  ingest L exampleNow (VStr "[Triggered] untitled") s1
  = (Http200 {| r_alertId := uuidv4 0;
                r_message := "Alert already received (duplicate detected)";
                r_duplicate := Some true |}, s1).
Proof.
  intros s1.
  assert (reachable L s1) as Hs1.
  { apply (reachable_handle L exampleNow (Ingest (VStr "[Triggered]"))).
    by apply reachable_start. }
  eapply (ingest_duplicate L exampleNow _ _ s1 _ _ Hs1); reflexivity.
Qed.

(** The fields that enter the fingerprint do not depend on the time of
    normalisation. *)
Lemma normalize_fields (now1 now2 : Z) (body alert1 : value) :
  normalize now1 body = Some alert1 →
  ∃ alert2, normalize now2 body = Some alert2
    ∧ get "alert_type" alert1 = get "alert_type" alert2
    ∧ get "title" alert1 = get "title" alert2
    ∧ get "org" alert1 = get "org" alert2
    ∧ get "id" alert1 = get "id" alert2.
Proof.
  destruct body; intros [= <-]; eexists; (split; [reflexivity|]);
    split_and!; reflexivity.
Qed.

Lemma run_drawn (L : Lib) (trace : list (Z * request)) (s : state) :
  reachable L s → (uuidDrawn s ≤ uuidDrawn (run L trace s))%nat.
Proof.
  revert s. induction trace as [|[now r] trace IH]; intros s Hs; simpl; [done|].
  destruct (reachable_invariant L s Hs) as [Hwk _].
  pose proof (effect_drawn _ _ (handle_effect L now r s Hwk)).
  specialize (IH _ (reachable_handle L now r s Hs)). lia.
Qed.

(** C7: in every state reachable by a sequence of requests, no two pending
    alerts carry the same fingerprint, and every further request keeps it
    so. *)
Theorem pending_fingerprints_unique (L : Lib) (s : state) :
  reachable L s →
  NoDup (fingerprints s)
  ∧ (∀ k1 k2 a1 a2,
       pendingAt k1 s = Some a1 → pendingAt k2 s = Some a2 →
       a_alertHash a1 = a_alertHash a2 → k1 = k2)
  ∧ (∀ now r, NoDup (fingerprints (handle L now r s))).
Proof.
  intros Hs. destruct (reachable_invariant L s Hs) as [[Hnd Hkeys] Hfp].
  split_and!.
  - done.
  - intros k1 k2 a1 a2 H1%assoc_Some_elem H2%assoc_Some_elem Hh.
    assert (a1 = a2) as ->.
    { apply (NoDup_fmap_eq a_alertHash (mapValues (pendingAlerts s)));
        [done| | |done]; apply elem_of_mapValues; eauto. }
    destruct (Hkeys k1 a2 H1) as [<- _]. by destruct (Hkeys k2 a2 H2) as [<- _].
  - intros now r. by apply (reachable_invariant L), reachable_handle.
Qed.

Lemma pending_fingerprints_unique_witness :
  let s := run exampleLib [(exampleNow, Ingest cpuAlert);
                           (exampleNow, Ingest diskAlert);
                           (exampleNow, Ingest cpuAlert)] emptyState in
  length (pendingAlerts s) = 2%nat ∧ NoDup (fingerprints s).
Proof.
  split; [reflexivity|].
  refine (proj1 (pending_fingerprints_unique exampleLib _ _)).
  apply reachable_run. by apply reachable_start.
Defined.

(** C9: duplicate detection consults the pending alerts only.  Once the
    alert named by the reply to an ingest has been processed, ingesting the
    same payload again in the same 5-minute window queues a new pending alert
    under a fresh id, answered without the duplicate flag. *)
Theorem reingest_after_process (L : Lib) (s s2 : state) (now1 now2 nowp : Z)
    (body templateId : value) (trace : list (Z * request))
    (r1 : ingestReply) (p : processReply) :
  reachable L s →
  (ingest L now1 body s).1 = Http200 r1 →
  process L nowp (r_alertId r1) templateId (run L trace (ingest L now1 body s).2)
    = (Http200 p, s2) →
  timeWindow now1 = timeWindow now2 →
  ∃ a s3,
    ingest L now2 body s2 =
      (Http200 {| r_alertId := uuidv4 (uuidDrawn s2);
                  r_message := "Alert received and queued for processing";
                  r_duplicate := None |}, s3)
    ∧ uuidv4 (uuidDrawn s2) ≠ r_alertId r1
    ∧ pendingAt (r_alertId r1) s2 = None
    ∧ pendingAt (uuidv4 (uuidDrawn s2)) s2 = None
    ∧ pendingAt (uuidv4 (uuidDrawn s2)) s3 = Some a
    ∧ a_status a = "pending_template_selection".
Proof.
  intros Hs Hr1 Hp Hw.
  destruct (normalize now1 body) as [alert1|] eqn:Hn1; cycle 1.
  { unfold ingest in Hr1. by rewrite Hn1 in Hr1. }
  destruct (normalize_fields now1 now2 body alert1 Hn1)
    as (alert2 & Hn2 & Ha & Ht & Ho & Hi).
  destruct (ingest_accepted L now1 body alert1 s r1 Hs Hn1 Hr1)
    as (a1 & Hat1 & Hh1 & Hd1).
  assert (reachable L (ingest L now1 body s).2) as Hs1
    by apply (reachable_handle L now1 (Ingest body) s Hs).
  set (s1' := run L trace (ingest L now1 body s).2) in *.
  assert (reachable L s1') as Hs1' by by apply reachable_run.
  destruct (process_ok L nowp _ templateId s1' p s2 Hs1' Hp)
    as (a & Hat & Hpend & Hnin & Hu).
  assert (a = a1) as ->.
  { apply (run_persist L trace _ _ a Hs1 Hd1) in Hat. congruence. }
  assert (reachable L s2) as Hs2.
  { replace s2 with (handle L nowp (Process (r_alertId r1) templateId) s1')
      by (simpl; by rewrite Hp).
    by apply reachable_handle. }
  assert (generateAlertHash L now2 alert2 = a_alertHash a1) as Hh2.
  { rewrite Hh1. unfold generateAlertHash. f_equal. symmetry.
    apply hashString_ext; [done..| |done|done].
    by rewrite (normalize_event_title now1 body alert1),
      (normalize_event_title now2 body alert2). }
  destruct (ingest_fresh L now2 body alert2 s2 Hs2 Hn2)
    as (a' & s3 & Hing & Hnone & Hsome & _ & _ & _); [by rewrite Hh2|].
  exists a', s3. split_and!; [done| | |done|done|].
  - destruct Hd1 as (n & Hlt & ->). intros Heq%(inj uuidv4).
    pose proof (run_drawn L trace _ Hs1). fold s1' in H. lia.
  - unfold pendingAt, mapGet. rewrite Hpend. apply assoc_None.
    intros ([k x] & Hk & [_ Hne]%elem_of_mapDelete)%list_elem_of_fmap.
    by simpl in Hk.
  - unfold ingest in Hing. rewrite Hn2 in Hing.
    destruct (List.find _ _); [done|]. simpl in Hing.
    injection Hing as <-. unfold pendingAt, mapGet in Hsome. simpl in Hsome.
    unfold mapSet in Hsome. rewrite assoc_assocSet in Hsome.
    by injection Hsome as <-.
Qed.

Lemma reingest_after_process_witness :
  ∃ a s3,
    ingest exampleLib exampleNow cpuAlert
      (process exampleLib exampleNow (uuidv4 1) (VStr (uuidv4 0))
         (ingest exampleLib exampleNow cpuAlert oneTemplate).2).2
    = (Http200 {| r_alertId := uuidv4 3;
                  r_message := "Alert received and queued for processing";
                  r_duplicate := None |}, s3)
    ∧ uuidv4 3 ≠ uuidv4 1
    ∧ pendingAt (uuidv4 1)
        (process exampleLib exampleNow (uuidv4 1) (VStr (uuidv4 0))
           (ingest exampleLib exampleNow cpuAlert oneTemplate).2).2 = None
    ∧ pendingAt (uuidv4 3)
        (process exampleLib exampleNow (uuidv4 1) (VStr (uuidv4 0))
           (ingest exampleLib exampleNow cpuAlert oneTemplate).2).2 = None
    ∧ pendingAt (uuidv4 3) s3 = Some a
    ∧ a_status a = "pending_template_selection".
Proof.
  assert (∃ p, (process exampleLib exampleNow (uuidv4 1) (VStr (uuidv4 0))
                  (ingest exampleLib exampleNow cpuAlert oneTemplate).2).1
               = Http200 p) as [p Hp]
    by (vm_compute; eexists; reflexivity).
  refine (reingest_after_process exampleLib oneTemplate _ exampleNow exampleNow
            exampleNow cpuAlert (VStr (uuidv4 0)) []
            {| r_alertId := uuidv4 1;
               r_message := "Alert received and queued for processing";
               r_duplicate := None |} p _ _ _ _).
  - apply (reachable_handle exampleLib exampleNow (CreateTemplate reportTemplate)).
    by apply reachable_start.
  - by vm_compute.
  - simpl run. cbn [r_alertId]. rewrite <-Hp. apply surjective_pairing.
  - reflexivity.
Defined.

End DedupClaims.

(** ** Rendering: usage statistics and preview *)

Module GeneratorFacts.
Import JsString Js External Store Http DocumentGenerator.

(** The usage count of a stored template; a missing count reads as 0. *)
Definition usage (t : template) : nat := default 0%nat (t_usageCount t).

(** Everything of a template but its usage statistics. *)
Definition sameDefinition (t t' : template) : Prop :=
  t_id t' = t_id t ∧ t_name t' = t_name t
  ∧ t_description t' = t_description t ∧ t_category t' = t_category t
  ∧ t_content t' = t_content t ∧ t_createdAt t' = t_createdAt t
  ∧ t_updatedAt t' = t_updatedAt t.

Section WithLib.
Context (L : Lib).

(** What a render computes before it writes anything. *)
Definition rendering (now : Z) (source : string) (alertData : value)
  : result (string * value) :=
  context ← prepareTemplateContext L now alertData;
  renderedContent ← hbsRender L source context;
  Ok (renderedContent, context).

(** The priority is derived while the context is built: once the context
    exists, deriving it again cannot throw. *)
Lemma prepareTemplateContext_priority now alertData context :
  prepareTemplateContext L now alertData = Ok context →
  ∃ priority, determinePriority alertData = Ok priority.
Proof.
  unfold prepareTemplateContext. destruct (isNullish alertData); [done|].
  destruct (determinePriority alertData); [eauto|done].
Qed.

(** A successful render writes the document under a fresh id and bumps the
    statistics of its template; nothing else changes. *)
Lemma generateDocument_ok now alertData templateId s document s' :
  generateDocument L now alertData templateId s = (Ok document, s') →
  ∃ template context,
    templateFiles s !! toString templateId = Some template
    ∧ rendering now (t_content template) alertData = Ok (d_content document, context)
    ∧ d_id document = uuidv4 (uuidDrawn s)
    ∧ documentFiles s' = <[d_id document := document]> (documentFiles s)
    ∧ ∃ template',
        templateFiles s' = <[toString templateId := template']> (templateFiles s)
        ∧ usage template' = (usage template + 1)%nat
        ∧ t_lastUsed template' = Some now
        ∧ sameDefinition template template'.
Proof.
  unfold generateDocument, loadTemplate, rendering.
  destruct (templateFiles s !! toString templateId) as [template|] eqn:Ht; [|done].
  destruct (prepareTemplateContext L now alertData) as [context|e] eqn:Hc; [|done].
  cbn [mbind result_bind].
  destruct (hbsRender L (t_content template) context) as [text|e] eqn:Hr; [|done].
  cbn [drawUuid].
  destruct (determinePriority alertData) as [priority|e] eqn:Hp; [|done].
  cbn -[updateTemplateUsage saveDocument]. intros [= <- <-].
  exists template, context. split_and!; [done|by rewrite Hr|done| |].
  - unfold updateTemplateUsage, saveDocument. cbn. by rewrite Ht.
  - unfold updateTemplateUsage, saveDocument. cbn. rewrite Ht. cbn.
    eexists. split; [reflexivity|]. unfold usage, sameDefinition. cbn.
    split_and!; done.
Qed.

(** Live generation of a stored template runs the rendering that the
    preview of its content runs; when it throws it has written nothing. *)
Lemma generateDocument_rendering now alertData templateId s template :
  templateFiles s !! toString templateId = Some template →
  match rendering now (t_content template) alertData with
  | Ok (text, context) =>
      ∃ document s', generateDocument L now alertData templateId s = (Ok document, s')
                     ∧ d_content document = text
  | Throw e => generateDocument L now alertData templateId s = (Throw e, s)
  end.
Proof.
  intros Ht. unfold generateDocument, loadTemplate, rendering. rewrite Ht.
  destruct (prepareTemplateContext L now alertData) as [context|e] eqn:Hc; [|done].
  cbn [mbind result_bind].
  destruct (hbsRender L (t_content template) context) as [text|e]; [|done].
  destruct (prepareTemplateContext_priority now alertData context Hc)
    as [priority ->].
  cbn -[updateTemplateUsage saveDocument]. eauto.
Qed.

(** A render that throws writes nothing. *)
Lemma generateDocument_throw now alertData templateId s e s' :
  generateDocument L now alertData templateId s = (Throw e, s') → s' = s.
Proof.
  intros Hg.
  destruct (templateFiles s !! toString templateId) as [template|] eqn:Ht.
  - pose proof (generateDocument_rendering now alertData templateId s template Ht)
      as Hr.
    destruct (rendering now (t_content template) alertData) as [[text context]|e'].
    + destruct Hr as (d & s'' & Hr & _). congruence.
    + congruence.
  - unfold generateDocument, loadTemplate in Hg. rewrite Ht in Hg. congruence.
Qed.

End WithLib.
End GeneratorFacts.

Module GeneratorClaims.
Import JsString Js External Store Http DocumentGenerator Templates.
Import GeneratorFacts Examples.

(** C5: for a template that exists, a successful render raises its stored
    usageCount by exactly 1 and sets its last-used time to the current time;
    a second successful render raises the count by 1 again and, the clock not
    running backwards, leaves a last-used time that is not earlier.  A
    template just created has usageCount 0. *)
Theorem render_counts_usage (L : Lib) (now1 now2 : Z)
    (alert1 alert2 templateId : value) (s s1 s2 : state)
    (template : template) (d1 d2 : document) :
  templateFiles s !! toString templateId = Some template →
  generateDocument L now1 alert1 templateId s = (Ok d1, s1) →
  generateDocument L now2 alert2 templateId s1 = (Ok d2, s2) →
  now1 ≤ now2 →
  (∃ t1 t2 last1 last2,
     templateFiles s1 !! toString templateId = Some t1
     ∧ templateFiles s2 !! toString templateId = Some t2
     ∧ usage t1 = (usage template + 1)%nat
     ∧ usage t2 = (usage t1 + 1)%nat
     ∧ t_lastUsed t1 = Some last1 ∧ last1 = now1
     ∧ t_lastUsed t2 = Some last2 ∧ last2 = now2
     ∧ last1 ≤ last2
     ∧ sameDefinition template t1 ∧ sameDefinition t1 t2)
  ∧ (∀ now body s0 summary s0',
       create now body s0 = (Http201 summary, s0') →
       ∃ t, templateFiles s0' !! ts_id summary = Some t
            ∧ t_usageCount t = Some 0%nat).
Proof.
  intros Ht Hg1 Hg2 Hle. split.
  - apply generateDocument_ok in Hg1
      as (t & _ & Ht' & _ & _ & _ & t1 & Hf1 & Hu1 & Hl1 & Hsame1).
    assert (t = template) as -> by congruence.
    assert (templateFiles s1 !! toString templateId = Some t1) as Ht1
      by (rewrite Hf1; apply lookup_insert_eq).
    apply generateDocument_ok in Hg2
      as (t & _ & Ht2' & _ & _ & _ & t2 & Hf2 & Hu2 & Hl2 & Hsame2).
    assert (t = t1) as -> by congruence.
    assert (templateFiles s2 !! toString templateId = Some t2) as Ht2
      by (rewrite Hf2; apply lookup_insert_eq).
    exists t1, t2, now1, now2. split_and!; done.
  - intros now body s0 summary s0'. unfold create.
    destruct (isNullish body); [done|]. destruct (_ || _); [done|].
    cbn [drawUuid].
    destruct (trimOf (get "name" body)); cbn [mbind result_bind];
      [|by intros [=]].
    destruct (trimOr (get "description" body) ""); cbn [mbind result_bind];
      [|by intros [=]].
    destruct (trimOf (get "content" body)); cbn [mbind result_bind];
      [|destruct (trimOf _); by intros [=]].
    destruct (trimOf _); cbn [mbind result_bind]; [|by intros [=]].
    intros [= <- <-].
    eexists. split; [apply lookup_insert_eq|done].
Qed.

Lemma render_counts_usage_witness :
  let now1 := exampleNow in
  let now2 := exampleNow + 60000 in
  let alert := Webhook.normalizeText exampleNow "[Triggered] CPU high" in
  let s1 := (generateDocument exampleLib now1 alert (VStr (uuidv4 0)) oneTemplate).2 in
  let s2 := (generateDocument exampleLib now2 alert (VStr (uuidv4 0)) s1).2 in
  ∃ t1 t2 last1 last2,
    templateFiles s1 !! uuidv4 0 = Some t1
    ∧ templateFiles s2 !! uuidv4 0 = Some t2
    ∧ usage t1 = 1%nat ∧ usage t2 = (usage t1 + 1)%nat
    ∧ t_lastUsed t1 = Some last1 ∧ last1 = now1
    ∧ t_lastUsed t2 = Some last2 ∧ last2 = now2
    ∧ last1 ≤ last2.
Proof.
  cbv zeta.
  assert (∃ t, templateFiles oneTemplate !! toString (VStr (uuidv4 0)) = Some t
               ∧ usage t = 0%nat) as (t & Ht & Hu)
    by (vm_compute; eexists; split; reflexivity).
  assert (∃ d, (generateDocument exampleLib exampleNow
                  (Webhook.normalizeText exampleNow "[Triggered] CPU high")
                  (VStr (uuidv4 0)) oneTemplate).1 = Ok d) as [d1 Hd1]
    by (vm_compute; eexists; reflexivity).
  assert (∃ d, (generateDocument exampleLib (exampleNow + 60000)
                  (Webhook.normalizeText exampleNow "[Triggered] CPU high")
                  (VStr (uuidv4 0))
                  (generateDocument exampleLib exampleNow
                     (Webhook.normalizeText exampleNow "[Triggered] CPU high")
                     (VStr (uuidv4 0)) oneTemplate).2).1 = Ok d) as [d2 Hd2]
    by (vm_compute; eexists; reflexivity).
  destruct (proj1 (render_counts_usage exampleLib exampleNow (exampleNow + 60000)
              _ _ (VStr (uuidv4 0)) oneTemplate _ _ t d1 d2 Ht
              (eq_trans (surjective_pairing _) (f_equal (λ r, (r, _)) Hd1))
              (eq_trans (surjective_pairing _) (f_equal (λ r, (r, _)) Hd2))
              ltac:(by vm_compute)))
    as (t1 & t2 & l1 & l2 & H1 & H2 & Hu1 & Hu2 & Hl1 & He1 & Hl2 & He2 & Hle & _).
  exists t1, t2, l1, l2. rewrite Hu in Hu1. split_and!; done.
Defined.

(** C6: for every template body and every alert the preview returns, and
    never throws.  It answers either with the text rendered from the context
    that live generation builds from the same alert, or with a failure that
    carries the message of the error raised while building the context or
    compiling and running the template.  Either way the state is the one it
    started from: no document is stored and no template statistic changes.
    For a stored template, live generation succeeds exactly when the preview
    of its content does, with the same text. *)
Theorem previewTemplate_total (L : Lib) (now : Z) (templateContent : string)
    (alertData : value) (s : state) :
  ∃ r, previewTemplate L now templateContent alertData s = (Ok r, s)
    ∧ match r with
      | PreviewOk text context =>
          prepareTemplateContext L now alertData = Ok context
          ∧ hbsRender L templateContent context = Ok text
      | PreviewFailed error =>
          (∃ e, prepareTemplateContext L now alertData = Throw e
                ∧ error = message e)
          ∨ (∃ context e, prepareTemplateContext L now alertData = Ok context
                          ∧ hbsRender L templateContent context = Throw e
                          ∧ error = message e)
      end
    ∧ documentFiles (previewTemplate L now templateContent alertData s).2
      = documentFiles s
    ∧ templateFiles (previewTemplate L now templateContent alertData s).2
      = templateFiles s
    ∧ (∀ templateId template,
         templateFiles s !! toString templateId = Some template →
         t_content template = templateContent →
         match r with
         | PreviewOk text _ =>
             ∃ document s',
               generateDocument L now alertData templateId s = (Ok document, s')
               ∧ d_content document = text
         | PreviewFailed error =>
             ∃ e, generateDocument L now alertData templateId s = (Throw e, s)
                  ∧ error = message e
         end).
Proof.
  pose proof (generateDocument_rendering L now alertData) as Hlive.
  unfold previewTemplate, rendering in *.
  destruct (prepareTemplateContext L now alertData) as [context|e] eqn:Hc;
    cbn [mbind result_bind] in *.
  - destruct (hbsRender L templateContent context) as [text|e] eqn:Hr;
      cbn [mbind result_bind] in *.
    + eexists. split; [reflexivity|]. split_and!; [done..|].
      intros templateId template Ht <-. specialize (Hlive templateId s _ Ht).
      by rewrite Hr in Hlive.
    + eexists. split; [reflexivity|]. split_and!; [|done..|].
      * right. by exists context, e.
      * intros templateId template Ht <-. specialize (Hlive templateId s _ Ht).
        rewrite Hr in Hlive. by exists e.
  - eexists. split; [reflexivity|]. split_and!; [|done..|].
    + left. by exists e.
    + intros templateId template Ht _. specialize (Hlive templateId s _ Ht).
      by exists e.
Qed.

End GeneratorClaims.

(** ** Template update *)

Module TemplateFacts.
Import JsString Js Store Http Templates JsStringFacts NormalizeFacts.

(** A supplied value that [trim] applies to: absent, or a string. *)
Definition TextOrAbsent (v : value) : Prop :=
  isNullish v = true ∨ ∃ x, v = VStr x.

(** Absent, empty or white space only. *)
Definition Blank (v : value) : Prop :=
  isNullish v = true ∨ ∃ x, v = VStr x ∧ allWhite x = true.

(** How a supplied value [v] turns the stored text [old] into [new]. *)
Definition FieldRule (v : value) (old new : string) : Prop :=
  (Blank v → new = old)
  ∧ (∀ x, v = VStr x → allWhite x = false → new = trim x).

(** The four updatable fields of a request body. *)
Definition TextFields (body : value) : Prop :=
  isNullish body = false
  ∧ TextOrAbsent (get "name" body) ∧ TextOrAbsent (get "description" body)
  ∧ TextOrAbsent (get "category" body) ∧ TextOrAbsent (get "content" body).

Lemma trimOr_text (v : value) (old : string) :
  TextOrAbsent v →
  ∃ new, trimOr v old = Ok new ∧ FieldRule v old new ∧ (old ≠ "" → new ≠ "").
Proof.
  intros [Hn|[x ->]].
  - exists old. destruct v; try done; (split_and!; [done| |done]);
      (split; [done|]); by intros x [=].
  - unfold trimOr. rewrite truthy_VStr.
    destruct (decide (trim x = "")) as [He|Hne].
    + rewrite He. exists old. split_and!; [done| |done].
      apply trim_empty in He. split; [done|]. intros ? [= <-] Hw. congruence.
    + rewrite bool_decide_true by done. exists (trim x). split_and!; [done| |done].
      split.
      * intros [Hn|(y & [= <-] & Hw)]; [done|]. by apply trim_empty in Hw.
      * by intros ? [= <-] _.
Qed.

Lemma trimOr_throw (v : value) (old : string) :
  ¬ TextOrAbsent v → ∃ e, trimOr v old = Throw e.
Proof.
  intros Hn. destruct v; simpl; eauto; destruct Hn; (by left) || (right; eauto).
Qed.

End TemplateFacts.

Module TemplateClaims.
Import JsString Js Store Http Templates JsStringFacts TemplateFacts Examples.

(** C10: an update of an existing template never changes its stored id,
    creation time and usage statistics, touches no other template and nothing
    outside the template store.  When the supplied name, description, category
    and content are strings or absent, the update succeeds: each of the four
    fields keeps its stored value if the supplied one is absent, empty or
    white space only, and otherwise takes the trimmed supplied value, so that
    a non-empty description cannot be cleared; the update time is set to the
    current time. *)
Theorem update_frame (now : Z) (templateId : string) (body : value) (s : state)
    (existing : template) :
  templateFiles s !! templateId = Some existing →
  let s' := (update now templateId body s).2 in
  (∃ t, templateFiles s' !! templateId = Some t
        ∧ t_id t = t_id existing ∧ t_createdAt t = t_createdAt existing
        ∧ t_usageCount t = t_usageCount existing
        ∧ t_lastUsed t = t_lastUsed existing)
  ∧ (∀ k, k ≠ templateId → templateFiles s' !! k = templateFiles s !! k)
  ∧ pendingAlerts s' = pendingAlerts s
  ∧ documentFiles s' = documentFiles s
  ∧ alertFiles s' = alertFiles s
  ∧ (TextFields body →
     ∃ updated summary,
       update now templateId body s = (Http200 summary, s')
       ∧ templateFiles s' !! templateId = Some updated
       ∧ t_updatedAt updated = now
       ∧ FieldRule (get "name" body) (t_name existing) (t_name updated)
       ∧ FieldRule (get "description" body) (t_description existing)
                   (t_description updated)
       ∧ FieldRule (get "category" body) (t_category existing)
                   (t_category updated)
       ∧ FieldRule (get "content" body) (t_content existing) (t_content updated)
       ∧ (t_description existing ≠ "" → t_description updated ≠ "")).
Proof.
  intros Ht s'. subst s'. unfold update. split_and!.
  - destruct (isNullish body); [by exists existing|]. rewrite Ht.
    destruct (trimOr (get "name" body) _); cbn [mbind result_bind];
      [|by exists existing].
    destruct (trimOr (get "description" body) _); cbn [mbind result_bind];
      [|by exists existing].
    destruct (trimOr (get "category" body) _); cbn [mbind result_bind];
      [|by exists existing].
    destruct (trimOr (get "content" body) _); cbn [mbind result_bind];
      [|by exists existing].
    eexists. split; [apply lookup_insert_eq|done].
  - intros k Hk. destruct (isNullish body); [done|]. rewrite Ht.
    destruct (trimOr (get "name" body) _); cbn [mbind result_bind]; [|done].
    destruct (trimOr (get "description" body) _); cbn [mbind result_bind]; [|done].
    destruct (trimOr (get "category" body) _); cbn [mbind result_bind]; [|done].
    destruct (trimOr (get "content" body) _); cbn [mbind result_bind]; [|done].
    by apply lookup_insert_ne.
  - destruct (isNullish body); [done|]. rewrite Ht. by destruct (_ ≫= _).
  - destruct (isNullish body); [done|]. rewrite Ht. by destruct (_ ≫= _).
  - destruct (isNullish body); [done|]. rewrite Ht. by destruct (_ ≫= _).
  - intros (-> & Hn & Hd & Hc & Hct). rewrite Ht.
    destruct (trimOr_text _ (t_name existing) Hn) as (n & -> & Hrn & _).
    destruct (trimOr_text _ (t_description existing) Hd) as (d & -> & Hrd & Hkeep).
    destruct (trimOr_text _ (t_category existing) Hc) as (c & -> & Hrc & _).
    destruct (trimOr_text _ (t_content existing) Hct) as (ct & -> & Hrct & _).
    cbn [mbind result_bind]. eexists _, _. split; [reflexivity|].
    split; [apply lookup_insert_eq|]. done.
Qed.

Lemma update_frame_witness :
  let body := VObj [("name", VStr "  Postmortem "); ("description", VStr "   ");
                    ("content", VStr "")] in
  let s' := (update (exampleNow + 1) (uuidv4 0) body oneTemplate).2 in
  ∃ updated,
    templateFiles s' !! uuidv4 0 = Some updated
    ∧ t_name updated = "Postmortem"
    ∧ t_content updated = "Alert: {{alert.title}}"
    ∧ t_updatedAt updated = exampleNow + 1
    ∧ t_createdAt updated = exampleNow
    ∧ t_usageCount updated = Some 0%nat.
Proof.
  cbv zeta.
  assert (∃ t, templateFiles oneTemplate !! uuidv4 0 = Some t
               ∧ t_name t = "Incident report"
               ∧ t_content t = "Alert: {{alert.title}}"
               ∧ t_createdAt t = exampleNow
               ∧ t_usageCount t = Some 0%nat)
    as (existing & Ht & Hname & Hcontent & Hcreated & Husage)
    by (vm_compute; eexists; split_and!; reflexivity).
  destruct (update_frame (exampleNow + 1) (uuidv4 0)
              (VObj [("name", VStr "  Postmortem "); ("description", VStr "   ");
                     ("content", VStr "")]) oneTemplate existing Ht)
    as ((t & Hlook & _ & Hc & Hu & _) & _ & _ & _ & _ & Hok).
  destruct Hok as (updated & _ & _ & Hlook' & Hstamp & [_ Hn] & _ & _ & [Hct _] & _).
  { split_and!; [done|right; eauto|right; eauto|by left|right; eauto]. }
  exists updated. rewrite Hlook in Hlook'. injection Hlook' as <-.
  split_and!; [done| | |done|congruence|congruence].
  - by rewrite (Hn _ eq_refl eq_refl).
  - rewrite Hct; [done|]. right. by exists "".
Defined.

End TemplateClaims.

(** ** Document search *)

Module SearchFacts.
Import JsString Js External Store Documents JsStringFacts.

(** Matching as the specification words it: the lowercased query occurs in
    the lowercased title, content, or JSON rendering of the source alert. *)
Definition claimedMatch (query : string) (d : document) : bool :=
  let searchTerm := toLowerCase query in
  includes searchTerm (toLowerCase (d_title d))
  || includes searchTerm (toLowerCase (d_content d))
  || from_option (λ json, includes searchTerm (toLowerCase json)) false
                 (stringify None (d_originalAlert d)).

#[global] Instance newerFirst_total : Total newerFirst.
Proof. intros a b. unfold newerFirst. lia. Qed.

Lemma elem_of_search (query : string) (s : state) (r : match_) :
  r ∈ search query s
  ↔ ∃ k d, documentFiles s !! k = Some d
           ∧ Contains (toLowerCase query) (searchableText d)
           ∧ r = toMatch d.
Proof.
  unfold search. rewrite merge_sort_Permutation, list_elem_of_omap. split.
  - intros ([k d] & Hin%elem_of_map_to_list & Hm). simpl in Hm.
    destruct (includes _ _) eqn:Hi; [|done]. apply includes_spec in Hi.
    injection Hm as <-. by exists k, d.
  - intros (k & d & Hd & Hc%includes_spec & ->). exists (k, d).
    split; [by apply elem_of_map_to_list|]. simpl. by rewrite Hc.
Qed.

Lemma elem_of_netlify_search (query : string)
    (documents : list NetlifyDocuments.document) (d : NetlifyDocuments.document) :
  d ∈ NetlifyDocuments.search query documents
  ↔ d ∈ documents
    ∧ (Contains (toLowerCase query) (toLowerCase (NetlifyDocuments.title d))
       ∨ Contains (toLowerCase query) (toLowerCase (NetlifyDocuments.content d))
       ∨ (truthy (NetlifyDocuments.alert_data d) = true
          ∧ ∃ json, stringify None (NetlifyDocuments.alert_data d) = Some json
                    ∧ Contains (toLowerCase query) (toLowerCase json))).
Proof.
  unfold NetlifyDocuments.search. rewrite !list_elem_of_In, filter_In.
  rewrite !orb_true_iff, andb_true_iff, !includes_spec.
  destruct (stringify None (NetlifyDocuments.alert_data d)) as [json|]; simpl.
  - rewrite includes_spec. naive_solver.
  - naive_solver.
Qed.

End SearchFacts.

Module SearchClaims.
Import JsString Js External Store Http Webhook Server Documents.
Import JsStringFacts SearchFacts Examples.

(** C8, as amended: for every stored document set and every query, the
    search of the server returns, newest first, exactly one match for each
    stored document such that the lowercased query is a substring of the
    lowercased text made of the title, a space, the content, a space and the
    alert type; each match carries as snippet the first 200 characters of the
    content followed by three dots.  The search of the serverless variant
    returns exactly the stored documents such that the lowercased query is a
    substring of the lowercased title, content, or JSON rendering of a truthy
    source alert, and returns them whole, without a snippet. *)
Theorem search_spec (query : string) (s : state)
    (documents : list NetlifyDocuments.document) :
  (∀ r, r ∈ search query s
        ↔ ∃ k d, documentFiles s !! k = Some d
                 ∧ Contains (toLowerCase query)
                     (toLowerCase (d_title d +:+ " " +:+ d_content d +:+ " "
                                   +:+ toString (d_alertType d)))
                 ∧ r = toMatch d)
  ∧ (∀ d, m_snippet (toMatch d) = take 200 (d_content d) +:+ "..."
          ∧ String.length (take 200 (d_content d))
            = (200 `min` String.length (d_content d))%nat
          ∧ take 200 (d_content d) +:+ drop 200 (d_content d) = d_content d)
  ∧ Sorted newerFirst (search query s)
  ∧ (∀ d, d ∈ NetlifyDocuments.search query documents
          ↔ d ∈ documents
            ∧ (Contains (toLowerCase query) (toLowerCase (NetlifyDocuments.title d))
               ∨ Contains (toLowerCase query)
                   (toLowerCase (NetlifyDocuments.content d))
               ∨ (truthy (NetlifyDocuments.alert_data d) = true
                  ∧ ∃ json,
                      stringify None (NetlifyDocuments.alert_data d) = Some json
                      ∧ Contains (toLowerCase query) (toLowerCase json)))).
Proof.
  split_and!.
  - intros r. apply elem_of_search.
  - intros d. split_and!; [done|apply take_length|apply take_drop].
  - unfold search. apply (Sorted_merge_sort newerFirst).
  - intros d. apply elem_of_netlify_search.
Qed.

(** C8, as stated, fails on the server: the query zebra occurs in the JSON
    rendering of the source alert of the one stored document, and in neither
    its title, its content nor its alert type; the search returns nothing. *)
Lemma search_misses_source_alert :
  (∃ d, map_to_list (documentFiles zebraProcessed) = [(uuidv4 2, d)]
        ∧ claimedMatch "zebra" d = true)
  ∧ search "zebra" zebraProcessed = [].
Proof. split; [eexists; split|]; by vm_compute. Qed.

End SearchClaims.

(** ** The model on concrete inputs *)

Module ModelExamples.
Import JsString Js External Store Http DocumentGenerator Webhook Server Documents.
Import Examples.

Example lower_mixed : toLowerCase "Anomaly DETECTED on Host-7" = "anomaly detected on host-7".
Proof. reflexivity. Qed.

Example remove_first_only :
  removeFirst "[Triggered]" "[Triggered] a [Triggered] b" = " a [Triggered] b".
Proof. reflexivity. Qed.

Example trim_both_ends : trim "   CPU high on web-1  " = "CPU high on web-1".
Proof. reflexivity. Qed.

Example text_payload :
  normalizeText 7 "[Triggered] CPU high on web-1
Anomaly Detected at 10:00"
  = VObj [("alert_type", VStr "error");
          ("title", VStr "CPU high on web-1");
          ("message", VStr "[Triggered] CPU high on web-1
Anomaly Detected at 10:00");
          ("priority", VStr "high");
          ("timestamp", VNum 7);
          ("source", VStr "datadog_text")].
Proof. reflexivity. Qed.

Example recovery_payload :
  get "alert_type" (normalizeText 7 "[Recovery] CPU back to normal") = VStr "recovery"
  ∧ get "title" (normalizeText 7 "[Recovery] CPU back to normal")
    = VStr "CPU back to normal".
Proof. split; reflexivity. Qed.

Example json_payload :
  let payload := VObj [("event_type", VStr "metric_alert");
                       ("event_title", VStr "Disk full"); ("id", VNum 42)] in
  get "alert_type" (normalizeJson 7 payload) = VStr "metric_alert"
  ∧ get "title" (normalizeJson 7 payload) = VStr "Disk full"
  ∧ get "id" (normalizeJson 7 payload) = VNum 42
  ∧ get "priority" (normalizeJson 7 payload) = VStr "medium".
Proof. split_and!; reflexivity. Qed.

(** The keys of the fingerprint input are sorted, and [org] and [id] enter
    only when present. *)
Example fingerprint_input :
  hashString exampleNow
    (VObj [("alert_type", VStr "error"); ("title", VStr "CPU high");
           ("id", VNum 42)])
  = "{" +:+ quote "alert_type" +:+ ":" +:+ quote "error" +:+ ","
    +:+ quote "id" +:+ ":42,"
    +:+ quote "timeWindow" +:+ ":5666666,"
    +:+ quote "title" +:+ ":" +:+ quote "CPU high" +:+ "}".
Proof. reflexivity. Qed.

Example window_rolls_over :
  timeWindow 1700000099999 = timeWindow 1700000000000
  ∧ timeWindow 1700000100000 = timeWindow 1700000000000 + 1.
Proof. split; reflexivity. Qed.

Example priority_cases :
  determinePriority (VObj [("priority", VStr "P1 - CRITICAL")]) = Ok "high"
  ∧ determinePriority (VObj [("priority", VStr "Warn"); ("alert_type", VStr "error")])
    = Ok "medium"
  ∧ determinePriority (VObj [("priority", VStr "urgent"); ("alert_type", VStr "error")])
    = Ok "high"
  ∧ determinePriority (VObj [("alert_type", VStr "metric anomaly")]) = Ok "medium"
  ∧ determinePriority (VObj [("alert_type", VStr "low disk")]) = Ok "low".
Proof. split_and!; reflexivity. Qed.

Example tags_env_service :
  let tags := VArr [VStr "env:prod"; VStr "service:api"; VStr "owner"] in
  extractTag tags "env" = VStr "prod"
  ∧ extractTag tags "service" = VStr "api"
  ∧ extractTag tags "team" = VStr ""
  ∧ extractTag VUndef "env" = VStr "".
Proof. split_and!; reflexivity. Qed.

Example update_usage_twice :
  let render := λ s, (generateDocument exampleLib exampleNow
                        (normalizeText exampleNow "[Triggered] CPU high")
                        (VStr (uuidv4 0)) s).2 in
  t_usageCount <$> templateFiles (render (render oneTemplate)) !! uuidv4 0
  = Some (Some 2%nat).
Proof. by vm_compute. Qed.

Example search_by_alert_type :
  m_id <$> search "ERROR" zebraProcessed = [uuidv4 2].
Proof. by vm_compute. Qed.

End ModelExamples.

(** ** The records of the alerts *)

Module AlertRecordFacts.
Import JsString Js External Store Http DocumentGenerator Webhook Server.
Import JsStringFacts NormalizeFacts ServerFacts DedupFacts.

(** The payload was built by the normalisation of some request body. *)
Definition Normalized (p : value) : Prop := ∃ now body, normalize now body = Some p.

(** An alert as ingest stores it. *)
Definition Awaiting (a : alertData) : Prop :=
  a_status a = "pending_template_selection"
  ∧ a_processedAt a = None ∧ a_documentId a = None
  ∧ Normalized (a_originalPayload a).

(** The record [a'] that a successful process writes for the alert [a]. *)
Definition ProcessedFrom (a a' : alertData) : Prop :=
  a_id a' = a_id a ∧ a_timestamp a' = a_timestamp a
  ∧ a_alertHash a' = a_alertHash a
  ∧ a_originalPayload a' = a_originalPayload a
  ∧ a_status a' = "processed"
  ∧ is_Some (a_processedAt a') ∧ is_Some (a_documentId a').

(** What a request does to the pending [Map] and to data/alerts. *)
Inductive AlertEffect (s s' : state) : Prop :=
| alerts_kept :
    pendingAlerts s' = pendingAlerts s → alertFiles s' = alertFiles s →
    AlertEffect s s'
| alerts_processed (k : string) (a a' : alertData) :
    mapGet k (pendingAlerts s) = Some a →
    pendingAlerts s' = mapDelete k (pendingAlerts s) →
    alertFiles s' = <[k := a']> (alertFiles s) →
    ProcessedFrom a a' →
    AlertEffect s s'
| alerts_added (a : alertData) :
    pendingAlerts s' = pendingAlerts s ++ [(uuidv4 (uuidDrawn s), a)] →
    alertFiles s' = <[uuidv4 (uuidDrawn s) := a]> (alertFiles s) →
    a_id a = uuidv4 (uuidDrawn s) →
    Awaiting a →
    AlertEffect s s'.

(** Memory and disk agree on the pending alerts, none of which has been
    touched since it was stored. *)
Definition Synced (s : state) : Prop :=
  ∀ k a, (k, a) ∈ pendingAlerts s → Awaiting a ∧ alertFiles s !! k = Some a.


Lemma mapGet_mapDelete_eq (m : list (string * alertData)) k :
  mapGet k (mapDelete k m) = None.
Proof.
  apply assoc_None. intros ([k' a] & Hk & Hin)%list_elem_of_fmap.
  apply elem_of_mapDelete in Hin as [_ Hne]. by simpl in Hk.
Qed.


Lemma mapGet_app_ne (m : list (string * alertData)) k k' a :
  k ≠ k' → mapGet k' (m ++ [(k, a)]) = mapGet k' m.
Proof.
  intros Hne. unfold mapGet. induction m as [|[k0 a0] m IH]; simpl.
  - by rewrite decide_False.
  - case_decide; [done|exact IH].
Qed.

Lemma normalized_priority (now : Z) (body alert : value) :
  normalize now body = Some alert →
  determinePriority alert =
    Ok (match body with
        | VStr text => if includes "anomaly" (toLowerCase text) then "high"
                       else "medium"
        | _ => "medium"
        end).
Proof.
  destruct body as [| | | |text|items|props]; intros [= <-]; try reflexivity.
  unfold determinePriority.
  trans (match (if includes "anomaly" (toLowerCase text)
                then Some "high" else Some "medium") with
         | Some r => @Ok string r
         | None => Ok "medium"
         end); [|by destruct (includes "anomaly" (toLowerCase text))].
  change (isNullish (normalizeText now text)) with false. cbv iota.
  change (or (get "priority" (normalizeText now text))
             (get "alert_type" (normalizeText now text)))
    with (or (VStr (if includes "anomaly" (toLowerCase text)
                    then "high" else "medium"))
             (get "alert_type" (normalizeText now text))).
  by destruct (includes "anomaly" (toLowerCase text)).
Qed.

Section WithLib.
Context (L : Lib).


Lemma ingest_alert_effect now body s :
  WellKeyed s → AlertEffect s (ingest L now body s).2.
Proof.
  intros [Hnd Hkeys]. unfold ingest.
  destruct (normalize now body) as [alert|] eqn:Hn; [|by apply alerts_kept].
  rewrite (ensureTitle_normalize now body alert Hn).
  destruct (List.find _ _) eqn:Hf; [by apply alerts_kept|].
  cbn. eapply alerts_added; cbn.
  - unfold mapSet. apply assocSet_fresh.
    intros ([k a] & Hk & Hin)%list_elem_of_fmap. simpl in Hk.
    destruct (Hkeys _ _ Hin) as (_ & n & Hlt & ->).
    apply (inj uuidv4) in Hk. lia.
  - done.
  - done.
  - split_and!; [done..|]. by exists now, body.
Qed.

Lemma process_alert_effect now alertId templateId s :
  AlertEffect s (process L now alertId templateId s).2.
Proof.
  unfold process. destruct (negb (truthy templateId)); [by apply alerts_kept|].
  destruct (mapGet alertId (pendingAlerts s)) as [a|] eqn:Hat;
    [|by apply alerts_kept].
  destruct (generateDocument_frame L now (a_originalPayload a) templateId s)
    as (Hp & Hf & _).
  destruct (generateDocument L now (a_originalPayload a) templateId s)
    as [[document|e] s1]; cbn in Hp, Hf |- *.
  - eapply (alerts_processed _ _ alertId a); cbn; [done|by rewrite Hp|by rewrite Hf|].
    unfold ProcessedFrom. cbn. split_and!; eauto.
  - by apply alerts_kept.
Qed.

Lemma handle_alert_effect now r s :
  WellKeyed s → AlertEffect s (handle L now r s).
Proof.
  intros Hwk. destruct r as [body|k tid|body|k body|k]; simpl.
  - by apply ingest_alert_effect.
  - apply process_alert_effect.
  - unfold Templates.create. destruct (isNullish body); [by apply alerts_kept|].
    destruct (_ || _); [by apply alerts_kept|].
    cbn [drawUuid]. by destruct (_ ≫= _); apply alerts_kept.
  - unfold Templates.update. destruct (isNullish body); [by apply alerts_kept|].
    destruct (templateFiles s !! k); [|by apply alerts_kept].
    by destruct (_ ≫= _); apply alerts_kept.
  - unfold Templates.delete.
    by destruct (templateFiles s !! k); apply alerts_kept.
Qed.

Lemma effect_Synced s s' : WellKeyed s → Synced s → AlertEffect s s' → Synced s'.
Proof.
  intros [Hnd Hkeys] Hsync [Hp Hf|k0 a0 a0' Hat Hp Hf Hfrom|a0 Hp Hf Hid Haw] k a;
    rewrite Hp, Hf.
  - apply Hsync.
  - intros [Hin Hne]%elem_of_mapDelete. rewrite lookup_insert_ne by done.
    by apply Hsync.
  - intros [Hin|[= -> ->]%list_elem_of_singleton]%elem_of_app.
    + rewrite lookup_insert_ne; [by apply Hsync|].
      intros <-. destruct (Hkeys _ _ Hin) as (_ & n & Hlt & Heq).
      apply (inj uuidv4) in Heq. lia.
    + by rewrite lookup_insert_eq.
Qed.

Lemma reachable_Synced s : reachable L s → Synced s.
Proof.
  induction 1 as [s Hs|now r s Hr IH].
  - intros k a Hin. rewrite Hs in Hin. by apply elem_of_nil in Hin.
  - destruct (reachable_invariant L s Hr) as [Hwk _].
    apply (effect_Synced s); [done..|]. by apply handle_alert_effect.
Qed.



End WithLib.
End AlertRecordFacts.

(** ** The life of an alert: listing, processing, records *)

Module WebhookExtras.
Import JsString Js External Store Http DocumentGenerator Webhook Server.
Import JsStringFacts NormalizeFacts ValidationFacts ServerFacts DedupFacts.
Import GeneratorFacts AlertRecordFacts Examples.

(** The summary of an alert whose payload is an object. *)
Definition summaryOf (a : alertData) : WebhookQueries.pendingSummary :=
  {| WebhookQueries.ps_id := a_id a;
     WebhookQueries.ps_timestamp := a_timestamp a;
     WebhookQueries.ps_alertType := get "alert_type" (a_originalPayload a);
     WebhookQueries.ps_title :=
       or (get "title" (a_originalPayload a)) (VStr "Untitled Alert");
     WebhookQueries.ps_priority :=
       or (get "priority" (a_originalPayload a)) (VStr "normal");
     WebhookQueries.ps_status := a_status a |}.

(** What every summary of a queued alert shows. *)
Definition QueuedSummary (x : WebhookQueries.pendingSummary) : Prop :=
  WebhookQueries.ps_status x = "pending_template_selection"
  ∧ (WebhookQueries.ps_priority x = VStr "high"
     ∨ WebhookQueries.ps_priority x = VStr "medium")
  ∧ truthy (WebhookQueries.ps_alertType x) = true
  ∧ truthy (WebhookQueries.ps_title x) = true.

(** The priority hint that normalisation gives a request body. *)
Definition hintOf (body : value) : string :=
  match body with
  | VStr text => if includes "anomaly" (toLowerCase text) then "high" else "medium"
  | _ => "medium"
  end.

#[local] Instance newerAlert_total : Total WebhookQueries.newerAlert.
Proof. intros a b. unfold WebhookQueries.newerAlert. lia. Qed.

Lemma Normalized_not_nullish (p : value) : Normalized p → isNullish p = false.
Proof. intros (now & body & Hn). destruct body; by simplify_eq/=. Qed.

Lemma or_truthy (x : value) (fallback : string) :
  fallback ≠ "" → truthy (or x (VStr fallback)) = true.
Proof.
  intros Hf. unfold or. destruct (truthy x) eqn:Hx; [done|].
  by destruct fallback.
Qed.

Lemma toSummaries_ok (l : list alertData) :
  Forall (λ a, isNullish (a_originalPayload a) = false) l →
  WebhookQueries.toSummaries l = Ok (summaryOf <$> l).
Proof.
  induction 1 as [|a l Ha _ IH]; [done|]. simpl.
  unfold WebhookQueries.toSummary, WebhookQueries.payloadField. rewrite Ha.
  cbn [mbind result_bind]. by rewrite IH.
Qed.

Lemma filter_all {A} (f : A → bool) (l : list A) :
  Forall (λ x, f x = true) l → List.filter f l = l.
Proof. induction 1 as [|x l Hx _ IH]; simpl; [done|]. by rewrite Hx, IH. Qed.

Lemma Normalized_summary (a : alertData) :
  Awaiting a → QueuedSummary (summaryOf a).
Proof.
  intros (Hst & _ & _ & now & body & Hn). unfold QueuedSummary. cbn.
  split; [done|]. destruct body as [| | | |text|items|props]; simplify_eq/=;
    rewrite <-Hn.
  - split_and!.
    + destruct (includes "anomaly" (toLowerCase text)) eqn:Hi.
      * left. cbv -[includes toLowerCase]. by rewrite Hi.
      * right. cbv -[includes toLowerCase]. by rewrite Hi.
    + cbv -[includes]. by repeat destruct (includes _ text).
    + by apply or_truthy.
  - split_and!; [by right|apply normalizeJson_alert_type|].
    by apply or_truthy.
  - split_and!; [by right|apply normalizeJson_alert_type|].
    by apply or_truthy.
Qed.

Lemma generateDocument_document (L : Lib) now alertData templateId s d s' :
  generateDocument L now alertData templateId s = (Ok d, s') →
  d_originalAlert d = alertData
  ∧ determinePriority alertData = Ok (d_priority d)
  ∧ d_templateId d = templateId
  ∧ d_status d = "generated" ∧ d_createdAt d = now
  ∧ ∃ t, templateFiles s !! toString templateId = Some t
         ∧ d_templateName d = t_name t.
Proof.
  unfold generateDocument, loadTemplate.
  destruct (templateFiles s !! toString templateId) as [t|]; [|done].
  destruct (_ ≫= _) as [text|e]; [|done]. cbn [drawUuid].
  destruct (determinePriority alertData) as [priority|e]; [|done].
  intros [= <- _]. cbn. split_and!; eauto.
Qed.

Lemma process_unfold (L : Lib) now k templateId s a :
  truthy templateId = true →
  pendingAt k s = Some a →
  process L now k templateId s =
    match generateDocument L now (a_originalPayload a) templateId s with
    | (Throw error, s1) => (Http500 "Failed to process alert" (message error), s1)
    | (Ok document, s1) =>
        (Http200 {| p_alertId := k; p_documentId := d_id document;
                    p_document := document |},
         withPending (mapDelete k (pendingAlerts s1))
           (withAlertFiles
              (<[k := {| a_id := a_id a; a_timestamp := a_timestamp a;
                         a_alertHash := a_alertHash a;
                         a_originalPayload := a_originalPayload a;
                         a_status := "processed"; a_processedAt := Some now;
                         a_documentId := Some (d_id document);
                         a_templateId := templateId |}]> (alertFiles s1)) s1))
    end.
Proof.
  intros Ht Hat. unfold process, pendingAt in *. rewrite Ht, Hat. cbn [negb].
  by destruct (generateDocument L now (a_originalPayload a) templateId s)
    as [[d|e] s1].
Qed.

(** GET /pending lists every queued alert once, newest first: the count is
    the size of the pending [Map], and every summary shows the pending
    status, a truthy alert type and title, and the priority high or medium
    (never the fallback normal). *)
Theorem pending_lists_every_alert (L : Lib) (s : state) :
  reachable L s →
  ∃ summaries,
    WebhookQueries.pending s = Http200 (length (pendingAlerts s), summaries)
    ∧ WebhookQueries.ps_id <$> summaries ≡ₚ (pendingAlerts s).*1
    ∧ Forall QueuedSummary summaries
    ∧ Sorted (λ x y, WebhookQueries.ps_timestamp y ≤ WebhookQueries.ps_timestamp x)
             summaries.
Proof.
  intros Hs. destruct (reachable_invariant L s Hs) as [[Hnd Hkeys] _].
  pose proof (reachable_Synced L s Hs) as Hsync.
  assert (Forall Awaiting (mapValues (pendingAlerts s))) as Hall.
  { apply Forall_forall. intros a [k Hin]%elem_of_mapValues.
    by destruct (Hsync k a Hin). }
  assert (WebhookQueries.listedAlerts s ≡ₚ mapValues (pendingAlerts s)) as Hperm.
  { unfold WebhookQueries.listedAlerts. rewrite merge_sort_Permutation.
    rewrite filter_all; [done|]. eapply Forall_impl; [exact Hall|].
    intros a (Hst & _). by apply bool_decide_eq_true. }
  assert (Forall Awaiting (WebhookQueries.listedAlerts s)) as Hall'
    by (by rewrite Hperm).
  exists (summaryOf <$> WebhookQueries.listedAlerts s). split_and!.
  - unfold WebhookQueries.pending. rewrite toSummaries_ok.
    + do 2 f_equal. rewrite Hperm. unfold mapValues. by rewrite length_fmap.
    + eapply Forall_impl; [exact Hall'|]. intros a (_ & _ & _ & Hn).
      by apply Normalized_not_nullish.
  - rewrite <-list_fmap_compose, Hperm. unfold mapValues.
    rewrite <-list_fmap_compose.
    assert ((WebhookQueries.ps_id ∘ summaryOf ∘ snd) <$> pendingAlerts s
            = (pendingAlerts s).*1) as ->; [|done].
    apply list_fmap_ext. intros i [k a] Hin%list_elem_of_lookup_2. simpl.
    by destruct (Hkeys k a Hin).
  - apply Forall_fmap. eapply Forall_impl; [exact Hall'|].
    intros a Ha. by apply Normalized_summary.
  - apply (Sorted_fmap _ WebhookQueries.newerAlert); [done|].
    apply (Sorted_merge_sort WebhookQueries.newerAlert).
Qed.

Lemma pending_lists_every_alert_witness :
  let s := run exampleLib [(exampleNow, Ingest cpuAlert);
                           (exampleNow + 1, Ingest diskAlert)] emptyState in
  ∃ summaries,
    WebhookQueries.pending s = Http200 (length (pendingAlerts s), summaries)
    ∧ WebhookQueries.ps_id <$> summaries ≡ₚ (pendingAlerts s).*1
    ∧ Forall QueuedSummary summaries
    ∧ Sorted (λ x y, WebhookQueries.ps_timestamp y ≤ WebhookQueries.ps_timestamp x)
             summaries.
Proof.
  apply (pending_lists_every_alert exampleLib), reachable_run, reachable_start.
  reflexivity.
Defined.

Lemma Drawn_pending (L : Lib) (s : state) (k : string) (a : alertData) :
  reachable L s → pendingAt k s = Some a → Drawn k s ∧ a_id a = k.
Proof.
  intros [[_ Hkeys] _]%reachable_invariant Hat%assoc_Some_elem.
  destruct (Hkeys k a Hat) as [? ?]. done.
Qed.

Lemma mapGet_mapDelete_None (m : list (string * alertData)) k k' :
  mapGet k m = None → mapGet k (mapDelete k' m) = None.
Proof.
  unfold mapGet. rewrite !assoc_None.
  intros Hk ([k0 a] & Hk0 & Hin)%list_elem_of_fmap. simpl in Hk0. subst k0.
  apply elem_of_mapDelete in Hin as [Hin _]. apply Hk.
  by apply (list_elem_of_fmap_2 fst) in Hin.
Qed.

Lemma run_app (L : Lib) (t1 t2 : list (Z * request)) (s : state) :
  run L (t1 ++ t2) s = run L t2 (run L t1 s).
Proof. revert s. induction t1 as [|[now r] t1 IH]; intros s; simpl; [done|apply IH]. Qed.

(** An identifier that has been drawn and is not pending never becomes
    pending again. *)
Lemma run_not_pending (L : Lib) (trace : list (Z * request)) (s : state) k :
  reachable L s → Drawn k s → pendingAt k s = None →
  pendingAt k (run L trace s) = None.
Proof.
  revert s. induction trace as [|[now r] trace IH]; intros s Hs Hk Hat; simpl;
    [done|].
  destruct (reachable_invariant L s Hs) as [Hwk _].
  apply IH; [by apply reachable_handle| |].
  - destruct Hk as (n & Hlt & ->). exists n. split; [|done].
    pose proof (effect_drawn _ _ (handle_effect L now r s Hwk)). lia.
  - unfold pendingAt in *.
    destruct (handle_alert_effect L now r s Hwk)
      as [Hp _|k0 a0 a0' _ Hp _ _|a0 Hp _ _ _]; rewrite Hp.
    + done.
    + by apply mapGet_mapDelete_None.
    + destruct Hk as (n & Hlt & ->). rewrite mapGet_app_ne; [done|].
      intros Heq%(inj uuidv4). lia.
Qed.







(** An alert is processed at most once: after a successful
    POST /process/:alertId, every later request to process that id, with
    whatever template, is answered 404 and changes nothing, however many
    alerts have been ingested in between. *)
Theorem process_at_most_once (L : Lib) (s s' : state) (now now' : Z) (k : string)
    (templateId templateId' : value) (p : processReply)
    (trace : list (Z * request)) :
  reachable L s →
  process L now k templateId s = (Http200 p, s') →
  truthy templateId' = true →
  process L now' k templateId' (run L trace s')
  = (Http404 "Alert not found"
       ("Alert with ID " +:+ k +:+ " not found or already processed"),
     run L trace s').
Proof.
  intros Hs Hp Ht.
  destruct (process_ok L now k templateId s p s' Hs Hp) as (a & Hat & Hpend & _ & Hle).
  destruct (Drawn_pending L s k a Hs Hat) as [(n & Hlt & ->) _].
  assert (s' = handle L now (Process (uuidv4 n) templateId) s) as Hs'
    by (simpl; by rewrite Hp).
  assert (pendingAt (uuidv4 n) (run L trace s') = None) as Hnone.
  { apply run_not_pending.
    - rewrite Hs'. by apply reachable_handle.
    - exists n. split; [lia|done].
    - unfold pendingAt. rewrite Hpend. apply mapGet_mapDelete_eq. }
  unfold process. rewrite Ht. unfold pendingAt in Hnone. by rewrite Hnone.
Qed.

Lemma process_at_most_once_witness :
  let s := run exampleLib [(exampleNow, Ingest cpuAlert)] oneTemplate in
  let s' := (process exampleLib exampleNow (uuidv4 1) (VStr (uuidv4 0)) s).2 in
  let trace := [(exampleNow + 1, Ingest cpuAlert); (exampleNow + 2, Ingest diskAlert)] in
  process exampleLib (exampleNow + 3) (uuidv4 1) (VStr (uuidv4 0)) (run exampleLib trace s')
  = (Http404 "Alert not found"
       ("Alert with ID " +:+ uuidv4 1 +:+ " not found or already processed"),
     run exampleLib trace s').
Proof.
  intros s s' trace.
  assert (∃ p, (process exampleLib exampleNow (uuidv4 1) (VStr (uuidv4 0)) s).1
               = Http200 p) as [p Hp] by (vm_compute; eexists; reflexivity).
  apply (process_at_most_once exampleLib s s' exampleNow _ _ (VStr (uuidv4 0)) _ p).
  - apply reachable_run.
    apply (reachable_handle exampleLib exampleNow (CreateTemplate reportTemplate)).
    by apply reachable_start.
  - rewrite <-Hp. apply surjective_pairing.
  - reflexivity.
Defined.

(** The priority of a generated document comes from the hint that
    normalisation wrote, not from the alert type: a document made from a
    JSON payload has priority medium whatever the payload says, and one made
    from a text payload has priority high exactly when the lowercased text
    contains anomaly, and medium otherwise. *)
Theorem document_priority_is_hint (L : Lib) (s s' : state) (now : Z) (k : string)
    (templateId : value) (p : processReply) :
  reachable L s →
  process L now k templateId s = (Http200 p, s') →
  ∃ received body,
    normalize received body = Some (d_originalAlert (p_document p))
    ∧ d_priority (p_document p) = hintOf body
    ∧ (Structured body → d_priority (p_document p) = "medium")
    ∧ (∀ text, body = VStr text →
         (d_priority (p_document p) = "high"
          ↔ Contains "anomaly" (toLowerCase text))).
Proof.
  intros Hs Hp.
  assert (truthy templateId = true) as Ht.
  { unfold process in Hp. by destruct (truthy templateId). }
  destruct (pendingAt k s) as [a|] eqn:Hat.
  2: { unfold process, pendingAt in *. by rewrite Ht, Hat in Hp. }
  rewrite (process_unfold L now k templateId s a Ht Hat) in Hp.
  destruct (generateDocument L now (a_originalPayload a) templateId s)
    as [[d|e] s1] eqn:Hg; [|done].
  destruct (generateDocument_document L _ _ _ _ _ _ Hg) as (Horig & Hpr & _).
  injection Hp as <- <-. cbn.
  pose proof Hat as Hin%assoc_Some_elem.
  destruct (reachable_Synced L s Hs k a Hin)
    as [(_ & _ & _ & received & body & Hn) _].
  pose proof (normalized_priority received body _ Hn) as Hhint.
  assert (d_priority d = hintOf body) as Hd by (unfold hintOf; congruence).
  exists received, body. rewrite Horig. split_and!; [done..| |].
  - rewrite Hd. by destruct body.
  - intros text ->. rewrite Hd. simpl. rewrite <-includes_spec.
    by destruct (includes "anomaly" (toLowerCase text)).
Qed.

Lemma document_priority_is_hint_witness :
  let body := VObj [("alert_type", VStr "error"); ("priority", VStr "critical");
                    ("title", VStr "Disk full")] in
  let s := run exampleLib [(exampleNow, Ingest body)] oneTemplate in
  ∃ p s', process exampleLib exampleNow (uuidv4 1) (VStr (uuidv4 0)) s = (Http200 p, s')
    ∧ d_priority (p_document p) = "medium"
    ∧ ∃ received body,
    normalize received body = Some (d_originalAlert (p_document p))
    ∧ d_priority (p_document p) = hintOf body
    ∧ (Structured body → d_priority (p_document p) = "medium")
    ∧ (∀ text, body = VStr text →
         (d_priority (p_document p) = "high"
          ↔ Contains "anomaly" (toLowerCase text))).
Proof.
  intros body s.
  assert (∃ p s', process exampleLib exampleNow (uuidv4 1) (VStr (uuidv4 0)) s
                  = (Http200 p, s') ∧ d_priority (p_document p) = "medium")
    as (p & s' & Hp & Hpr) by (vm_compute; eexists _, _; split; reflexivity).
  exists p, s'. split_and!; [exact Hp|exact Hpr|].
  apply (document_priority_is_hint exampleLib s s' exampleNow (uuidv4 1)
           (VStr (uuidv4 0)) p); [|exact Hp].
  apply reachable_run.
  apply (reachable_handle exampleLib exampleNow (CreateTemplate reportTemplate)).
  by apply reachable_start.
Defined.

End WebhookExtras.

(** ** Templates: creation, upload, listing, deletion *)

Module TemplateExtras.
Import JsString Js External Store Http DocumentGenerator Webhook Server.
Import Templates TemplateRoutes.
Import JsStringFacts NormalizeFacts ValidationFacts ServerFacts TemplateFacts.
Import AlertRecordFacts Examples.

Definition isDigit (c : ascii) : bool := ((48 <=? code c) && (code c <=? 57))%N.

(** The fields of a creation request that [trim] applies to. *)
Definition CreateFields (body : value) : Prop :=
  IsText (get "name" body) ∧ TextOrAbsent (get "description" body)
  ∧ (get "category" body = VUndef ∨ IsText (get "category" body)).

(** The description and the category that creation stores. *)
Definition storedDescription (body : value) : string :=
  match get "description" body with VStr d => trim d | _ => "" end.

Definition storedCategory (body : value) : string :=
  match get "category" body with VStr c => trim c | _ => "general" end.

(** The template is stored under its id, served and listed, and nothing
    else has changed since [s]. *)
Definition StoredIn (t : template) (s s' : state) : Prop :=
  templateFiles s' = <[t_id t := t]> (templateFiles s)
  ∧ getTemplate (t_id t) s' = Http200 t
  ∧ t ∈ (listTemplates s').2
  ∧ pendingAlerts s' = pendingAlerts s ∧ alertFiles s' = alertFiles s
  ∧ documentFiles s' = documentFiles s.

(** Nothing is stored or removed. *)
Definition SameFiles (s s' : state) : Prop :=
  templateFiles s' = templateFiles s ∧ pendingAlerts s' = pendingAlerts s
  ∧ alertFiles s' = alertFiles s ∧ documentFiles s' = documentFiles s.

#[local] Instance newerTemplate_total : Total newerTemplate.
Proof. intros a b. unfold newerTemplate. lia. Qed.

Lemma pretty_N_char_digit (x : N) : isDigit (pretty_N_char x) = true.
Proof. unfold pretty_N_char. by repeat case_match. Qed.

Lemma pretty_N_go_head (x : N) (s : string) :
  (0 < x)%N → ∃ c r, pretty_N_go x s = String c r ∧ isDigit c = true.
Proof.
  revert s. induction (N.lt_wf_0 x) as [x _ IH]. intros s Hx.
  rewrite pretty_N_go_step by done.
  destruct (decide (x `div` 10 = 0)%N) as [->|Hne].
  - rewrite pretty_N_go_0. eexists _, _. split; [done|]. apply pretty_N_char_digit.
  - apply IH; [apply N.div_lt; lia|]. by apply N.neq_0_lt_0.
Qed.

(** An identifier starts with a digit. *)
Lemma uuidv4_head (n : nat) : ∃ c r, uuidv4 n = String c r ∧ isDigit c = true.
Proof.
  unfold uuidv4, pretty, pretty_nat, pretty, pretty_N.
  case_decide as Hn.
  - by exists "0"%char, "".
  - apply pretty_N_go_head. lia.
Qed.

Lemma uuidv4_listed (n : nat) : startsWith "uploads" (fileName (uuidv4 n)) = false.
Proof.
  destruct (uuidv4_head n) as (c & r & -> & Hc). unfold fileName.
  rewrite app_cons. cbn [startsWith].
  destruct (decide ("u"%char = c)) as [<-|Hu]; [done|done].
Qed.

Lemma elem_of_listTemplates (s : state) (t : template) :
  t ∈ (listTemplates s).2
  ↔ ∃ k, templateFiles s !! k = Some t ∧ startsWith "uploads" (fileName k) = false.
Proof.
  unfold listTemplates. cbn [snd]. rewrite merge_sort_Permutation, list_elem_of_omap.
  split.
  - intros ([k t'] & Hin%elem_of_map_to_list & Hm). cbn [fst snd] in Hm.
    destruct (startsWith "uploads" (fileName k)) eqn:Hu; [done|].
    injection Hm as <-. by exists k.
  - intros (k & Hk & Hu). exists (k, t).
    split; [by apply elem_of_map_to_list|]. cbn [fst snd]. by rewrite Hu.
Qed.

Lemma stored_new (t : template) (s s' : state) :
  t_id t = uuidv4 (uuidDrawn s) →
  s' = withTemplateFiles (<[t_id t := t]> (templateFiles s))
         (drawUuid s).2 →
  StoredIn t s s'.
Proof.
  intros Hid ->. unfold StoredIn. split_and!; [done| | |done..].
  - unfold getTemplate, withTemplateFiles. cbn [templateFiles].
    by rewrite lookup_insert_eq.
  - apply elem_of_listTemplates. exists (t_id t).
    unfold withTemplateFiles. cbn [templateFiles]. rewrite lookup_insert_eq.
    split; [done|]. rewrite Hid. apply uuidv4_listed.
Qed.

(** POST /api/templates answers in three ways.  400, with nothing changed,
    exactly when the name or the content is falsy.  201 when name, content
    and, where given, description and category are strings: the template is
    stored under a fresh id with every text trimmed (so a name of white
    space only is accepted and stored empty), the description defaulting to
    the empty text and the category to general, with no usage yet; it is
    then served by GET /:id and listed by GET /.  500, with no file written,
    when one of the supplied fields is not a string. *)
Theorem create_outcomes (now : Z) (body : value) (s : state) :
  match Templates.create now body s with
  | (Http201 summary, s') =>
      ∃ name content t,
        get "name" body = VStr name ∧ name ≠ ""
        ∧ get "content" body = VStr content ∧ content ≠ ""
        ∧ CreateFields body
        ∧ t_id t = uuidv4 (uuidDrawn s) ∧ ts_id summary = t_id t
        ∧ t_name t = trim name ∧ ts_name summary = trim name
        ∧ t_content t = trim content
        ∧ t_description t = storedDescription body
        ∧ t_category t = storedCategory body
        ∧ t_usageCount t = Some 0%nat ∧ t_lastUsed t = None
        ∧ t_createdAt t = now ∧ t_updatedAt t = now
        ∧ StoredIn t s s'
  | (Http400 error text, s') =>
      s' = s ∧ isNullish body = false
      ∧ (truthy (get "name" body) = false ∨ truthy (get "content" body) = false)
  | (Http500 error text, s') =>
      SameFiles s s'
      ∧ (isNullish body = true
         ∨ (truthy (get "name" body) = true ∧ truthy (get "content" body) = true
            ∧ ¬ (CreateFields body ∧ IsText (get "content" body))))
  | _ => False
  end.
Proof.
  unfold Templates.create, CreateFields, SameFiles, storedDescription,
    storedCategory.
  destruct (isNullish body) eqn:Hb.
  { split; [done|by left]. }
  destruct (truthy (get "name" body)) eqn:Hn; cbn [negb orb]; [|by auto].
  destruct (truthy (get "content" body)) eqn:Hc; cbn [negb]; [|by auto].
  cbn [drawUuid].
  assert (∀ v, (∀ x, v ≠ VStr x) → ¬ IsText v) as Hnot
    by (intros v Hv [x ->]; by eapply Hv).
  destruct (get "name" body) as [| | | |name| |] eqn:Hname;
    cbn [trimOf mbind result_bind];
    try (split; [done|]; right; split_and!; [done..|];
         intros [(Hf & _) _]; by apply Hnot in Hf).
  destruct (get "description" body) as [| | | |description| |] eqn:Hdesc;
    cbn [trimOr mbind result_bind];
    try (split; [done|]; right; split_and!; [done..|];
         intros [(_ & [Hf|[x Hf]] & _) _]; done).
  all: destruct (get "category" body) as [| | | |category| |] eqn:Hcat;
    cbn [trimOf mbind result_bind];
    try (split; [done|]; right; split_and!; [done..|];
         intros [(_ & _ & [Hf|[x Hf]]) _]; done).
  all: destruct (get "content" body) as [| | | |content| |] eqn:Hcont;
    cbn [trimOf mbind result_bind];
    try (split; [done|]; right; split_and!; [done..|];
         intros [_ Hf]; by apply Hnot in Hf).
  all: eexists name, content, _.
  all: split_and!; try done; try (by destruct name); try (by destruct content);
    try (by eexists); try (by left); try (by right; eexists);
    try (by apply stored_new).
  all: cbn [t_description]; by destruct (trim description).
Qed.

(** POST /api/templates/upload checks the file before the name: 400 with
    No file uploaded when there is no file, else 400 when the name is falsy,
    both with nothing changed.  Otherwise, when the name and, where given,
    the description and the category are strings, it answers 201 and stores
    the text of the file as it is (not trimmed, possibly empty) with the
    name of the file and its size, under a fresh id, with the trimmed name
    and the same defaults as creation; the template is then served and
    listed.  500, with no template written, when a field is not a string. *)
Theorem upload_outcomes (now : Z) (file : option uploadedFile) (body : value)
    (s : state) :
  match upload now file body s with
  | (Http201 summary, s') =>
      ∃ f name t,
        file = Some f ∧ get "name" body = VStr name ∧ name ≠ ""
        ∧ CreateFields body
        ∧ t_id t = uuidv4 (uuidDrawn s) ∧ ts_id summary = t_id t
        ∧ t_name t = trim name ∧ ts_name summary = trim name
        ∧ t_content t = fileText f
        ∧ t_originalFilename t = Some (originalname f)
        ∧ t_fileSize t = Some (size f)
        ∧ t_description t = storedDescription body
        ∧ t_category t = storedCategory body
        ∧ t_usageCount t = Some 0%nat ∧ t_lastUsed t = None
        ∧ t_createdAt t = now ∧ t_updatedAt t = now
        ∧ StoredIn t s s'
  | (Http400 error text, s') =>
      s' = s
      ∧ ((file = None ∧ error = "No file uploaded")
         ∨ (is_Some file ∧ isNullish body = false
            ∧ truthy (get "name" body) = false
            ∧ error = "Template name is required"))
  | (Http500 error text, s') =>
      SameFiles s s' ∧ is_Some file
      ∧ (isNullish body = true
         ∨ (truthy (get "name" body) = true ∧ ¬ CreateFields body))
  | _ => False
  end.
Proof.
  unfold upload, CreateFields, SameFiles, storedDescription, storedCategory.
  destruct file as [f|]; [|by auto].
  destruct (isNullish body) eqn:Hb.
  { split_and!; [done..|by left]. }
  destruct (truthy (get "name" body)) eqn:Hn; cbn [negb].
  2: { split; [done|]. right. by split_and!. }
  cbn [drawUuid].
  assert (∀ v, (∀ x, v ≠ VStr x) → ¬ IsText v) as Hnot
    by (intros v Hv [x ->]; by eapply Hv).
  destruct (get "name" body) as [| | | |name| |] eqn:Hname;
    cbn [trimOf mbind result_bind];
    try (split_and!; [done..|]; right; split; [done|];
         intros (Hf & _); by apply Hnot in Hf).
  destruct (get "description" body) as [| | | |description| |] eqn:Hdesc;
    cbn [trimOr mbind result_bind];
    try (split_and!; [done..|]; right; split; [done|];
         intros (_ & [Hf|[x Hf]] & _); done).
  all: destruct (get "category" body) as [| | | |category| |] eqn:Hcat;
    cbn [trimOf mbind result_bind];
    try (split_and!; [done..|]; right; split; [done|];
         intros (_ & _ & [Hf|[x Hf]]); done).
  all: eexists f, name, _.
  all: split_and!; try done; try (by destruct name);
    try (by eexists); try (by left); try (by right; eexists);
    try (by apply stored_new).
  all: cbn [t_description]; by destruct (trim description).
Qed.

Lemma startsWith_uploads (k : string) :
  startsWith "uploads" (fileName k) = startsWith "uploads" k.
Proof.
  unfold fileName.
  do 7 (destruct k as [|? k]; [by rewrite app_nil_l|];
        rewrite app_cons; cbn [startsWith]; case_decide; [|done]).
  done.
Qed.

(** GET /api/templates lists, newest first, exactly the templates stored
    under an id that does not begin with uploads, and counts them; GET /:id
    serves every stored template, also those that are not listed, and
    answers 404 for any other id. *)
Theorem listTemplates_spec (s : state) :
  (listTemplates s).1 = length (listTemplates s).2
  ∧ Sorted newerTemplate (listTemplates s).2
  ∧ (∀ t, t ∈ (listTemplates s).2
          ↔ ∃ k, templateFiles s !! k = Some t ∧ startsWith "uploads" k = false)
  ∧ (∀ k, match getTemplate k s with
          | Http200 t => templateFiles s !! k = Some t
          | Http404 error text =>
              templateFiles s !! k = None
              ∧ text = "Template with ID " +:+ k +:+ " does not exist"
          | _ => False
          end).
Proof.
  split_and!.
  - done.
  - unfold listTemplates. cbn [snd]. apply (Sorted_merge_sort newerTemplate).
  - intros t. rewrite elem_of_listTemplates.
    by setoid_rewrite startsWith_uploads.
  - intros k. unfold getTemplate. by destruct (templateFiles s !! k).
Qed.

(** DELETE /api/templates/:id answers 404, with nothing changed, exactly
    when no template is stored under the id.  Otherwise it removes that one
    file: the id is then unknown to GET, PUT and DELETE, the other templates
    are served as before, and the documents made from the template and all
    alerts stay as they are; a pending alert can no longer be processed with
    the deleted template: the request is answered 500 and the alert stays
    pending. *)
Theorem delete_outcomes (L : Lib) (templateId : string) (s : state) :
  match Templates.delete templateId s with
  | (Http200 _, s') =>
      is_Some (templateFiles s !! templateId)
      ∧ templateFiles s' = base.delete templateId (templateFiles s)
      ∧ pendingAlerts s' = pendingAlerts s ∧ alertFiles s' = alertFiles s
      ∧ documentFiles s' = documentFiles s
      ∧ getTemplate templateId s'
        = Http404 "Template not found"
            ("Template with ID " +:+ templateId +:+ " does not exist")
      ∧ (∀ k, k ≠ templateId → getTemplate k s' = getTemplate k s)
      ∧ Templates.delete templateId s'
        = (Http404 "Template not found"
             ("Template with ID " +:+ templateId +:+ " does not exist"), s')
      ∧ (∀ now body, isNullish body = false →
           Templates.update now templateId body s'
           = (Http404 "Template not found"
                ("Template with ID " +:+ templateId +:+ " does not exist"), s'))
      ∧ (∀ now k, templateId ≠ "" → is_Some (pendingAt k s) →
           process L now k (VStr templateId) s'
           = (Http500 "Failed to process alert"
                ("Template with ID " +:+ templateId +:+ " not found"), s'))
  | (Http404 error text, s') => templateFiles s !! templateId = None ∧ s' = s
  | _ => False
  end.
Proof.
  unfold Templates.delete.
  destruct (templateFiles s !! templateId) as [t|] eqn:Ht; [|done].
  unfold getTemplate, Templates.update, withTemplateFiles.
  cbn [templateFiles pendingAlerts alertFiles documentFiles].
  rewrite lookup_delete_eq. split_and!; try done.
  - intros k Hk. by rewrite lookup_delete_ne.
  - intros now body ->. done.
  - intros now k Hne [a Hat]. unfold process, pendingAt in *.
    cbn [pendingAlerts]. rewrite Hat.
    assert (truthy (VStr templateId) = true) as ->
      by (rewrite truthy_VStr; by apply bool_decide_eq_true).
    cbn [negb]. unfold generateDocument, loadTemplate.
    cbn [templateFiles toString]. by rewrite lookup_delete_eq.
Qed.

End TemplateExtras.

(** ** Documents: retrieval, download, deletion, routing *)

Module DocumentExtras.
Import JsString Js External Store Http DocumentGenerator Webhook Server.
Import Documents DocumentRoutes.
Import JsStringFacts NormalizeFacts ServerFacts GeneratorFacts SearchFacts.
Import WebhookExtras Examples.

(** The characters of a download name: lower-case ASCII letters, digits
    and the underscore. *)
Definition safeChar (c : ascii) : bool :=
  let n := code c in
  ((48 <=? n) && (n <=? 57) || (97 <=? n) && (n <=? 122) || (n =? 95))%N.

Fixpoint allSafe (s : string) : bool :=
  match s with
  | EmptyString => true
  | String c r => safeChar c && allSafe r
  end.

#[local] Instance newerSummary_total : Total newerSummary.
Proof. intros a b. unfold newerSummary. lia. Qed.

Lemma safe_replaced (c : ascii) :
  safeChar (lowerChar (if isAlnum c then c else "_"%char)) = true.
Proof. by destruct c as [[] [] [] [] [] [] [] []]. Qed.

Lemma safeChar_fixed (c : ascii) :
  safeChar c = true → lowerChar (if isAlnum c then c else "_"%char) = c.
Proof. by destruct c as [[] [] [] [] [] [] [] []]. Qed.

Lemma Contains_prefix (p rest : string) : Contains p (p +:+ rest).
Proof. exists "", rest. by rewrite app_nil_l. Qed.

Lemma elem_of_listDocuments (s : state) (x : documentSummary) :
  x ∈ (listDocuments s).2 ↔ ∃ k d, documentFiles s !! k = Some d ∧ x = toSummary d.
Proof.
  unfold listDocuments. cbn [snd]. rewrite merge_sort_Permutation, list_elem_of_fmap.
  split.
  - intros ([k d] & -> & Hin%elem_of_map_to_list). by exists k, d.
  - intros (k & d & Hd & ->). exists (k, d). split; [done|].
    by apply elem_of_map_to_list.
Qed.

(** The name offered for the download of a document is made of lower-case
    ASCII letters, digits and underscores only, one for each character of
    the title, followed by .txt (so it holds no quote, slash or line break,
    whatever the title); a title that is already of this form is kept, and
    sanitising twice changes nothing more. *)
Theorem downloadName_safe (title : string) :
  ∃ name,
    downloadName title = name +:+ ".txt"
    ∧ String.length name = String.length title
    ∧ allSafe name = true
    ∧ (allSafe title = true → name = title)
    ∧ downloadName name = downloadName title.
Proof.
  exists (toLowerCase (replaceNonAlnum title)). split; [done|].
  assert (∀ t, allSafe t = true → toLowerCase (replaceNonAlnum t) = t) as Hfix.
  { induction t as [|c t IH]; [done|]. cbn [allSafe replaceNonAlnum toLowerCase].
    intros [Hc Ht]%andb_true_iff. by rewrite safeChar_fixed, IH. }
  assert (allSafe (toLowerCase (replaceNonAlnum title)) = true) as Hsafe.
  { induction title as [|c t IH]; [done|].
    cbn [allSafe replaceNonAlnum toLowerCase]. by rewrite safe_replaced, IH. }
  split_and!.
  - rewrite toLowerCase_length. clear.
    induction title as [|c t IH]; [done|].
    cbn [replaceNonAlnum String.length]. by rewrite IH.
  - done.
  - apply Hfix.
  - unfold downloadName. by rewrite Hfix.
Qed.

(** GET /api/documents lists one summary for every stored document, newest
    first, with their number; GET /:id serves the stored document whole;
    GET /:id/content serves its content as text/plain, offered for download
    under the sanitised title; all three answer for exactly the stored ids,
    and 404 names the id otherwise. *)
Theorem documents_served (s : state) :
  (listDocuments s).1 = length (listDocuments s).2
  ∧ Sorted newerSummary (listDocuments s).2
  ∧ (listDocuments s).1 = size (documentFiles s)
  ∧ (∀ x, x ∈ (listDocuments s).2
          ↔ ∃ k d, documentFiles s !! k = Some d ∧ x = toSummary d)
  ∧ (∀ k, match documentFiles s !! k with
          | Some d =>
              getDocument k s = Http200 d
              ∧ content k s
                = Http200 {| contentType := "text/plain";
                             contentDisposition :=
                               Some ("attachment; filename=" +:+ dquote
                                     +:+ downloadName (d_title d) +:+ dquote);
                             body := d_content d |}
          | None =>
              getDocument k s = notFound k ∧ content k s = notFound k
          end).
Proof.
  split_and!.
  - done.
  - unfold listDocuments. cbn [snd]. apply (Sorted_merge_sort newerSummary).
  - unfold listDocuments. cbn [fst].
    by rewrite merge_sort_Permutation, length_fmap, length_map_to_list.
  - apply elem_of_listDocuments.
  - intros k. unfold getDocument, content. by destruct (documentFiles s !! k).
Qed.

(** The document of a successful POST /process/:alertId is at once served
    by GET /api/documents/:id, listed with the status generated and the time
    of the request, downloadable with the rendered text as body, and found
    by a search for its own title. *)
Theorem processed_document_served (L : Lib) (s s' : state) (now : Z) (k : string)
    (templateId : value) (p : processReply) :
  process L now k templateId s = (Http200 p, s') →
  getDocument (p_documentId p) s' = Http200 (p_document p)
  ∧ toSummary (p_document p) ∈ (listDocuments s').2
  ∧ ds_status (toSummary (p_document p)) = "generated"
  ∧ ds_createdAt (toSummary (p_document p)) = now
  ∧ (∃ x, content (p_documentId p) s' = Http200 x
          ∧ body x = d_content (p_document p))
  ∧ toMatch (p_document p) ∈ search (d_title (p_document p)) s'.
Proof.
  intros Hp.
  assert (truthy templateId = true) as Ht.
  { unfold process in Hp. by destruct (truthy templateId). }
  destruct (pendingAt k s) as [a|] eqn:Hat.
  2: { unfold process, pendingAt in *. by rewrite Ht, Hat in Hp. }
  rewrite (process_unfold L now k templateId s a Ht Hat) in Hp.
  destruct (generateDocument L now (a_originalPayload a) templateId s)
    as [[d|e] s1] eqn:Hg; [|done].
  destruct (generateDocument_ok L _ _ _ _ _ _ Hg)
    as (t & context & _ & _ & Hid & Hdocs & _).
  destruct (generateDocument_document L _ _ _ _ _ _ Hg)
    as (_ & _ & _ & Hst & Hat' & _).
  injection Hp as <- <-. cbn [p_document p_documentId].
  assert (documentFiles
            (withPending (mapDelete k (pendingAlerts s1))
               (withAlertFiles
                  (<[k := {| a_id := a_id a; a_timestamp := a_timestamp a;
                             a_alertHash := a_alertHash a;
                             a_originalPayload := a_originalPayload a;
                             a_status := "processed"; a_processedAt := Some now;
                             a_documentId := Some (d_id d);
                             a_templateId := templateId |}]> (alertFiles s1)) s1))
          !! d_id d = Some d) as Hlook.
  { cbn [documentFiles withPending withAlertFiles]. rewrite Hdocs.
    apply lookup_insert_eq. }
  split_and!.
  - unfold getDocument. by rewrite Hlook.
  - apply elem_of_listDocuments. by exists (d_id d), d.
  - done.
  - done.
  - unfold content. rewrite Hlook. by eexists.
  - apply elem_of_search. exists (d_id d), d. split_and!; [done| |done].
    unfold searchableText. rewrite toLowerCase_app. apply Contains_prefix.
Qed.

Lemma processed_document_served_witness :
  let s := run exampleLib [(exampleNow, Ingest cpuAlert)] oneTemplate in
  ∃ p s',
    process exampleLib (exampleNow + 5) (uuidv4 1) (VStr (uuidv4 0)) s = (Http200 p, s')
    ∧ getDocument (p_documentId p) s' = Http200 (p_document p)
    ∧ toSummary (p_document p) ∈ (listDocuments s').2
    ∧ ds_status (toSummary (p_document p)) = "generated"
    ∧ ds_createdAt (toSummary (p_document p)) = exampleNow + 5
    ∧ (∃ x, content (p_documentId p) s' = Http200 x
            ∧ body x = d_content (p_document p))
    ∧ toMatch (p_document p) ∈ search (d_title (p_document p)) s'.
Proof.
  intros s.
  assert (∃ p s', process exampleLib (exampleNow + 5) (uuidv4 1)
                    (VStr (uuidv4 0)) s = (Http200 p, s')) as (p & s' & Hp)
    by (vm_compute; eexists _, _; reflexivity).
  exists p, s'. split; [exact Hp|].
  apply (processed_document_served exampleLib s s' _ (uuidv4 1) (VStr (uuidv4 0)) p).
  exact Hp.
Defined.

(** Routes are tried in the order of their registration, and
    /:documentId/content and /:documentId/html come before /search/:query:
    a search for the word content or html, in any case, never reaches the
    search; it is answered by the download routes for the document id
    search, with 404 when no such document is stored.  Every other query
    is answered by the search. *)
Theorem search_shadowed (L : Lib) (query : string) (s : state) :
  ((∃ matches, handleGet L ["search"; query] s = Found matches)
   ↔ toLowerCase query ≠ "content" ∧ toLowerCase query ≠ "html")
  ∧ (toLowerCase query ≠ "content" → toLowerCase query ≠ "html" →
     handleGet L ["search"; query] s = Found (search query s))
  ∧ (toLowerCase query = "content" →
     handleGet L ["search"; query] s = Paged (content "search" s))
  ∧ (toLowerCase query = "html" →
     handleGet L ["search"; query] s = Paged (html L "search" s))
  ∧ (toLowerCase query = "content" ∨ toLowerCase query = "html" →
     documentFiles s !! "search" = None →
     handleGet L ["search"; query] s
     = Paged (Http404 "Document not found"
                "Document with ID search does not exist")).
Proof.
  unfold handleGet, dispatch, segmentIs, content, html.
  destruct (decide (toLowerCase query = "content")) as [Hc|Hc].
  { rewrite bool_decide_true by done. split_and!; try done.
    - split; [by intros [? ?]|by intros [? _]].
    - rewrite Hc. done.
    - intros _ ->. done. }
  rewrite (bool_decide_false _ Hc).
  destruct (decide (toLowerCase query = "html")) as [Hh|Hh].
  { rewrite bool_decide_true by done. split_and!; try done.
    - split; [by intros [? ?]|by intros [_ ?]].
    - intros _ ->. done. }
  rewrite (bool_decide_false _ Hh). rewrite bool_decide_true by done.
  split_and!; try done.
  - split; [done|]. intros _. by eexists.
  - by intros [?|?].
Qed.

(** DELETE /api/documents/:id answers 404, with nothing changed, exactly
    when no document is stored under the id.  Otherwise it removes that one
    file and nothing else: the id is then unknown, the other documents are
    served as before, no alert record is touched (a processed alert keeps
    naming the deleted document) and no template loses a use. *)
Theorem deleteDocument_outcomes (documentId : string) (s : state) :
  match deleteDocument documentId s with
  | (Http200 _, s') =>
      is_Some (documentFiles s !! documentId)
      ∧ documentFiles s' = base.delete documentId (documentFiles s)
      ∧ getDocument documentId s' = notFound documentId
      ∧ deleteDocument documentId s' = (notFound documentId, s')
      ∧ (∀ k, k ≠ documentId → getDocument k s' = getDocument k s)
      ∧ (listDocuments s').1 = ((listDocuments s).1 - 1)%nat
      ∧ alertFiles s' = alertFiles s ∧ pendingAlerts s' = pendingAlerts s
      ∧ templateFiles s' = templateFiles s
      ∧ (∀ k, WebhookQueries.alert k s' = WebhookQueries.alert k s)
  | (Http404 error text, s') =>
      documentFiles s !! documentId = None ∧ s' = s
      ∧ text = "Document with ID " +:+ documentId +:+ " does not exist"
  | _ => False
  end.
Proof.
  unfold deleteDocument.
  destruct (documentFiles s !! documentId) as [d|] eqn:Hd; [|done].
  unfold getDocument, listDocuments, withDocumentFiles.
  cbn [documentFiles pendingAlerts alertFiles templateFiles fst].
  rewrite lookup_delete_eq. split_and!; try done.
  - intros k Hk. by rewrite lookup_delete_ne.
  - rewrite !merge_sort_Permutation, !length_fmap, !length_map_to_list.
    rewrite map_size_delete_Some by eauto. lia.
Qed.

End DocumentExtras.

(** ** The generator: tags, priorities, the context of webhook alerts *)

Module GeneratorExtras.
Import JsString Js External Store Http DocumentGenerator Webhook Server.
Import JsStringFacts PriorityFacts NormalizeFacts ValidationFacts.
Import AlertRecordFacts WebhookExtras Examples.

(** The tag is a string that starts with the key and a colon. *)
Definition Tagged (key : string) (tag : value) : Prop :=
  ∃ rest, tag = VStr (key +:+ ":" +:+ rest).

(** The first cascade of [determinePriority] decides nothing on [v]. *)
Definition Undecided (v : value) : Prop :=
  ∀ p, v = VStr p → ¬ High p ∧ ¬ Medium p ∧ ¬ Low p.

Lemma find_first {A} (f : A → bool) (l : list A) :
  match List.find f l with
  | Some x => ∃ front back, l = front ++ x :: back
                            ∧ Forall (λ y, f y = false) front ∧ f x = true
  | None => Forall (λ y, f y = false) l
  end.
Proof.
  induction l as [|y l IH]; simpl; [done|].
  destruct (f y) eqn:Hy.
  - by exists [], l.
  - destruct (List.find f l) as [x|].
    + destruct IH as (front & back & -> & Hfront & Hx).
      exists (y :: front), back. split_and!; [done| |done]. by constructor.
    + by constructor.
Qed.

Lemma afterChar_app (c : ascii) (key rest : string) :
  ¬ Contains (String c "") key →
  afterChar c (key +:+ String c rest) = Some rest.
Proof.
  induction key as [|a key IH]; intros Hn.
  - rewrite app_nil_l. simpl. by rewrite decide_True.
  - rewrite app_cons. simpl. case_decide as Ha.
    + destruct Hn. subst a. exists "", key. by rewrite app_nil_l.
    + apply IH. intros (pre & post & ->). apply Hn.
      exists (String a pre), post. by rewrite app_cons.
Qed.

Lemma tagged_startsWith (key : string) (tag : value) :
  match tag with
  | VStr t => startsWith (key +:+ ":") t
  | _ => false
  end = true ↔ Tagged key tag.
Proof.
  unfold Tagged. destruct tag as [| | | |t| |];
    try (split; [done|by intros [? ?]]).
  rewrite startsWith_spec. split.
  - intros [rest ->]. exists rest. by rewrite app_assoc.
  - intros [rest [= ->]]. exists rest. by rewrite app_assoc.
Qed.

(** [extractTag], for a key without a colon: the empty text when the tags
    are not an array or no tag is a string that starts with the key and a
    colon; otherwise the value of the first such tag, cut at its next colon
    (a tag env:prod:eu gives prod). *)
Theorem extractTag_first_value (tags : value) (key : string) :
  ¬ Contains ":" key →
  match tags with
  | VArr items =>
      (Forall (λ tag, ¬ Tagged key tag) items ∧ extractTag tags key = VStr "")
      ∨ (∃ front back value more,
           items = front ++ VStr (key +:+ ":" +:+ value +:+ more) :: back
           ∧ Forall (λ tag, ¬ Tagged key tag) front
           ∧ ¬ Contains ":" value
           ∧ (more = "" ∨ ∃ r, more = String ":" r)
           ∧ extractTag tags key = VStr value)
  | _ => extractTag tags key = VStr ""
  end.
Proof.
  intros Hkey. destruct tags as [| | | | |items|]; try done.
  unfold extractTag.
  pose proof (find_first (λ tag, match tag with
                                 | VStr t => startsWith (key +:+ ":") t
                                 | _ => false
                                 end) items) as Hfind.
  destruct (List.find _ items) as [tag|].
  - right. destruct Hfind as (front & back & -> & Hfront & Htag).
    apply tagged_startsWith in Htag as [rest ->].
    destruct (untilChar_spec ":" rest) as (Hvalue & more & Hrest & Hmore).
    exists front, back, (untilChar ":" rest), more. split_and!.
    + by rewrite <-Hrest.
    + eapply Forall_impl; [exact Hfront|]. intros tag Htag Ht.
      apply tagged_startsWith in Ht. congruence.
    + done.
    + done.
    + assert (truthy (VStr (key +:+ ":" +:+ rest)) = true) as ->.
      { rewrite truthy_VStr. apply bool_decide_eq_true.
        destruct key; [by rewrite app_nil_l|by rewrite app_cons]. }
      unfold secondPart.
      change (":" +:+ rest) with (String ":" rest).
      by rewrite afterChar_app.
  - left. split; [|done]. eapply Forall_impl; [exact Hfind|].
    intros tag Htag Ht. apply tagged_startsWith in Ht. congruence.
Qed.

Lemma extractTag_first_value_witness :
  let tags := VArr [VStr "service:api"; VNum 7; VStr "env:prod:eu"; VStr "env:dev"] in
  (Forall (λ tag, ¬ Tagged "env" tag)
          [VStr "service:api"; VNum 7; VStr "env:prod:eu"; VStr "env:dev"]
   ∧ extractTag tags "env" = VStr "")
  ∨ (∃ front back value more,
       [VStr "service:api"; VNum 7; VStr "env:prod:eu"; VStr "env:dev"]
       = front ++ VStr ("env" +:+ ":" +:+ value +:+ more) :: back
       ∧ Forall (λ tag, ¬ Tagged "env" tag) front
       ∧ ¬ Contains ":" value
       ∧ (more = "" ∨ ∃ r, more = String ":" r)
       ∧ extractTag tags "env" = VStr value).
Proof.
  apply (extractTag_first_value
           (VArr [VStr "service:api"; VNum 7; VStr "env:prod:eu"; VStr "env:dev"])
           "env").
  rewrite <-includes_spec. by vm_compute.
Defined.

Lemma Undecided_cascade (v : value) :
  match v with
  | VStr priority =>
      let p := toLowerCase priority in
      if includes "critical" p || includes "high" p || includes "error" p
      then Some "high"
      else if includes "warning" p || includes "medium" p || includes "warn" p
      then Some "medium"
      else if includes "info" p || includes "low" p
      then Some "low"
      else None
  | _ => None
  end = None ↔ Undecided v.
Proof.
  unfold Undecided. destruct v as [| | | |p| |]; try (split; [by intros _ ?|done]).
  cbn zeta.
  destruct (includes "critical" _ || includes "high" _ || includes "error" _)
    eqn:Hh.
  { apply High_includes in Hh. split; [done|]. intros H.
    by destruct (H p eq_refl) as (? & _). }
  assert (¬ High p) as Hnh by (rewrite <-High_includes, Hh; done).
  destruct (includes "warning" _ || includes "medium" _ || includes "warn" _)
    eqn:Hm.
  { apply Medium_includes in Hm. split; [done|]. intros H.
    by destruct (H p eq_refl) as (_ & ? & _). }
  assert (¬ Medium p) as Hnm by (rewrite <-Medium_includes, Hm; done).
  destruct (includes "info" _ || includes "low" _) eqn:Hl.
  { apply Low_includes in Hl. split; [done|]. intros H.
    by destruct (H p eq_refl) as (_ & _ & ?). }
  assert (¬ Low p) as Hnl by (rewrite <-Low_includes, Hl; done).
  split; [|done]. by intros _ ? [= <-].
Qed.

(** [determinePriority] returns high, medium or low, or throws; it throws
    exactly when the alert is null or undefined, or when the first cascade
    decides nothing on [priority || alert_type] and the alert type is truthy
    without being a string (its [toLowerCase] is then not a function). *)
Theorem determinePriority_throws (alertData : value) :
  match determinePriority alertData with
  | Ok priority =>
      (priority = "high" ∨ priority = "medium" ∨ priority = "low")
      ∧ isNullish alertData = false
      ∧ (Undecided (or (get "priority" alertData) (get "alert_type" alertData)) →
         truthy (get "alert_type" alertData) = false
         ∨ ∃ t, get "alert_type" alertData = VStr t)
  | Throw e =>
      isNullish alertData = true
      ∨ (Undecided (or (get "priority" alertData) (get "alert_type" alertData))
         ∧ truthy (get "alert_type" alertData) = true
         ∧ ∀ t, get "alert_type" alertData ≠ VStr t)
  end.
Proof.
  unfold determinePriority. destruct (isNullish alertData) eqn:Hnull; [by left|].
  pose proof (Undecided_cascade
                (or (get "priority" alertData) (get "alert_type" alertData)))
    as Hcascade.
  cbn zeta in *.
  destruct (match or (get "priority" alertData) (get "alert_type" alertData) with
            | VStr priority => _
            | _ => None
            end) as [r|] eqn:Hr.
  - assert (r = "high" ∨ r = "medium" ∨ r = "low") as Hcases.
    { destruct (or _ _) as [| | | |p| |]; try done.
      repeat (destruct (_ || _) in Hr; [injection Hr as <-; auto|]).
      repeat (destruct (_ || _ || _) in Hr; [injection Hr as <-; auto|]).
      done. }
    split_and!; [done..|]. intros Hu. apply Hcascade in Hu. done.
  - assert (Undecided (or (get "priority" alertData) (get "alert_type" alertData)))
      as Hu by (by apply Hcascade).
    assert (or (get "alert_type" alertData) (VStr "")
            = if truthy (get "alert_type" alertData)
              then get "alert_type" alertData else VStr "") as -> by done.
    destruct (truthy (get "alert_type" alertData)) eqn:Ht.
    + destruct (get "alert_type" alertData) as [| | | |t| |] eqn:Htype;
        try (by cbn in Ht); try (right; by split_and!).
      destruct (_ || _); [|destruct (_ || _)];
        (split_and!; [auto..|]; intros _; right; by eexists).
    + cbn. split_and!; [auto..|]. intros _. by left.
Qed.

End GeneratorExtras.
